(** * RooUnfold: the algorithm-agnostic unfolding engine of [src/RooUnfold.cxx]

    A shallow embedding of the base class [RooUnfoldT<Hist,Hist2D>] in its
    [TH1,TH2] instantiation: the lazy [Cache], the error-treatment dispatch of
    [UnfoldWithErrors], the toy engine ([RunToys], [RunToy], [GetErrMat],
    [RunBiasAsimovToys]), the three bias protocols of [CalculateBias],
    [InvertMatrix], the life cycle of the object ([New], [Setup], [Assign],
    the copy constructor), the overloads of [SetMeasured], and [CutZeros].

    Conventions of the embedding.
    - [Double_t] is read as an exact real number ([R]); rounding, infinities
      and NaN are outside the model.  [sqrt] and [fabs] are [sqrt] and [Rabs].
    - [TVectorD] is a list of entries, [TMatrixD] a list of rows.  ROOT checks
      every index: a read outside the range logs an error and yields the
      content of the library's spare slot ([gNanValue] below), a write outside
      the range leaves the container as it is.  Assignment between
      containers of different shapes is refused by ROOT and leaves the target
      as it is.
    - Member functions are computations in a state-and-exception monad over
      the object; the object survives a thrown exception.  Dereferencing a
      null pointer, indexing a [std::vector] outside its size and exhausting
      the call stack are reported as [Fault].
    - Virtual member functions are fields of a [Strategy]; the bodies the
      base class gives them carry the names of the source.
    - Output on [cout] and [cerr] is not modelled. *)

From Stdlib Require Import String.
From Stdlib Require Import Reals Lra Lia List ZArith Bool Arith.
Import ListNotations.

Set Implicit Arguments.
Open Scope R_scope.

(** ** Numbers *)

Definition Double_t := R.

Definition Rltb (x y : Double_t) : bool := if Rlt_dec x y then true else false.
Definition Rleb (x y : Double_t) : bool := if Rle_dec x y then true else false.
Definition Reqb (x y : Double_t) : bool := if Req_dec_T x y then true else false.

(** ** [TVectorD] *)

Definition TVectorD := list Double_t.

(** [TVectorD v(n)]: [n] entries, all zero. *)
Definition TVectorD_n (n : nat) : TVectorD := repeat 0 n.

(** [v.ResizeTo(n)] keeps the entries that remain and zero-fills new ones. *)
Definition vResizeTo (n : nat) (v : TVectorD) : TVectorD :=
  firstn n v ++ repeat 0 (n - length v).

(** [v(i)] read with the spare slot [nan] for an index outside the range. *)
Definition vget (nan : Double_t) (v : TVectorD) (i : nat) : Double_t :=
  nth i v nan.

(** [v(i) = x] *)
Fixpoint vset (v : TVectorD) (i : nat) (x : Double_t) : TVectorD :=
  match v, i with
  | [], _ => []
  | _ :: t, O => x :: t
  | h :: t, S j => h :: vset t j x
  end.

(** [target = source] between vectors. *)
Definition vassign (target source : TVectorD) : TVectorD :=
  if Nat.eqb (length target) (length source) then source else target.

(** [a - b] between vectors ([operator-=] on a copy of [a]). *)
Definition vsub (a b : TVectorD) : TVectorD :=
  if Nat.eqb (length a) (length b)
  then map (fun p => fst p - snd p) (combine a b) else a.

(** ** [TMatrixD] *)

Definition TMatrixD := list (list Double_t).

Definition GetNrows (m : TMatrixD) : nat := length m.
Definition GetNcols (m : TMatrixD) : nat :=
  match m with [] => O | r :: _ => length r end.

(** [TMatrixD m(n,k)]: all zero. *)
Definition TMatrixD_nk (n k : nat) : TMatrixD := repeat (repeat 0 k) n.

Definition in_range (m : TMatrixD) (i j : nat) : bool :=
  Nat.ltb i (GetNrows m) && Nat.ltb j (GetNcols m).

(** [m(i,j)] read. *)
Definition mget (nan : Double_t) (m : TMatrixD) (i j : nat) : Double_t :=
  if in_range m i j then nth j (nth i m []) 0 else nan.

Fixpoint row_set (m : TMatrixD) (i j : nat) (x : Double_t) : TMatrixD :=
  match m, i with
  | [], _ => []
  | r :: t, O => vset r j x :: t
  | r :: t, S i' => r :: row_set t i' j x
  end.

(** [m(i,j) = x] *)
Definition mset (m : TMatrixD) (i j : nat) (x : Double_t) : TMatrixD :=
  if in_range m i j then row_set m i j x else m.

(** [m.ResizeTo(n,k)] *)
Definition mResizeTo (n k : nat) (m : TMatrixD) : TMatrixD :=
  map (fun i => map (fun j => mget 0 m i j) (seq 0 k)) (seq 0 n).

Definition same_shape (a b : TMatrixD) : bool :=
  Nat.eqb (GetNrows a) (GetNrows b) && Nat.eqb (GetNcols a) (GetNcols b).

(** [target = source] between matrices. *)
Definition massign (target source : TMatrixD) : TMatrixD :=
  if same_shape target source then source else target.

(** ** Enumerations of namespace [RooUnfolding] *)

Inductive Algorithm :=
  kNone | kBayes | kSVD | kBinByBin | kTUnfold | kInvert | kDagostini | kIDS | kGP.

Inductive ErrorTreatment :=
  kNoError | kErrors | kCovariance | kCovToy | kRooFit | kDefault.

Inductive BiasMethod := kBiasEstimator | kBiasClosure | kBiasAsimov.

Inductive SystematicsTreatment := kNoSystematics | kAll | kNoMeasured.

Definition ErrorTreatment_eqb (a b : ErrorTreatment) : bool :=
  match a, b with
  | kNoError, kNoError | kErrors, kErrors | kCovariance, kCovariance
  | kCovToy, kCovToy | kRooFit, kRooFit | kDefault, kDefault => true
  | _, _ => false
  end.

Definition SystematicsTreatment_eqb (a b : SystematicsTreatment) : bool :=
  match a, b with
  | kNoSystematics, kNoSystematics | kAll, kAll | kNoMeasured, kNoMeasured => true
  | _, _ => false
  end.

(** ** Outcomes of a call *)

Inductive exn :=
| runtime_error (what : string)
| Fault (why : string).

Inductive outcome (A : Type) :=
| Ok (a : A)
| Raise (e : exn).
Arguments Ok {A} a.
Arguments Raise {A} e.

(** ** Collaborators that are not part of [RooUnfold.cxx]

    The histogram layer, the response object, the random generator, ROOT's
    SVD and the members whose initial values and default arguments are
    declared in [RooUnfold.h]. *)

Class Externals := {
  Hist : Type;
  Response : Type;
  TRandom : Type;
  (** the spare slot ROOT hands out for an index outside the range *)
  gNanValue : Double_t;
  (** [h2v(h, overflow, density)], [h2ve(h, overflow, density)] *)
  h2v : Hist -> bool -> bool -> TVectorD;
  h2ve : Hist -> bool -> bool -> TVectorD;
  (** the two-argument calls [h2v(h,false)], [h2ve(h,false)] *)
  h2v2 : Hist -> bool -> TVectorD;
  h2ve2 : Hist -> bool -> TVectorD;
  asimovClone : Hist -> bool -> Hist;
  (** [RooUnfoldResponseT] *)
  GetNbinsMeasured : Response -> nat;
  GetNbinsTruth : Response -> nat;
  UseOverflowStatus : Response -> bool;
  UseDensityStatus : Response -> bool;
  Htruth : Response -> option Hist;
  Hmeasured : Response -> option Hist;
  Vtruth : Response -> TVectorD;
  Etruth : Response -> TVectorD;
  Vfolded : Response -> TVectorD -> TVectorD;
  Response_RunToy : Response -> Response;
  Response_ClearCache : Response -> Response;
  (** [RooUnfolding::randomize(v, rnd)] *)
  randomize : TVectorD -> TRandom -> TVectorD * TRandom;
  (** [ABAT(a, b, c)]: [c = a b a^T] *)
  ABAT : TMatrixD -> TMatrixD -> TMatrixD;
  (** [TDecompSVD]: [Condition()] and [Invert(ok)] *)
  svd_Condition : TMatrixD -> Double_t;
  svd_Invert : TMatrixD -> TMatrixD * bool;
  (** members initialised in the class declaration *)
  withError_init : ErrorTreatment;
  rnd_init : TRandom;
  (** default arguments of [EunfoldV(withError)] and [Chi2(hTrue, DoChi2)] *)
  EunfoldV_default : ErrorTreatment;
  Chi2_default : ErrorTreatment
}.

Section Engine.

Context {X : Externals}.

(** ** [RooUnfoldT::Cache] *)

Record Cache := mkCache {
  _minparm : Double_t;
  _maxparm : Double_t;
  _stepsizeparm : Double_t;
  _defaultparm : Double_t;
  _unfolded : bool;
  _fail : bool;
  _haveCov : bool;
  _haveWgt : bool;
  _have_err_mat : bool;
  _haveBias : bool;
  _haveErrors : bool;
  _rec : TVectorD;
  _cov : TMatrixD;
  _wgt : TMatrixD;
  _variances : TVectorD;
  _err_mat : TMatrixD;
  _bias : TVectorD;
  _sigbias : TVectorD;
  _vMes : option TVectorD;
  _eMes : option TVectorD;
  _covL : option TMatrixD;
  (** [Cache::_covMes]; the engine has a member [_covMes] of its own *)
  _cache_covMes : option TMatrixD
}.

(** [Cache::Cache()] *)
Definition Cache_ctor : Cache :=
  {| _minparm := 0; _maxparm := 0; _stepsizeparm := 0; _defaultparm := 0;
     _unfolded := false; _fail := false; _haveCov := false; _haveWgt := false;
     _have_err_mat := false; _haveBias := false; _haveErrors := false;
     _rec := TVectorD_n 1;
     _cov := TMatrixD_nk 1 1;
     _wgt := TMatrixD_nk 1 1;
     _variances := TVectorD_n 1;
     _err_mat := TMatrixD_nk 1 1;
     _bias := TVectorD_n 1;
     _sigbias := TVectorD_n 1;
     _vMes := None; _eMes := None; _covL := None; _cache_covMes := None |}.

(** [Cache::operator=] *)
Definition Cache_assign (this other : Cache) : Cache :=
  {| _minparm := _minparm other;
     _maxparm := _maxparm other;
     _stepsizeparm := _stepsizeparm other;
     _defaultparm := _defaultparm other;
     _unfolded := _unfolded other;
     _haveCov := _haveCov other;
     _fail := _fail other;
     _have_err_mat := _have_err_mat other;
     _haveBias := _haveBias other;
     _haveErrors := _haveErrors other;
     _haveWgt := _haveWgt other;
     _rec := vassign (vResizeTo (length (_rec other)) (_rec this)) (_rec other);
     _cov := massign (mResizeTo (GetNrows (_cov other)) (GetNcols (_cov other))
                                (_cov this)) (_cov other);
     _wgt := massign (mResizeTo (GetNrows (_wgt other)) (GetNcols (_wgt other))
                                (_wgt this)) (_wgt other);
     _variances := vassign (vResizeTo (length (_variances other)) (_variances this))
                           (_variances other);
     _err_mat := massign (mResizeTo (GetNrows (_err_mat other))
                                    (GetNcols (_err_mat other)) (_err_mat this))
                         (_err_mat other);
     _bias := vassign (vResizeTo (length (_bias other)) (_bias this)) (_bias other);
     _sigbias := vassign (vResizeTo (length (_sigbias other)) (_sigbias this))
                         (_sigbias other);
     _vMes := _vMes other;
     _eMes := _eMes other;
     _covL := _covL other;
     _cache_covMes := _cache_covMes other |}.

(** Field updates of the cache. *)
Definition set_parms (a b c d : Double_t) (k : Cache) : Cache :=
  mkCache a b c d
    (_unfolded k) (_fail k) (_haveCov k) (_haveWgt k) (_have_err_mat k) (_haveBias k)
    (_haveErrors k) (_rec k) (_cov k) (_wgt k) (_variances k) (_err_mat k) (_bias k)
    (_sigbias k) (_vMes k) (_eMes k) (_covL k) (_cache_covMes k).
Definition set_unfolded (x : bool) (k : Cache) : Cache :=
  mkCache
    (_minparm k) (_maxparm k) (_stepsizeparm k) (_defaultparm k) x (_fail k)
    (_haveCov k) (_haveWgt k) (_have_err_mat k) (_haveBias k) (_haveErrors k) (_rec k)
    (_cov k) (_wgt k) (_variances k) (_err_mat k) (_bias k) (_sigbias k) (_vMes k)
    (_eMes k) (_covL k) (_cache_covMes k).
Definition set_fail (x : bool) (k : Cache) : Cache :=
  mkCache
    (_minparm k) (_maxparm k) (_stepsizeparm k) (_defaultparm k) (_unfolded k) x
    (_haveCov k) (_haveWgt k) (_have_err_mat k) (_haveBias k) (_haveErrors k) (_rec k)
    (_cov k) (_wgt k) (_variances k) (_err_mat k) (_bias k) (_sigbias k) (_vMes k)
    (_eMes k) (_covL k) (_cache_covMes k).
Definition set_haveCov (x : bool) (k : Cache) : Cache :=
  mkCache
    (_minparm k) (_maxparm k) (_stepsizeparm k) (_defaultparm k) (_unfolded k)
    (_fail k) x (_haveWgt k) (_have_err_mat k) (_haveBias k) (_haveErrors k) (_rec k)
    (_cov k) (_wgt k) (_variances k) (_err_mat k) (_bias k) (_sigbias k) (_vMes k)
    (_eMes k) (_covL k) (_cache_covMes k).
Definition set_haveWgt (x : bool) (k : Cache) : Cache :=
  mkCache
    (_minparm k) (_maxparm k) (_stepsizeparm k) (_defaultparm k) (_unfolded k)
    (_fail k) (_haveCov k) x (_have_err_mat k) (_haveBias k) (_haveErrors k) (_rec k)
    (_cov k) (_wgt k) (_variances k) (_err_mat k) (_bias k) (_sigbias k) (_vMes k)
    (_eMes k) (_covL k) (_cache_covMes k).
Definition set_have_err_mat (x : bool) (k : Cache) : Cache :=
  mkCache
    (_minparm k) (_maxparm k) (_stepsizeparm k) (_defaultparm k) (_unfolded k)
    (_fail k) (_haveCov k) (_haveWgt k) x (_haveBias k) (_haveErrors k) (_rec k)
    (_cov k) (_wgt k) (_variances k) (_err_mat k) (_bias k) (_sigbias k) (_vMes k)
    (_eMes k) (_covL k) (_cache_covMes k).
Definition set_haveBias (x : bool) (k : Cache) : Cache :=
  mkCache
    (_minparm k) (_maxparm k) (_stepsizeparm k) (_defaultparm k) (_unfolded k)
    (_fail k) (_haveCov k) (_haveWgt k) (_have_err_mat k) x (_haveErrors k) (_rec k)
    (_cov k) (_wgt k) (_variances k) (_err_mat k) (_bias k) (_sigbias k) (_vMes k)
    (_eMes k) (_covL k) (_cache_covMes k).
Definition set_haveErrors (x : bool) (k : Cache) : Cache :=
  mkCache
    (_minparm k) (_maxparm k) (_stepsizeparm k) (_defaultparm k) (_unfolded k)
    (_fail k) (_haveCov k) (_haveWgt k) (_have_err_mat k) (_haveBias k) x (_rec k)
    (_cov k) (_wgt k) (_variances k) (_err_mat k) (_bias k) (_sigbias k) (_vMes k)
    (_eMes k) (_covL k) (_cache_covMes k).
Definition set_rec (x : TVectorD) (k : Cache) : Cache :=
  mkCache
    (_minparm k) (_maxparm k) (_stepsizeparm k) (_defaultparm k) (_unfolded k)
    (_fail k) (_haveCov k) (_haveWgt k) (_have_err_mat k) (_haveBias k) (_haveErrors k)
    x (_cov k) (_wgt k) (_variances k) (_err_mat k) (_bias k) (_sigbias k) (_vMes k)
    (_eMes k) (_covL k) (_cache_covMes k).
Definition set_cov (x : TMatrixD) (k : Cache) : Cache :=
  mkCache
    (_minparm k) (_maxparm k) (_stepsizeparm k) (_defaultparm k) (_unfolded k)
    (_fail k) (_haveCov k) (_haveWgt k) (_have_err_mat k) (_haveBias k) (_haveErrors k)
    (_rec k) x (_wgt k) (_variances k) (_err_mat k) (_bias k) (_sigbias k) (_vMes k)
    (_eMes k) (_covL k) (_cache_covMes k).
Definition set_wgt (x : TMatrixD) (k : Cache) : Cache :=
  mkCache
    (_minparm k) (_maxparm k) (_stepsizeparm k) (_defaultparm k) (_unfolded k)
    (_fail k) (_haveCov k) (_haveWgt k) (_have_err_mat k) (_haveBias k) (_haveErrors k)
    (_rec k) (_cov k) x (_variances k) (_err_mat k) (_bias k) (_sigbias k) (_vMes k)
    (_eMes k) (_covL k) (_cache_covMes k).
Definition set_variances (x : TVectorD) (k : Cache) : Cache :=
  mkCache
    (_minparm k) (_maxparm k) (_stepsizeparm k) (_defaultparm k) (_unfolded k)
    (_fail k) (_haveCov k) (_haveWgt k) (_have_err_mat k) (_haveBias k) (_haveErrors k)
    (_rec k) (_cov k) (_wgt k) x (_err_mat k) (_bias k) (_sigbias k) (_vMes k)
    (_eMes k) (_covL k) (_cache_covMes k).
Definition set_err_mat (x : TMatrixD) (k : Cache) : Cache :=
  mkCache
    (_minparm k) (_maxparm k) (_stepsizeparm k) (_defaultparm k) (_unfolded k)
    (_fail k) (_haveCov k) (_haveWgt k) (_have_err_mat k) (_haveBias k) (_haveErrors k)
    (_rec k) (_cov k) (_wgt k) (_variances k) x (_bias k) (_sigbias k) (_vMes k)
    (_eMes k) (_covL k) (_cache_covMes k).
Definition set_bias (x : TVectorD) (k : Cache) : Cache :=
  mkCache
    (_minparm k) (_maxparm k) (_stepsizeparm k) (_defaultparm k) (_unfolded k)
    (_fail k) (_haveCov k) (_haveWgt k) (_have_err_mat k) (_haveBias k) (_haveErrors k)
    (_rec k) (_cov k) (_wgt k) (_variances k) (_err_mat k) x (_sigbias k) (_vMes k)
    (_eMes k) (_covL k) (_cache_covMes k).
Definition set_sigbias (x : TVectorD) (k : Cache) : Cache :=
  mkCache
    (_minparm k) (_maxparm k) (_stepsizeparm k) (_defaultparm k) (_unfolded k)
    (_fail k) (_haveCov k) (_haveWgt k) (_have_err_mat k) (_haveBias k) (_haveErrors k)
    (_rec k) (_cov k) (_wgt k) (_variances k) (_err_mat k) (_bias k) x (_vMes k)
    (_eMes k) (_covL k) (_cache_covMes k).
Definition set_vMes (x : option TVectorD) (k : Cache) : Cache :=
  mkCache
    (_minparm k) (_maxparm k) (_stepsizeparm k) (_defaultparm k) (_unfolded k)
    (_fail k) (_haveCov k) (_haveWgt k) (_have_err_mat k) (_haveBias k) (_haveErrors k)
    (_rec k) (_cov k) (_wgt k) (_variances k) (_err_mat k) (_bias k) (_sigbias k) x
    (_eMes k) (_covL k) (_cache_covMes k).
Definition set_eMes (x : option TVectorD) (k : Cache) : Cache :=
  mkCache
    (_minparm k) (_maxparm k) (_stepsizeparm k) (_defaultparm k) (_unfolded k)
    (_fail k) (_haveCov k) (_haveWgt k) (_have_err_mat k) (_haveBias k) (_haveErrors k)
    (_rec k) (_cov k) (_wgt k) (_variances k) (_err_mat k) (_bias k) (_sigbias k)
    (_vMes k) x (_covL k) (_cache_covMes k).
Definition set_cache_covMes (x : option TMatrixD) (k : Cache) : Cache :=
  mkCache
    (_minparm k) (_maxparm k) (_stepsizeparm k) (_defaultparm k) (_unfolded k)
    (_fail k) (_haveCov k) (_haveWgt k) (_have_err_mat k) (_haveBias k) (_haveErrors k)
    (_rec k) (_cov k) (_wgt k) (_variances k) (_err_mat k) (_bias k) (_sigbias k)
    (_vMes k) (_eMes k) (_covL k) x.

(** ** The object [RooUnfoldT<TH1,TH2>]

    [Unfold_calls] is an instrumentation counter: the number of times the
    virtual [Unfold()] of this object has been entered. *)

Record RooUnfoldT := mkRooUnfoldT {
  _cache : Cache;
  _withError : ErrorTreatment;
  _res : option Response;
  _meas : option Hist;
  _nm : nat;
  _nt : nat;
  _verbose : Z;
  _overflow : Z;
  _dosys : SystematicsTreatment;
  _covMes : option TMatrixD;
  _NToys : Z;
  _alg : Algorithm;
  rnd : TRandom;
  Unfold_calls : nat
}.

Definition set_cache (x : Cache) (o : RooUnfoldT) : RooUnfoldT :=
  mkRooUnfoldT
    x (_withError o) (_res o) (_meas o) (_nm o) (_nt o) (_verbose o) (_overflow o)
    (_dosys o) (_covMes o) (_NToys o) (_alg o) (rnd o) (Unfold_calls o).
Definition set_withError (x : ErrorTreatment) (o : RooUnfoldT) : RooUnfoldT :=
  mkRooUnfoldT
    (_cache o) x (_res o) (_meas o) (_nm o) (_nt o) (_verbose o) (_overflow o)
    (_dosys o) (_covMes o) (_NToys o) (_alg o) (rnd o) (Unfold_calls o).
Definition set_res (x : option Response) (o : RooUnfoldT) : RooUnfoldT :=
  mkRooUnfoldT
    (_cache o) (_withError o) x (_meas o) (_nm o) (_nt o) (_verbose o) (_overflow o)
    (_dosys o) (_covMes o) (_NToys o) (_alg o) (rnd o) (Unfold_calls o).
Definition set_meas (x : option Hist) (o : RooUnfoldT) : RooUnfoldT :=
  mkRooUnfoldT
    (_cache o) (_withError o) (_res o) x (_nm o) (_nt o) (_verbose o) (_overflow o)
    (_dosys o) (_covMes o) (_NToys o) (_alg o) (rnd o) (Unfold_calls o).
Definition set_nm (x : nat) (o : RooUnfoldT) : RooUnfoldT :=
  mkRooUnfoldT
    (_cache o) (_withError o) (_res o) (_meas o) x (_nt o) (_verbose o) (_overflow o)
    (_dosys o) (_covMes o) (_NToys o) (_alg o) (rnd o) (Unfold_calls o).
Definition set_nt (x : nat) (o : RooUnfoldT) : RooUnfoldT :=
  mkRooUnfoldT
    (_cache o) (_withError o) (_res o) (_meas o) (_nm o) x (_verbose o) (_overflow o)
    (_dosys o) (_covMes o) (_NToys o) (_alg o) (rnd o) (Unfold_calls o).
Definition set_verbose (x : Z) (o : RooUnfoldT) : RooUnfoldT :=
  mkRooUnfoldT
    (_cache o) (_withError o) (_res o) (_meas o) (_nm o) (_nt o) x (_overflow o)
    (_dosys o) (_covMes o) (_NToys o) (_alg o) (rnd o) (Unfold_calls o).
Definition set_overflow (x : Z) (o : RooUnfoldT) : RooUnfoldT :=
  mkRooUnfoldT
    (_cache o) (_withError o) (_res o) (_meas o) (_nm o) (_nt o) (_verbose o) x
    (_dosys o) (_covMes o) (_NToys o) (_alg o) (rnd o) (Unfold_calls o).
Definition set_dosys (x : SystematicsTreatment) (o : RooUnfoldT) : RooUnfoldT :=
  mkRooUnfoldT
    (_cache o) (_withError o) (_res o) (_meas o) (_nm o) (_nt o) (_verbose o)
    (_overflow o) x (_covMes o) (_NToys o) (_alg o) (rnd o) (Unfold_calls o).
Definition set_covMes (x : option TMatrixD) (o : RooUnfoldT) : RooUnfoldT :=
  mkRooUnfoldT
    (_cache o) (_withError o) (_res o) (_meas o) (_nm o) (_nt o) (_verbose o)
    (_overflow o) (_dosys o) x (_NToys o) (_alg o) (rnd o) (Unfold_calls o).
Definition set_NToys (x : Z) (o : RooUnfoldT) : RooUnfoldT :=
  mkRooUnfoldT
    (_cache o) (_withError o) (_res o) (_meas o) (_nm o) (_nt o) (_verbose o)
    (_overflow o) (_dosys o) (_covMes o) x (_alg o) (rnd o) (Unfold_calls o).
Definition set_alg (x : Algorithm) (o : RooUnfoldT) : RooUnfoldT :=
  mkRooUnfoldT
    (_cache o) (_withError o) (_res o) (_meas o) (_nm o) (_nt o) (_verbose o)
    (_overflow o) (_dosys o) (_covMes o) (_NToys o) x (rnd o) (Unfold_calls o).
Definition set_rnd (x : TRandom) (o : RooUnfoldT) : RooUnfoldT :=
  mkRooUnfoldT
    (_cache o) (_withError o) (_res o) (_meas o) (_nm o) (_nt o) (_verbose o)
    (_overflow o) (_dosys o) (_covMes o) (_NToys o) (_alg o) x (Unfold_calls o).
Definition set_Unfold_calls (x : nat) (o : RooUnfoldT) : RooUnfoldT :=
  mkRooUnfoldT
    (_cache o) (_withError o) (_res o) (_meas o) (_nm o) (_nt o) (_verbose o)
    (_overflow o) (_dosys o) (_covMes o) (_NToys o) (_alg o) (rnd o) x.

(** ** Member functions as computations over the object *)

Definition M (A : Type) : Type := RooUnfoldT -> outcome A * RooUnfoldT.

Definition ret {A} (a : A) : M A := fun o => (Ok a, o).
Definition bind {A B} (m : M A) (k : A -> M B) : M B :=
  fun o => match m o with
           | (Ok a, o') => k a o'
           | (Raise e, o') => (Raise e, o')
           end.
Definition throw {A} (e : exn) : M A := fun o => (Raise e, o).
Definition this : M RooUnfoldT := fun o => (Ok o, o).
Definition member {A} (f : RooUnfoldT -> A) : M A := fun o => (Ok (f o), o).
Definition cached {A} (f : Cache -> A) : M A := fun o => (Ok (f (_cache o)), o).
Definition modify (f : RooUnfoldT -> RooUnfoldT) : M unit := fun o => (Ok tt, f o).
Definition modify_cache (f : Cache -> Cache) : M unit :=
  modify (fun o => set_cache (f (_cache o)) o).

End Engine.

Notation "x <- m ;; k" := (bind m (fun x => k))
  (at level 61, m at next level, right associativity).
Notation "m ;; k" := (bind m (fun _ => k))
  (at level 61, right associativity).

Section Members.

Context {X : Externals}.

Fixpoint foldM {A B} (f : A -> B -> M A) (l : list B) (a : A) : M A :=
  match l with
  | [] => ret a
  | b :: l' => a' <- f a b ;; foldM f l' a'
  end.

(** [*p] for a pointer that may be null. *)
Definition deref {A} (p : option A) : M A :=
  match p with
  | Some a => ret a
  | None => throw (Fault "null pointer"%string)
  end.

(** [v[i]] on a [std::vector] *)
Definition at_ {A} (v : list A) (i : nat) : M A :=
  match nth_error v i with
  | Some a => ret a
  | None => throw (Fault "std::vector index"%string)
  end.

(** Run a member function on another object [obj]; the caller keeps its own
    state and receives the result together with the object as left behind. *)
Definition on {A} (obj : RooUnfoldT) (m : M A) : M (A * RooUnfoldT) :=
  fun o => match m obj with
           | (Ok a, obj') => (Ok (a, obj'), o)
           | (Raise e, _) => (Raise e, o)
           end.

(** [Int_t _overflow] where a [bool] is expected. *)
Definition overflow_flag (o : RooUnfoldT) : bool := negb (Z.eqb (_overflow o) 0).

(** [this->_cache = Cache()] *)
Definition reset_cache : M unit :=
  modify_cache (fun k => Cache_assign k Cache_ctor).

(** [RooUnfoldT::ClearCache] *)
Definition ClearCache : M unit := reset_cache.

(** [RooUnfoldT::GetSettings] *)
Definition GetSettings : M unit := modify_cache (set_parms 0 0 0 0).

(** [RooUnfoldT::SetRegParm], [RooUnfoldT::GetRegParm] *)
Definition regparm_unset : Double_t := -1e30.
Definition SetRegParm (regparm : Double_t) : M unit := ret tt.
Definition GetRegParm : M Double_t := ret regparm_unset.

(** ** The virtual member functions *)

Record Strategy := {
  v_Unfold : M unit;
  v_GetCov : M unit;
  v_GetErrors : M unit;
  v_GetWgt : M unit;
  v_GetSettings : M unit;
  v_SetRegParm : Double_t -> M unit;
  v_GetRegParm : M Double_t
}.

Section Lifecycle.

(** The [GetSettings] that a call from [Init] reaches: the one of the
    dynamic type, or the base one while a constructor runs. *)
Variable settings : M unit.

(** [RooUnfoldT::Init] *)
Definition Init : M unit :=
  modify (set_res None) ;;
  modify (set_meas None) ;;
  modify (set_nm 0) ;;
  modify (set_nt 0) ;;
  modify (set_verbose 1%Z) ;;
  modify (set_overflow 0%Z) ;;
  modify (set_dosys kNoSystematics) ;;
  modify (set_covMes None) ;;
  modify (set_NToys 50%Z) ;;
  settings.

(** [RooUnfoldT::Reset] *)
Definition Reset : M unit := ClearCache ;; Init.

(** [RooUnfoldT::SetResponse (res, takeOwnership)]; the copy made without
    ownership is the same value. *)
Definition SetResponse (res : option Response) (takeOwnership : bool) : M unit :=
  match res with
  | None => throw (runtime_error "cannot set response to invalid value!"%string)
  | Some r =>
      modify (set_res (Some r)) ;;
      modify (set_overflow (if UseOverflowStatus r then 1%Z else 0%Z)) ;;
      modify (set_nm (GetNbinsMeasured r)) ;;
      modify (set_nt (GetNbinsTruth r))
  end.

(** [RooUnfoldT::SetMeasured (const Hist* meas)] *)
Definition SetMeasured (meas : option Hist) : M unit :=
  modify (set_meas meas) ;;
  reset_cache.

(** [RooUnfoldT::SetMeasuredCov] *)
Definition SetMeasuredCov (cov : TMatrixD) : M unit :=
  reset_cache ;;
  modify (set_covMes (Some cov)).

(** [RooUnfoldT::Setup] *)
Definition Setup (res : option Response) (meas : option Hist) : M unit :=
  Reset ;;
  SetResponse res false ;;
  SetMeasured meas.

End Lifecycle.

(** [RooUnfoldT::ForceRecalculation] *)
Definition ForceRecalculation : M unit :=
  reset_cache ;;
  r <- (p <- member _res ;; deref p) ;;
  modify (set_res (Some (Response_ClearCache r))).

(** [RooUnfoldT::IncludeSystematics] *)
Definition IncludeSystematics (dosys : SystematicsTreatment) : M unit :=
  old <- member _dosys ;;
  if negb (SystematicsTreatment_eqb dosys old)
  then ClearCache ;; modify (set_dosys dosys)
  else ret tt.

Definition SetAlgorithm (alg : Algorithm) : M unit := modify (set_alg alg).
Definition GetAlgorithm : M Algorithm := member _alg.
Definition SetVerbose (level : Z) : M unit := modify (set_verbose level).
Definition SetNToys (toys : Z) : M unit := modify (set_NToys toys).
Definition SetOverflow (overflow : Z) : M unit := modify (set_overflow overflow).

(** [this->response()] followed by a dereference *)
Definition response : M Response := p <- member _res ;; deref p.

(** [RooUnfoldT::Vmeasured] *)
Definition Vmeasured : M TVectorD :=
  vm <- cached _vMes ;;
  match vm with
  | Some v => ret v
  | None =>
      o <- this ;;
      h <- deref (_meas o) ;;
      r <- response ;;
      let v := h2v h (overflow_flag o) (UseDensityStatus r) in
      modify_cache (set_vMes (Some v)) ;;
      ret v
  end.

(** [RooUnfoldT::Emeasured] *)
Definition Emeasured : M TVectorD :=
  em <- cached _eMes ;;
  match em with
  | Some v => ret v
  | None =>
      o <- this ;;
      match _covMes o with
      | Some _ =>
          let v :=
            fold_left (fun eMes i =>
                         let e := mget gNanValue (_cov (_cache o)) i i in
                         if Rltb 0 e then vset eMes i (sqrt e) else eMes)
                      (seq 0 (_nm o)) (TVectorD_n (_nm o)) in
          modify_cache (set_eMes (Some v)) ;;
          ret v
      | None =>
          h <- deref (_meas o) ;;
          r <- response ;;
          let v := h2ve h (overflow_flag o) (UseDensityStatus r) in
          modify_cache (set_eMes (Some v)) ;;
          ret v
      end
  end.

(** [RooUnfoldT::GetMeasuredCov] *)
Definition GetMeasuredCov : M TMatrixD :=
  cm <- member _covMes ;;
  match cm with
  | Some c => ret c
  | None =>
      err <- Emeasured ;;
      nm <- member _nm ;;
      let c := fold_left (fun c i => let e := vget gNanValue err i in
                                     mset c i i (e * e))
                         (seq 0 nm) (TMatrixD_nk nm nm) in
      modify_cache (set_cache_covMes (Some c)) ;;
      ret c
  end.

(** [RooUnfoldT::Unfold]: the dummy unfolding that copies its input *)
Definition Unfold : M unit :=
  nt <- member _nt ;;
  modify_cache (fun k => set_rec (vResizeTo nt (_rec k)) k) ;;
  nm <- member _nm ;;
  let nb := if Nat.ltb nm nt then nm else nt in
  vmeas <- Vmeasured ;;
  modify_cache (fun k =>
    set_rec (fold_left (fun r i => vset r i (vget gNanValue vmeas i))
                       (seq 0 nb) (_rec k)) k) ;;
  modify_cache (set_unfolded true).

(** [RooUnfoldT::GetCov]: the dummy covariance *)
Definition GetCov : M unit :=
  covmeas <- GetMeasuredCov ;;
  o <- this ;;
  let nb := Nat.min (_nm o) (_nt o) in
  modify_cache (fun k => set_cov (mResizeTo (_nt o) (_nt o) (_cov k)) k) ;;
  modify_cache (fun k =>
    set_cov (fold_left (fun c i =>
               fold_left (fun c j => mset c i j (mget gNanValue covmeas i j))
                         (seq 0 nb) c)
             (seq 0 nb) (_cov k)) k) ;;
  modify_cache (set_haveCov true).

(** [const Double_t cond_max= 1e17] of [InvertMatrix] *)
Definition cond_max : Double_t := 1e17.

(** [RooUnfoldT::InvertMatrix (mat, inv, name, verbose)]: the status and the
    matrix left in [inv]. *)
Definition InvertMatrix (mat inv : TMatrixD) (verbose : Z) : Z * TMatrixD :=
  let ok := 1%Z in
  let cond := svd_Condition mat in
  let ok := if Rltb cond 0 then 2%Z
            else if Rltb cond_max cond then 3%Z
            else ok in
  let inv := mResizeTo (GetNcols mat) (GetNrows mat) inv in
  let '(sinv, okinv) := svd_Invert mat in
  let inv := massign inv sinv in
  if negb okinv then (0%Z, inv) else (ok, inv).

Section Covariance_users.

(** The [GetCov] of the dynamic type. *)
Variable GetCov_v : M unit.

(** [RooUnfoldT::GetErrorsCovariance] *)
Definition GetErrorsCovariance : M unit :=
  we <- member _withError ;;
  if negb (ErrorTreatment_eqb we kErrors)
  then throw (runtime_error "unknown error propagation method!"%string)
  else
    hc <- cached _haveCov ;;
    (if hc then ret tt else GetCov_v) ;;
    hc <- cached _haveCov ;;
    if negb hc then ret tt
    else
      nt <- member _nt ;;
      modify_cache (fun k => set_variances (vResizeTo nt (_variances k)) k) ;;
      modify_cache (fun k =>
        set_variances (fold_left (fun v i => vset v i (mget gNanValue (_cov k) i i))
                                 (seq 0 nt) (_variances k)) k) ;;
      modify_cache (set_haveErrors true).

(** [RooUnfoldT::GetErrors] *)
Definition GetErrors : M unit := GetErrorsCovariance.

(** [RooUnfoldT::GetWgt] *)
Definition GetWgt : M unit :=
  hc <- cached _haveCov ;;
  (if hc then ret tt else GetCov_v) ;;
  hc <- cached _haveCov ;;
  if negb hc then ret tt
  else
    o <- this ;;
    let '(status, inv) := InvertMatrix (_cov (_cache o)) (_wgt (_cache o)) (_verbose o) in
    modify_cache (set_wgt inv) ;;
    if Z.eqb status 0 then ret tt
    else modify_cache (set_haveWgt true).

End Covariance_users.

Section Dispatch.

Variable vt : Strategy.

(** A call of the virtual [Unfold()], counted. *)
Definition call_Unfold : M unit :=
  n <- member Unfold_calls ;;
  modify (set_Unfold_calls (S n)) ;;
  v_Unfold vt.

(** [RooUnfoldT::Vunfold] *)
Definition Vunfold : M TVectorD :=
  u <- cached _unfolded ;;
  (if u then ret tt
   else
     f <- cached _fail ;;
     (if f then ret tt else call_Unfold) ;;
     u' <- cached _unfolded ;;
     if u' then ret tt
     else
       modify_cache (set_fail true) ;;
       o <- this ;;
       if Nat.ltb 0 (_nt o) && Nat.eqb (length (_rec (_cache o))) 0
       then modify_cache (fun k => set_rec (vResizeTo (_nt o) (_rec k)) k)
       else ret tt) ;;
  cached _rec.

(** Modelled from the spec: [subtract<Hist,TVectorD>(orig, hist, overflow)] of
    the histogram helpers, which are not part of [RooUnfold.cxx]; the residual
    between the cached result and the reference truth vector, bin by bin. *)
Definition subtract (orig : TVectorD) (hist : Hist) (overflow : bool) : TVectorD :=
  let ref := h2v2 hist overflow in
  map (fun i => vget gNanValue orig i - vget gNanValue ref i) (seq 0 (length ref)).

(** [RooUnfolding::randomize] on [_cache._vMes] with [this->rnd] *)
Definition randomize_vMes : M unit :=
  vm <- cached _vMes ;;
  v <- deref vm ;;
  g <- member rnd ;;
  let '(v', g') := randomize v g in
  modify_cache (set_vMes (Some v')) ;;
  modify (set_rnd g').

(** [res->RunToy()] on the response the object points to *)
Definition response_RunToy : M unit :=
  r <- response ;;
  modify (set_res (Some (Response_RunToy r))).

(** [RooUnfoldT<TH1,TH2>::RunBiasAsimovToys (ntoys, vbias)] *)
Definition RunBiasAsimovToys (ntoys : Z) (vbias : list TVectorD) : M (list TVectorD) :=
  vbias <-
    foldM (fun vbias (i : nat) =>
             ForceRecalculation ;;
             _ <- Vmeasured ;;
             dosys <- member _dosys ;;
             (if negb (SystematicsTreatment_eqb dosys kNoMeasured)
              then randomize_vMes else ret tt) ;;
             (if SystematicsTreatment_eqb dosys kAll
              then response_RunToy else ret tt) ;;
             r <- response ;;
             let vtruth := Vtruth r in
             foldM (fun vbias (j : nat) =>
                      r <- response ;;
                      modify_cache (set_vMes (Some (Vfolded r (Vtruth r)))) ;;
                      randomize_vMes ;;
                      v <- Vunfold ;;
                      ret (vbias ++ [vsub vtruth v]))
                   (seq 0 (Z.to_nat ntoys)) vbias)
          (seq 0 (Z.to_nat ntoys)) vbias ;;
  ForceRecalculation ;;
  ret vbias.

Section Nested.

(** [GetErrMat] runs toys, and a toy asks for errors and a chi-squared again:
    the calls below reach [GetErrMat] one level further down the call stack. *)
Variable GetErrMat_below : M unit.

(** The first block of [UnfoldWithErrors]: unfold unless that has been done
    or has failed in this cache generation; [false] stands for the early
    [return false]. *)
Definition ensure_unfolded : M bool :=
  u <- cached _unfolded ;;
  if u then ret true
  else
    f <- cached _fail ;;
    if f then ret false
    else
      call_Unfold ;;
      u' <- cached _unfolded ;;
      if u' then ret true
      else modify_cache (set_fail true) ;; ret false.

(** The second block of [UnfoldWithErrors]: the errors the treatment needs. *)
Definition errors_for (withError : ErrorTreatment) (getWeights : bool) : M bool :=
  we <- member _withError ;;
  (if negb (ErrorTreatment_eqb we withError)
   then modify_cache (set_haveErrors false) else ret tt) ;;
  modify (set_withError withError) ;;
  ok <-
    (if getWeights && (ErrorTreatment_eqb withError kErrors
                       || ErrorTreatment_eqb withError kCovariance)
     then
       hw <- cached _haveWgt ;;
       (if hw then ret tt else v_GetWgt vt) ;;
       cached _haveWgt
     else
       match withError with
       | kErrors | kRooFit =>
           he <- cached _haveErrors ;;
           (if he then ret tt else v_GetErrors vt) ;;
           cached _haveErrors
       | kCovariance =>
           hc <- cached _haveCov ;;
           (if hc then ret tt else v_GetCov vt) ;;
           cached _haveCov
       | kCovToy =>
           hm <- cached _have_err_mat ;;
           (if hm then ret tt else GetErrMat_below) ;;
           cached _have_err_mat
       | _ => ret true
       end) ;;
  (if ok then ret tt else modify_cache (set_fail true)) ;;
  ret ok.

(** [RooUnfoldT::UnfoldWithErrors (withError, getWeights)] *)
Definition UnfoldWithErrors_on (withError : ErrorTreatment) (getWeights : bool) : M bool :=
  unfolded <- ensure_unfolded ;;
  if negb unfolded then ret false
  else errors_for withError getWeights.

(** [RooUnfoldT::Eunfold (withError)] *)
Definition Eunfold_on (withError : ErrorTreatment) : M TMatrixD :=
  ok <- UnfoldWithErrors_on withError false ;;
  o <- this ;;
  let nt := _nt o in
  if negb ok then ret (TMatrixD_nk nt nt)
  else
    match withError with
    | kNoError =>
        ret (fold_left (fun m i => mset m i i (vget gNanValue (_rec (_cache o)) i))
                       (seq 0 nt) (TMatrixD_nk nt nt))
    | kRooFit | kErrors =>
        ret (fold_left (fun m i => mset m i i (vget gNanValue (_variances (_cache o)) i))
                       (seq 0 nt) (TMatrixD_nk nt nt))
    | kCovariance => ret (_cov (_cache o))
    | kCovToy => ret (_err_mat (_cache o))
    | kDefault =>
        throw (runtime_error
                 "Error in RooUnfoldT::Wunfold, unrecognised error method '%d'"%string)
    end.

(** [RooUnfoldT::EunfoldV (withError)] *)
Definition EunfoldV_on (withError : ErrorTreatment) : M TVectorD :=
  nt0 <- member _nt ;;
  let Eunfold_v := TVectorD_n nt0 in
  ok <- UnfoldWithErrors_on withError false ;;
  if negb ok then ret Eunfold_v
  else
    o <- this ;;
    let nt := _nt o in
    let k := _cache o in
    match withError with
    | kNoError =>
        ret (fold_left (fun v i => vset v i (sqrt (Rabs (vget gNanValue (_rec k) i))))
                       (seq 0 nt) Eunfold_v)
    | kErrors | kRooFit =>
        ret (fold_left (fun v i => vset v i (sqrt (Rabs (vget gNanValue (_variances k) i))))
                       (seq 0 nt) Eunfold_v)
    | kCovariance =>
        ret (fold_left (fun v i => vset v i (sqrt (Rabs (mget gNanValue (_cov k) i i))))
                       (seq 0 nt) Eunfold_v)
    | kCovToy =>
        ret (fold_left (fun v i => vset v i (sqrt (Rabs (mget gNanValue (_err_mat k) i i))))
                       (seq 0 nt) Eunfold_v)
    | kDefault =>
        throw (runtime_error
                 "Error in RooUnfoldT::EunfoldV, unrecognised error method '%d'"%string)
    end.

(** [RooUnfoldT::Wunfold (withError)] *)
Definition Wunfold_on (withError : ErrorTreatment) : M TMatrixD :=
  nt0 <- member _nt ;;
  let Wunfold_m := TMatrixD_nk nt0 nt0 in
  ok <- UnfoldWithErrors_on withError true ;;
  if negb ok then ret Wunfold_m
  else
    o <- this ;;
    let nt := _nt o in
    let k := _cache o in
    match withError with
    | kNoError =>
        ret (fold_left (fun m i =>
                          if negb (Reqb (vget gNanValue (_rec k) i) 0)
                          then mset m i i (1 / vget gNanValue (_rec k) i) else m)
                       (seq 0 nt) Wunfold_m)
    | kErrors | kRooFit =>
        ret (fold_left (fun m i => mset m i i (mget gNanValue (_wgt k) i i))
                       (seq 0 nt) Wunfold_m)
    | kCovariance => ret (massign Wunfold_m (_wgt k))
    | kCovToy => ret (snd (InvertMatrix (_err_mat k) Wunfold_m (_verbose o)))
    | kDefault =>
        throw (runtime_error
                 "Error in RooUnfoldT::Wunfold, unrecognised error method '%d'"%string)
    end.

(** The loop of [Chi2] over the bins for the treatments without a matrix. *)
Definition chi2_diagonal (nt : nat) (res eunfold : TVectorD) : Double_t :=
  fold_left (fun chi2 i =>
               let e := vget gNanValue eunfold i in
               if Rleb e 0 then chi2
               else
                 let ypull := vget gNanValue res i / e in
                 chi2 + ypull * ypull)
            (seq 0 nt) 0.

(** [RooUnfoldT::Chi2 (hTrue, DoChi2)] *)
Definition Chi2_on (hTrue : option Hist) (DoChi2 : ErrorTreatment) : M Double_t :=
  ok <- UnfoldWithErrors_on DoChi2 false ;;
  if negb ok then ret (-1.0)
  else
    o <- this ;;
    h <- deref hTrue ;;
    let res := subtract (_rec (_cache o)) h (overflow_flag o) in
    if ErrorTreatment_eqb DoChi2 kCovariance || ErrorTreatment_eqb DoChi2 kCovToy
    then
      wgt <- Wunfold_on DoChi2 ;;
      f <- cached _fail ;;
      if f then ret (-1.0)
      else
        nt <- member _nt ;;
        let resmat := massign (TMatrixD_nk 1 nt) [res] in
        let chi2mat := ABAT resmat wgt in
        ret (mget gNanValue chi2mat 0 0)
    else
      eunfold <- EunfoldV_on DoChi2 ;;
      f <- cached _fail ;;
      if f then ret (-1.0)
      else
        nt <- member _nt ;;
        ret (chi2_diagonal nt res eunfold).

(** [RooUnfoldT<TH1,TH2>::RunToys (ntoys, vx, vxe, chi2)] *)
Definition RunToys_on (ntoys : Z) (vx vxe : list TVectorD) (chi2 : list Double_t)
  : M (list TVectorD * list TVectorD * list Double_t) :=
  errorType <- member _withError ;;
  modify (set_withError kDefault) ;;
  out <-
    foldM (fun '(vx, vxe, chi2) (i : nat) =>
             ForceRecalculation ;;
             _ <- Vmeasured ;;
             dosys <- member _dosys ;;
             (if negb (SystematicsTreatment_eqb dosys kNoMeasured)
              then randomize_vMes else ret tt) ;;
             (if SystematicsTreatment_eqb dosys kAll
              then response_RunToy else ret tt) ;;
             v <- Vunfold ;;
             if negb (ErrorTreatment_eqb errorType kNoError)
             then
               e <- EunfoldV_on EunfoldV_default ;;
               r <- response ;;
               c <- Chi2_on (Htruth r) Chi2_default ;;
               ret (vx ++ [v], vxe ++ [e], chi2 ++ [c])
             else ret (vx ++ [v], vxe, chi2))
          (seq 0 (Z.to_nat ntoys)) (vx, vxe, chi2) ;;
  ForceRecalculation ;;
  modify (set_withError errorType) ;;
  ret out.

(** [RooUnfoldT::RunToy (x, xe)]: the values left in [x] and [xe], and the
    chi-squared returned. *)
Definition RunToy_on : M (TVectorD * TVectorD * Double_t) :=
  out <- RunToys_on 1 [] [] [] ;;
  let '(vx, vxe, chi2) := out in
  x <- at_ vx 0 ;;
  xe <- at_ vxe 0 ;;
  c <- at_ chi2 0 ;;
  ret (x, xe, c).

(** The accumulation of one toy result [x] in [GetErrMat]. *)
Definition toy_sums (nt : nat) (x : TVectorD) (acc : TVectorD * TMatrixD)
  : TVectorD * TMatrixD :=
  fold_left (fun '(xisum, xijsum) i =>
               let xi := vget gNanValue x i in
               let xisum := vset xisum i (vget gNanValue xisum i + xi) in
               (xisum,
                fold_left (fun xijsum j =>
                             mset xijsum i j
                                  (mget gNanValue xijsum i j + xi * vget gNanValue x j))
                          (seq 0 nt) xijsum))
            (seq 0 nt) acc.

(** The entry [GetErrMat] computes for [(i,j)]. *)
Definition err_mat_entry (NToys : Z) (xisum : TVectorD) (xijsum : TMatrixD)
           (i j : nat) : Double_t :=
  (mget gNanValue xijsum i j
   - (vget gNanValue xisum i * vget gNanValue xisum j) / IZR NToys)
  / IZR (NToys - 1).

(** [RooUnfoldT::GetErrMat] *)
Definition GetErrMat_body : M unit :=
  NToys <- member _NToys ;;
  if Z.leb NToys 1 then ret tt
  else
    nt <- member _nt ;;
    modify_cache (fun k => set_err_mat (mResizeTo nt nt (_err_mat k)) k) ;;
    sums <-
      foldM (fun acc (k : nat) =>
               out <- RunToy_on ;;
               let '(x, xe, _) := out in
               nt <- member _nt ;;
               ret (toy_sums nt x acc))
            (seq 0 (Z.to_nat NToys)) (TVectorD_n nt, TMatrixD_nk nt nt) ;;
    let '(xisum, xijsum) := sums in
    o <- this ;;
    modify_cache (fun k =>
      set_err_mat
        (fold_left (fun m i =>
           fold_left (fun m j =>
                        mset m i j (err_mat_entry (_NToys o) xisum xijsum i j))
                     (seq 0 (_nt o)) m)
         (seq 0 (_nt o)) (_err_mat k)) k) ;;
    modify_cache (set_have_err_mat true).

End Nested.

(** [RooUnfoldT::GetErrMat] with [stack] nested calls of it still possible. *)
Fixpoint GetErrMat (stack : nat) : M unit :=
  match stack with
  | O => throw (Fault "call stack exhausted"%string)
  | S below => GetErrMat_body (GetErrMat below)
  end.

Definition UnfoldWithErrors (stack : nat) := UnfoldWithErrors_on (GetErrMat stack).
Definition Eunfold (stack : nat) := Eunfold_on (GetErrMat stack).
Definition EunfoldV (stack : nat) := EunfoldV_on (GetErrMat stack).
Definition Wunfold (stack : nat) := Wunfold_on (GetErrMat stack).
Definition Chi2 (stack : nat) := Chi2_on (GetErrMat stack).
Definition RunToys (stack : nat) := RunToys_on (GetErrMat stack).
Definition RunToy (stack : nat) := RunToy_on (GetErrMat stack).

(** An object before a constructor body has run: the default-constructed
    cache and the members initialised in the class declaration. *)
Definition uninitialised : RooUnfoldT :=
  {| _cache := Cache_ctor; _withError := withError_init;
     _res := None; _meas := None; _nm := O; _nt := O;
     _verbose := 0%Z; _overflow := 0%Z; _dosys := kNoSystematics;
     _covMes := None; _NToys := 0%Z; _alg := kNone;
     rnd := rnd_init; Unfold_calls := O |}.

(** [RooUnfoldT::New (alg, res, meas, regparm)]: the object built, a null
    pointer for the algorithm that is not available.  Only the base-class part
    of the construction, [Init(); Setup (res, meas);], is part of this file. *)
Definition New (alg : Algorithm) (res : option Response) (meas : option Hist)
           (regparm : Double_t) : outcome (option RooUnfoldT) :=
  match alg with
  | kDagostini => Ok None
  | _ =>
      match (Init GetSettings ;;
             Setup GetSettings res meas ;;
             SetAlgorithm alg ;;
             if negb (Reqb regparm regparm_unset) then v_SetRegParm vt regparm else ret tt)
              uninitialised with
      | (Ok _, unfold) => Ok (Some unfold)
      | (Raise e, _) => Raise e
      end
  end.

Definition lift {A} (r : outcome A) : M A := fun o => (r, o).

(** The loop of the closure protocol that records the pulls and their sums.
    The test is on the toy error and the division is by the toy value, as in
    the source; the division is the one of [R], so where the toy error of a
    bin is not zero and its value is, the quotient recorded stands for the
    infinity or NaN of the program and says nothing about it. *)
Definition closure_pulls (ntoys : Z) (nt : nat) (truth : TVectorD)
           (toy_unfold toy_error : list TVectorD) : M (TMatrixD * TVectorD) :=
  foldM (fun acc (i : nat) =>
           tu <- at_ toy_unfold i ;;
           foldM (fun '(pull_results, bias) (j : nat) =>
                    te <- at_ toy_error i ;;
                    if negb (Reqb (vget gNanValue te j) 0)
                    then
                      let pull_results :=
                        mset pull_results i j
                             ((vget gNanValue tu j - vget gNanValue truth j)
                              / vget gNanValue tu j) in
                      ret (pull_results,
                           vset bias j (vget gNanValue bias j
                                        + mget gNanValue pull_results i j))
                    else ret (pull_results, bias))
                 (seq 0 (length tu)) acc)
        (seq 0 (Z.to_nat ntoys)) (TMatrixD_nk (Z.to_nat ntoys) nt, TVectorD_n nt).

(** The sum of squared differences between the pulls of bin [j] and [mean]. *)
Definition closure_sum2 (ntoys : Z) (pull_results : TMatrixD) (mean : Double_t)
           (j : nat) : Double_t :=
  fold_left (fun sum2 i =>
               let val := mget gNanValue pull_results i j - mean in
               sum2 + val * val)
            (seq 0 (Z.to_nat ntoys)) 0.

(** The uncertainty the closure protocol stores for a bin. *)
Definition closure_sigbias (ntoys : Z) (sum2 : Double_t) : Double_t :=
  if Z.ltb 1 ntoys
  then
    let var := sum2 / IZR (ntoys - 1) in
    sqrt (var / IZR ntoys)
  else sqrt sum2.

(** [size_t n] converted to [double], and [n-1] computed in [size_t]. *)
Definition size_t_to_double (n : nat) : Double_t := INR n.
Definition size_t_pred_to_double (n : nat) : Double_t :=
  IZR ((Z.of_nat n - 1) mod 2 ^ 64).

(** The sums of the Asimov protocol over the recorded deviations for bin [i]. *)
Definition asimov_sums (bias : list TVectorD) (i : nat) : Double_t * Double_t :=
  fold_left (fun '(sum, sum2) j =>
               let b := vget gNanValue (nth j bias []) i in
               (sum + b, sum2 + b * b))
            (seq 0 (length bias)) (0, 0).

(** The estimator protocol once the factory has unfolded: the bias and its
    uncertainty are stored bin by bin. *)
Definition estimator_store (truth truthE unfold unfoldE : TVectorD) : M unit :=
  nt <- member _nt ;;
  modify_cache (fun k => set_bias (vResizeTo nt (_bias k)) k) ;;
  modify_cache (fun k => set_sigbias (vResizeTo nt (_sigbias k)) k) ;;
  foldM (fun (_ : unit) (i : nat) =>
           let t := vget gNanValue truth i in
           let te := vget gNanValue truthE i in
           let u := vget gNanValue unfold i in
           let ue := vget gNanValue unfoldE i in
           if negb (Reqb t 0)
           then
             modify_cache (fun k => set_bias (vset (_bias k) i ((u - t) / t)) k) ;;
             modify_cache (fun k =>
               set_sigbias (vset (_sigbias k) i (sqrt (te * te + ue * ue) / t)) k)
           else
             modify_cache (fun k => set_bias (vset (_bias k) i (u - t)) k) ;;
             modify_cache (fun k =>
               set_sigbias (vset (_sigbias k) i (sqrt (te * te + ue * ue))) k))
        (seq 0 nt) tt.

(** The closure protocol once the toys have run. *)
Definition closure_store (ntoys : Z) (truth : TVectorD)
           (toy_unfold toy_error : list TVectorD) : M unit :=
  nt <- member _nt ;;
  modify_cache (fun k => set_bias (vResizeTo nt (_bias k)) k) ;;
  modify_cache (fun k => set_sigbias (vResizeTo nt (_sigbias k)) k) ;;
  acc <- closure_pulls ntoys nt truth toy_unfold toy_error ;;
  let '(pull_results, bias) := acc in
  nt <- member _nt ;;
  modify_cache (fun k =>
    set_bias (fold_left (fun b i => vset b i (vget gNanValue bias i / IZR ntoys))
                        (seq 0 nt) (_bias k)) k) ;;
  modify_cache (fun k =>
    set_sigbias
      (fold_left (fun sb j =>
                    let sum2 := closure_sum2 ntoys pull_results
                                             (vget gNanValue (_bias k) j) j in
                    vset sb j (closure_sigbias ntoys sum2))
                 (seq 0 nt) (_sigbias k)) k).

(** The Asimov protocol once the deviations have been recorded. *)
Definition asimov_store (bias : list TVectorD) : M unit :=
  nt <- member _nt ;;
  modify_cache (fun k => set_bias (vResizeTo nt (_bias k)) k) ;;
  modify_cache (fun k => set_sigbias (vResizeTo nt (_sigbias k)) k) ;;
  foldM (fun (_ : unit) (i : nat) =>
           let '(sum, sum2) := asimov_sums bias i in
           let n := length bias in
           let mean := sum / size_t_to_double n in
           modify_cache (fun k => set_bias (vset (_bias k) i mean) k) ;;
           let var := Rabs (sum2 - sum * mean) / size_t_pred_to_double n in
           modify_cache (fun k =>
             set_sigbias (vset (_sigbias k) i (sqrt (var / size_t_to_double n))) k))
        (seq 0 nt) tt.

(** The part of [CalculateBias] that follows the construction of the toy
    factory. *)
Definition bias_protocol (stack : nat) (method : BiasMethod) (ntoys : Z)
           (truth truthE : TVectorD) (toyFactory : RooUnfoldT) : M unit :=
  match method with
  | kBiasEstimator =>
      out <- on toyFactory Vunfold ;;
      let '(unfold, toyFactory) := out in
      out <- on toyFactory (EunfoldV stack EunfoldV_default) ;;
      let '(unfoldE, toyFactory) := out in
      estimator_store truth truthE unfold unfoldE
  | kBiasClosure =>
      out <- on toyFactory (RunToys stack ntoys [] [] []) ;;
      let '(toy_unfold, toy_error, chi, toyFactory) := out in
      closure_store ntoys truth toy_unfold toy_error
  | kBiasAsimov =>
      out <- on toyFactory (RunBiasAsimovToys ntoys []) ;;
      let '(bias, toyFactory) := out in
      asimov_store bias
  end.

(** [RooUnfoldT::CalculateBias (method, ntoys, hTrue)] *)
Definition CalculateBias (stack : nat) (method : BiasMethod) (ntoys : Z)
           (hTrue : option Hist) : M unit :=
  r <- response ;;
  let hTrue := match hTrue with Some h => Some h | None => Htruth r end in
  let truth := match hTrue with Some h => h2v2 h false | None => Vtruth r end in
  let truthE := match hTrue with Some h => h2ve2 h false | None => Etruth r end in
  hm <- deref (Hmeasured r) ;;
  let asimov := asimovClone hm (UseDensityStatus r) in
  alg <- GetAlgorithm ;;
  regparm <- v_GetRegParm vt ;;
  p <- lift (New alg (Some r) (Some asimov) regparm) ;;
  toyFactory <- deref p ;;
  let toyFactory := set_verbose 0%Z toyFactory in
  bias_protocol stack method ntoys truth truthE toyFactory ;;
  modify_cache (set_haveBias true).

(** [RooUnfoldT::CalculateBias (ntoys, hTrue)], the legacy form *)
Definition CalculateBias_legacy (stack : nat) (ntoys : Z) (hTrue : option Hist) : M unit :=
  if Z.eqb ntoys 0 then CalculateBias stack kBiasEstimator 0 hTrue
  else CalculateBias stack kBiasClosure ntoys hTrue.

(** [RooUnfoldT::Vbias], [RooUnfoldT::Ebias] *)
Definition Vbias : M TVectorD :=
  hb <- cached _haveBias ;;
  if negb hb
  then throw (runtime_error "calculate bias before attempting to retrieve it!"%string)
  else cached _bias.
Definition Ebias : M TVectorD :=
  hb <- cached _haveBias ;;
  if negb hb
  then throw (runtime_error "calculate bias before attempting to retrieve it!"%string)
  else cached _sigbias.

End Dispatch.

(** The virtual member functions as the base class defines them. *)
Definition RooUnfoldT_vtable : Strategy :=
  {| v_Unfold := Unfold;
     v_GetCov := GetCov;
     v_GetErrors := GetErrors GetCov;
     v_GetWgt := GetWgt GetCov;
     v_GetSettings := GetSettings;
     v_SetRegParm := SetRegParm;
     v_GetRegParm := GetRegParm |}.

End Members.

Arguments Rltb : simpl never.
Arguments Rleb : simpl never.
Arguments Reqb : simpl never.
Arguments Cache_assign : simpl never.
Arguments cond_max : simpl never.
Arguments regparm_unset : simpl never.
Arguments vResizeTo : simpl never.
Arguments mResizeTo : simpl never.
Arguments vassign : simpl never.
Arguments massign : simpl never.
Arguments vget : simpl never.
Arguments mget : simpl never.
Arguments mset : simpl never.
Arguments vsub : simpl never.
Arguments TVectorD_n : simpl never.
Arguments TMatrixD_nk : simpl never.

(** ** Further member functions of [RooUnfold.cxx] *)

(** [createHist<Hist>(v, name, title, var(orig,X))] of the histogram helpers,
    which builds a histogram with the contents [v] on the axis of [orig]. *)
Class Histograms {X : Externals} := {
  createHist : TVectorD -> option Hist -> Hist
}.

Section Further_members.

Context {X : Externals}.

(** [RooUnfoldT::SystematicsIncluded] *)
Definition SystematicsIncluded : M SystematicsTreatment := member _dosys.

(** [RooUnfoldT::CopyData (rhs)]; the response of [rhs] is dereferenced for
    the copy before [Setup] is entered. *)
Definition CopyData (settings : M unit) (rhs : RooUnfoldT) : M unit :=
  r <- deref (_res rhs) ;;
  Setup settings (Some r) (_meas rhs) ;;
  SetVerbose (_verbose rhs) ;;
  SetNToys (_NToys rhs).

(** The object a reference parameter designates: the receiver itself or
    another object. *)
Inductive Reference :=
| itself
| another (rhs : RooUnfoldT).

(** [RooUnfoldT::Assign (rhs)] and [operator=] *)
Definition Assign (settings : M unit) (rhs : Reference) : M unit :=
  match rhs with
  | itself => ret tt
  | another rhs => Reset settings ;; CopyData settings rhs
  end.

(** The copy constructor: [Init(); CopyData (rhs);] on a new object. *)
Definition RooUnfoldT_copy (rhs : RooUnfoldT) : outcome RooUnfoldT :=
  match (Init GetSettings ;; CopyData GetSettings rhs) uninitialised with
  | (Ok _, o) => Ok o
  | (Raise e, _) => Raise e
  end.

(** [RooUnfoldT::SetMeasured (const TVectorD& meas, const TVectorD& err)] *)
Definition SetMeasured_errors {H : Histograms} (meas err : TVectorD) : M unit :=
  r <- response ;;
  let orig := Hmeasured r in
  modify (set_meas (Some (createHist meas orig))).

(** [RooUnfoldT::SetMeasured (const TVectorD& meas, const TMatrixD& cov)] *)
Definition SetMeasured_cov {H : Histograms} (meas : TVectorD) (cov : TMatrixD) : M unit :=
  SetMeasuredCov cov ;;
  err <- Emeasured ;;
  SetMeasured_errors meas err.

(** The first loop of [CutZeros]: the rows whose entries in the first
    [GetNrows()] columns sum to exactly zero, in increasing order. *)
Definition row_total (ereco : TMatrixD) (i : nat) : Double_t :=
  fold_left (fun coltot j => coltot + mget gNanValue ereco i j)
            (seq 0 (GetNrows ereco)) 0.

Definition zero_rows (ereco : TMatrixD) : list nat :=
  fold_left (fun diags i =>
               if Reqb (row_total ereco i) 0 then diags ++ [i] else diags)
            (seq 0 (GetNrows ereco)) [].

(** One pass of the second loop of [CutZeros] for row [i]: [v] counts the
    rows skipped so far. *)
Definition cut_row (ereco : TMatrixD) (diags : list nat) (ncols_cut : nat)
           (acc : nat * TMatrixD) (i : nat) : nat * TMatrixD :=
  let '(v, ereco_cut) := acc in
  let skip := match nth_error diags v with
              | Some d => Nat.eqb d i
              | None => false
              end in
  if skip then (S v, ereco_cut)
  else (v, fold_left (fun cut j => mset cut (i - v) j (mget gNanValue ereco i (j + v)))
                     (seq 0 ncols_cut) ereco_cut).

(** [RooUnfoldT::CutZeros (ereco)].  ROOT refuses to build a matrix with a
    negative number of columns; that outcome is reported as a [Fault]. *)
Definition CutZeros (ereco : TMatrixD) : outcome TMatrixD :=
  let diags := zero_rows ereco in
  let missed := length diags in
  let x := (GetNrows ereco - missed)%nat in
  if Nat.ltb (GetNcols ereco) missed
  then Raise (Fault "matrix with a negative number of columns"%string)
  else
    let y := (GetNcols ereco - missed)%nat in
    let ereco_cut := TMatrixD_nk x y in
    Ok (snd (fold_left (cut_row ereco diags y) (seq 0 (GetNrows ereco)) (O, ereco_cut))).

End Further_members.

(** ** Test doubles for the collaborators

    A histogram is a pair of bin contents and bin errors; a response is its
    truth and its measured histogram, and folds a truth vector onto itself.
    The random generator counts its draws, and the n-th draw raises every
    bin by n.  The SVD double is configured
    with the condition number it reports and with the convergence flag of
    its inversion; [X0] is the double whose decomposition never converges. *)

Definition dot (u v : TVectorD) : Double_t :=
  fold_right Rplus 0 (map (fun p => fst p * snd p) (combine u v)).

Definition transpose (m : TMatrixD) : TMatrixD :=
  map (fun j => map (fun r => nth j r 0) m) (seq 0 (GetNcols m)).

Definition mmul (a b : TMatrixD) : TMatrixD :=
  map (fun row => map (fun col => dot row col) (transpose b)) a.

Definition Hist0 : Type := TVectorD * TVectorD.
Definition Response0 : Type := Hist0 * Hist0.

Definition X_svd (cond : Double_t) (okinv : bool) : Externals :=
  {| Hist := Hist0;
     Response := Response0;
     TRandom := nat;
     gNanValue := 0;
     h2v := fun h _ _ => fst h;
     h2ve := fun h _ _ => snd h;
     h2v2 := fun h _ => fst h;
     h2ve2 := fun h _ => snd h;
     asimovClone := fun h _ => h;
     GetNbinsMeasured := fun r => length (fst (snd r));
     GetNbinsTruth := fun r => length (fst (fst r));
     UseOverflowStatus := fun _ => false;
     UseDensityStatus := fun _ => false;
     Htruth := fun r => Some (fst r);
     Hmeasured := fun r => Some (snd r);
     Vtruth := fun r => fst (fst r);
     Etruth := fun r => snd (fst r);
     Vfolded := fun _ v => v;
     Response_RunToy := fun r => r;
     Response_ClearCache := fun r => r;
     randomize := fun v g => (map (fun x => x + INR (S g)) v, S g);
     ABAT := fun a b => mmul (mmul a b) (transpose a);
     svd_Condition := fun _ => cond;
     svd_Invert := fun m => (TMatrixD_nk (GetNcols m) (GetNrows m), okinv);
     withError_init := kDefault;
     rnd_init := O;
     EunfoldV_default := kErrors;
     Chi2_default := kCovariance |}.

Definition X0 : Externals := X_svd (-1) false.

(** A subclass whose [Unfold()] gives up without touching the cache. *)
Definition failing_vtable {X : Externals} : Strategy :=
  {| v_Unfold := ret tt;
     v_GetCov := GetCov;
     v_GetErrors := GetErrors GetCov;
     v_GetWgt := GetWgt GetCov;
     v_GetSettings := GetSettings;
     v_SetRegParm := SetRegParm;
     v_GetRegParm := GetRegParm |}.

(** A subclass whose [GetErrors()] gives up: it returns without setting
    [_haveErrors], the case [UnfoldWithErrors] tests for. *)
Definition errors_failing_vtable {X : Externals} : Strategy :=
  {| v_Unfold := Unfold;
     v_GetCov := GetCov;
     v_GetErrors := ret tt;
     v_GetWgt := GetWgt GetCov;
     v_GetSettings := GetSettings;
     v_SetRegParm := SetRegParm;
     v_GetRegParm := GetRegParm |}.

(** Responses and measured histograms with one, two and three bins. *)
Definition hist1 : Hist0 := ([4], [0]).
Definition hist2 : Hist0 := ([10; 20], [0; 0]).
Definition hist3 : Hist0 := ([10; 20; 30], [1; 2; 3]).
Definition response1 : Response0 := (hist1, hist1).
Definition response2 : Response0 := (hist2, hist2).
Definition response3 : Response0 := (hist3, hist3).

(** The object after [Setup (res, meas)] on a new object. *)
Definition after_Setup {X : Externals} (res : option Response) (meas : option Hist)
  : RooUnfoldT :=
  snd ((Init GetSettings ;; Setup GetSettings res meas) uninitialised).

(** The histogram built from a vector of contents has no bin errors. *)
Definition createHist0 (v : TVectorD) (orig : option Hist0) : Hist0 :=
  (v, map (fun _ => 0) v).

#[export] Instance Histograms0 : Histograms (X:=X0) :=
  @Build_Histograms X0 createHist0.

(** A covariance matrix with a row and a column of zeros in front, and the
    same matrix without them. *)
Definition cov3 : TMatrixD := [[0; 0; 0]; [0; 4; 1]; [0; 1; 9]].
Definition cov2 : TMatrixD := [[4; 1]; [1; 9]].

(** * Vocabulary of the properties *)

Section Vocabulary.

Context {X : Externals}.

(** The cache as [Cache::Cache()] leaves it: every validity flag false, every
    vector and matrix a single zero, no derived measured vector or matrix. *)
Definition fresh (k : Cache) : Prop :=
  _unfolded k = false /\ _fail k = false /\ _haveCov k = false /\
  _haveWgt k = false /\ _haveErrors k = false /\ _have_err_mat k = false /\
  _haveBias k = false /\
  _rec k = [0] /\ _cov k = [[0]] /\ _wgt k = [[0]] /\ _variances k = [0] /\
  _err_mat k = [[0]] /\ _bias k = [0] /\ _sigbias k = [0] /\
  _vMes k = None /\ _eMes k = None /\ _covL k = None /\ _cache_covMes k = None.

(** The entry of the cache a treatment selects for bin [i] in [EunfoldV]. *)
Definition selected (t : ErrorTreatment) (k : Cache) (i : nat) : Double_t :=
  match t with
  | kNoError => vget gNanValue (_rec k) i
  | kErrors | kRooFit => vget gNanValue (_variances k) i
  | kCovariance => mget gNanValue (_cov k) i i
  | kCovToy => mget gNanValue (_err_mat k) i i
  | kDefault => 0
  end.

(** A matrix of [n] rows of [k] entries each. *)
Definition rect (n k : nat) (m : TMatrixD) : Prop :=
  length m = n /\ Forall (fun r => length r = k) m.

(** The sum the claim describes: over the bins with a strictly positive
    error, the squared ratio of residual to error. *)
Definition chi2_sum (nt : nat) (result reference sigma : TVectorD) : Double_t :=
  fold_right Rplus 0
    (map (fun i =>
            let pull := (vget gNanValue result i - vget gNanValue reference i)
                        / vget gNanValue sigma i in
            pull * pull)
         (filter (fun i => Rltb 0 (vget gNanValue sigma i)) (seq 0 nt))).

(** The result vector, the unfolded flag and the count of [Unfold()] calls
    are the same in [o'] as in [o]. *)
Definition result_kept (o o' : RooUnfoldT) : Prop :=
  _rec (_cache o') = _rec (_cache o) /\
  _unfolded (_cache o') = _unfolded (_cache o) /\
  Unfold_calls o' = Unfold_calls o.

(** A computation that keeps them, however it ends. *)
Definition keeps {A} (m : M A) : Prop := forall o, result_kept o (snd (m o)).

(** The object points to a response and to a measured histogram. *)
Definition bound (o : RooUnfoldT) : Prop := _res o <> None /\ _meas o <> None.

(** Started on an object that satisfies [P], the computation returns
    normally and leaves an object that satisfies [Q]. *)
Definition returns {A} (P : RooUnfoldT -> Prop) (m : M A) (Q : RooUnfoldT -> Prop)
  : Prop :=
  forall o, P o -> exists a o', m o = (Ok a, o') /\ Q o'.

(** The result vector the dummy [Unfold()] leaves: the vector it found,
    resized to the truth bins, with the measured contents written over the
    bins both have. *)
Definition copied_measured (vmeas : TVectorD) (nm nt : nat) (rec : TVectorD)
  : TVectorD :=
  fold_left (fun rec i => vset rec i (vget gNanValue vmeas i))
            (seq 0 (if Nat.ltb nm nt then nm else nt)) (vResizeTo nt rec).

(** The covariance [GetMeasuredCov] builds from the measured errors. *)
Definition errors_cov (err : TVectorD) (nm : nat) : TMatrixD :=
  fold_left (fun c i => let e := vget gNanValue err i in mset c i i (e * e))
            (seq 0 nm) (TMatrixD_nk nm nm).

(** The covariance the dummy [GetCov()] leaves. *)
Definition copied_cov (covmeas : TMatrixD) (nm nt : nat) (cov : TMatrixD) : TMatrixD :=
  fold_left (fun c i =>
               fold_left (fun c j => mset c i j (mget gNanValue covmeas i j))
                         (seq 0 (Nat.min nm nt)) c)
            (seq 0 (Nat.min nm nt)) (mResizeTo nt nt cov).

(** The variances [GetErrorsCovariance] reads off the covariance. *)
Definition cov_diagonal (cov : TMatrixD) (nt : nat) (variances : TVectorD) : TVectorD :=
  fold_left (fun v i => vset v i (mget gNanValue cov i i))
            (seq 0 nt) (vResizeTo nt variances).

(** The sums [GetErrMat] has accumulated after the toys [toys]. *)
Definition toys_sums (nt : nat) (toys : list TVectorD) : TVectorD * TMatrixD :=
  fold_left (fun acc x => toy_sums nt x acc) toys (TVectorD_n nt, TMatrixD_nk nt nt).

(** The sum of [f x] over the toys. *)
Definition sum_over (toys : list TVectorD) (f : TVectorD -> Double_t) : Double_t :=
  fold_right Rplus 0 (map f toys).

(** The number of rows above row [i] whose entries sum to zero. *)
Definition zero_rows_above (ereco : TMatrixD) (i : nat) : nat :=
  length (filter (fun d => Reqb (row_total ereco d) 0) (seq 0 i)).

(** The sum of [f i] over [i < n]. *)
Fixpoint sum_upto (n : nat) (f : nat -> Double_t) : Double_t :=
  match n with
  | O => 0
  | S n' => sum_upto n' f + f n'
  end.

(** The pull the closure protocol records for toy [i] and bin [j]: the
    relative deviation of the toy result from the truth where the toy
    {e error} is not zero, and nothing (the initial zero) where it is. *)
Definition closure_pull (truth : TVectorD) (toy_unfold toy_error : list TVectorD)
           (i j : nat) : Double_t :=
  if Reqb (vget gNanValue (nth i toy_error []) j) 0 then 0
  else (vget gNanValue (nth i toy_unfold []) j - vget gNanValue truth j)
       / vget gNanValue (nth i toy_unfold []) j.

Section Closure_loops.

Variables (truth : TVectorD) (toy_unfold toy_error : list TVectorD).
Variables (N nt : nat).

(** One pass of the inner loop body, for toy [i] and bin [j]. *)
Definition pull_step (i : nat) (acc : TMatrixD * TVectorD) (j : nat)
  : TMatrixD * TVectorD :=
  let '(pull_results, bias) := acc in
  if negb (Reqb (vget gNanValue (nth i toy_error []) j) 0)
  then
    let pull_results :=
      mset pull_results i j
           ((vget gNanValue (nth i toy_unfold []) j - vget gNanValue truth j)
            / vget gNanValue (nth i toy_unfold []) j) in
    (pull_results,
     vset bias j (vget gNanValue bias j + mget gNanValue pull_results i j))
  else (pull_results, bias).

(** What the loops have stored when toys [< a] are done and bins [< b] of
    toy [a] are done. *)
Definition pulls_inv (a b : nat) (acc : TMatrixD * TVectorD) : Prop :=
  rect N nt (fst acc) /\ length (snd acc) = nt /\
  (forall i j, (i < N)%nat -> (j < nt)%nat ->
     mget gNanValue (fst acc) i j
     = if Nat.ltb i a || (Nat.eqb i a && Nat.ltb j b)
       then closure_pull truth toy_unfold toy_error i j else 0) /\
  (forall j, (j < nt)%nat ->
     vget gNanValue (snd acc) j
     = sum_upto a (fun i => closure_pull truth toy_unfold toy_error i j)
       + (if Nat.ltb j b then closure_pull truth toy_unfold toy_error a j else 0)).

End Closure_loops.

(** The pull and the bias as the claim words them: recorded wherever the
    toy-unfolded {e value} is not zero. *)
Definition claimed_pull (truth : TVectorD) (toy_unfold : list TVectorD) (i j : nat)
  : Double_t :=
  if Reqb (vget gNanValue (nth i toy_unfold []) j) 0 then 0
  else (vget gNanValue (nth i toy_unfold []) j - vget gNanValue truth j)
       / vget gNanValue (nth i toy_unfold []) j.

Definition claimed_closure_bias (ntoys : Z) (truth : TVectorD)
           (toy_unfold : list TVectorD) (nt : nat) : TVectorD :=
  map (fun j => sum_upto (Z.to_nat ntoys) (fun i => claimed_pull truth toy_unfold i j)
                / IZR ntoys)
      (seq 0 nt).

End Vocabulary.

(** * Properties *)

Unset Implicit Arguments.

Section Properties.

Context {X : Externals}.

(** ** Real-number tests *)

Lemma Rltb_true (x y : R) : x < y -> Rltb x y = true.
Proof. unfold Rltb; destruct (Rlt_dec x y); tauto. Qed.

Lemma Rltb_false (x y : R) : ~ x < y -> Rltb x y = false.
Proof. unfold Rltb; destruct (Rlt_dec x y); tauto. Qed.

Lemma Rleb_true (x y : R) : x <= y -> Rleb x y = true.
Proof. unfold Rleb; destruct (Rle_dec x y); tauto. Qed.

Lemma Rleb_false (x y : R) : ~ x <= y -> Rleb x y = false.
Proof. unfold Rleb; destruct (Rle_dec x y); tauto. Qed.

Lemma Reqb_true (x y : R) : x = y -> Reqb x y = true.
Proof. unfold Reqb; destruct (Req_dec_T x y); tauto. Qed.

Lemma Reqb_false (x y : R) : x <> y -> Reqb x y = false.
Proof. unfold Reqb; destruct (Req_dec_T x y); tauto. Qed.

(** ** [InvertMatrix] *)

(** C4.  [InvertMatrix] leaves in [inv] the matrix the SVD solver hands back
    (resized to the transposed shape first) and classifies by the condition
    number the solver reports: when the solver reports non-convergence the
    status is 0; otherwise a negative condition gives 2, a condition above
    1e17 gives 3, and any other condition gives 1, the inverse being returned
    in all three cases. *)
Theorem InvertMatrix_status (mat inv : TMatrixD) (verbose : Z) :
  let cond := svd_Condition mat in
  let sinv := fst (svd_Invert mat) in
  let okinv := snd (svd_Invert mat) in
  let left := massign (mResizeTo (GetNcols mat) (GetNrows mat) inv) sinv in
  snd (InvertMatrix mat inv verbose) = left /\
  (okinv = false -> fst (InvertMatrix mat inv verbose) = 0%Z) /\
  (okinv = true -> cond < 0 -> fst (InvertMatrix mat inv verbose) = 2%Z) /\
  (okinv = true -> 1e17 < cond -> fst (InvertMatrix mat inv verbose) = 3%Z) /\
  (okinv = true -> 0 <= cond <= 1e17 -> fst (InvertMatrix mat inv verbose) = 1%Z).
Proof.
  cbv zeta. unfold InvertMatrix, cond_max.
  destruct (svd_Invert mat) as [sinv okinv]; cbn [fst snd].
  split; [destruct okinv; reflexivity|].
  split; [intros ->; reflexivity|].
  split; [intros -> Hc; cbn [negb fst]; rewrite Rltb_true by assumption; reflexivity|].
  split; intros -> Hc; cbn [negb fst].
  - rewrite Rltb_false by lra. rewrite Rltb_true by assumption. reflexivity.
  - rewrite !Rltb_false by lra. reflexivity.
Qed.

Lemma SystematicsTreatment_eqb_eq (a b : SystematicsTreatment) :
  SystematicsTreatment_eqb a b = true -> a = b.
Proof. destruct a, b; cbn; congruence. Qed.

Lemma ErrorTreatment_eqb_eq (a b : ErrorTreatment) :
  ErrorTreatment_eqb a b = true -> a = b.
Proof. destruct a, b; cbn; congruence. Qed.

Lemma ErrorTreatment_eqb_refl (a : ErrorTreatment) : ErrorTreatment_eqb a a = true.
Proof. destruct a; reflexivity. Qed.

Lemma ErrorTreatment_eqb_neq (a b : ErrorTreatment) :
  a <> b -> ErrorTreatment_eqb a b = false.
Proof. destruct a, b; cbn; congruence. Qed.

(** ** Running computations *)

Lemma bind_Ok_inv {A B} (m : M A) (k : A -> M B) (o o' : RooUnfoldT) (b : B) :
  bind m k o = (Ok b, o') ->
  exists a o1, m o = (Ok a, o1) /\ k a o1 = (Ok b, o').
Proof.
  unfold bind. destruct (m o) as [[a|e] o1]; intros H.
  - exists a, o1. split; [reflexivity | exact H].
  - discriminate H.
Qed.

Lemma bind_run {A B} {m : M A} (k : A -> M B) {o o1 : RooUnfoldT} {a : A} :
  m o = (Ok a, o1) -> bind m k o = k a o1.
Proof. unfold bind. intros ->. reflexivity. Qed.

Lemma bind_raise {A B} {m : M A} (k : A -> M B) {o o1 : RooUnfoldT} {e : exn} :
  m o = (Raise e, o1) -> bind m k o = (Raise e, o1).
Proof. unfold bind. intros ->. reflexivity. Qed.

(** ** The cache after a reset *)

Lemma vResizeTo_length (n : nat) (v : TVectorD) : length (vResizeTo n v) = n.
Proof.
  unfold vResizeTo. rewrite length_app, repeat_length, length_firstn. lia.
Qed.

Lemma vassign_same_length (t s : TVectorD) : length t = length s -> vassign t s = s.
Proof. unfold vassign. intros ->. rewrite Nat.eqb_refl. reflexivity. Qed.

Lemma vassign_resize (v s : TVectorD) : vassign (vResizeTo (length s) v) s = s.
Proof. apply vassign_same_length, vResizeTo_length. Qed.

Lemma mResizeTo_rows (n k : nat) (m : TMatrixD) : GetNrows (mResizeTo n k m) = n.
Proof. unfold GetNrows, mResizeTo. rewrite length_map, length_seq. reflexivity. Qed.

Lemma mResizeTo_cols (n k : nat) (m : TMatrixD) :
  GetNcols (mResizeTo n k m) = match n with O => O | S _ => k end.
Proof.
  unfold GetNcols, mResizeTo. destruct n as [|n]; [reflexivity|].
  cbn [seq map]. rewrite length_map, length_seq. reflexivity.
Qed.

Lemma massign_resize (m s : TMatrixD) :
  massign (mResizeTo (GetNrows s) (GetNcols s) m) s = s.
Proof.
  unfold massign, same_shape.
  rewrite mResizeTo_rows, mResizeTo_cols, Nat.eqb_refl.
  destruct s as [|r s]; cbn; [reflexivity|]. rewrite Nat.eqb_refl. reflexivity.
Qed.

Lemma Cache_assign_other (k other : Cache) : Cache_assign k other = other.
Proof.
  unfold Cache_assign. rewrite !vassign_resize, !massign_resize.
  destruct other; reflexivity.
Qed.

Lemma Cache_assign_ctor (k : Cache) : Cache_assign k Cache_ctor = Cache_ctor.
Proof. apply Cache_assign_other. Qed.

Ltac run_reset :=
  unfold reset_cache, modify_cache, modify, bind; cbn;
  rewrite ?Cache_assign_ctor; cbn.

Lemma reset_cache_run (o : RooUnfoldT) :
  reset_cache o = (Ok tt, set_cache Cache_ctor o).
Proof.
  unfold reset_cache, modify_cache, modify. rewrite Cache_assign_ctor. reflexivity.
Qed.

Lemma Cache_ctor_fresh : fresh Cache_ctor.
Proof. unfold fresh. cbn. repeat split; reflexivity. Qed.

Lemma Setup_cache (settings : M unit) (res : option Response) (meas : option Hist)
      (o o' : RooUnfoldT) :
  Setup settings res meas o = (Ok tt, o') -> _cache o' = Cache_ctor.
Proof.
  unfold Setup. intros H.
  apply bind_Ok_inv in H. destruct H as (_ & o1 & _ & H).
  apply bind_Ok_inv in H. destruct H as (_ & o2 & _ & H).
  unfold SetMeasured in H.
  apply bind_Ok_inv in H. destruct H as (_ & o3 & _ & H).
  rewrite reset_cache_run in H. inversion H. reflexivity.
Qed.

Lemma Setup_base_run (r : Response) (meas : option Hist) (o : RooUnfoldT) :
  exists o', Setup GetSettings (Some r) meas o = (Ok tt, o') /\
             _res o' = Some r /\ _meas o' = meas /\
             _nm o' = GetNbinsMeasured r /\ _nt o' = GetNbinsTruth r.
Proof.
  eexists. split.
  - unfold Setup, Reset, ClearCache, Init, GetSettings, SetResponse, SetMeasured,
      reset_cache, modify_cache, modify, bind.
    cbn. rewrite !Cache_assign_ctor. reflexivity.
  - cbn. repeat split; reflexivity.
Qed.

(** ** The sticky failure of [Unfold()] *)

Ltac step H :=
  apply bind_Ok_inv in H;
  let a := fresh "a" in
  let o1 := fresh "o" in
  let Hm := fresh "Hm" in
  destruct H as (a & o1 & Hm & H);
  try (unfold member, cached, this in Hm; injection Hm as <- <-).

Section Sticky.

Variable vt : Strategy.
Variable GetErrMat_below : M unit.

(** In a failed cache generation [UnfoldWithErrors] returns [false] and
    leaves the whole object as it is: no virtual function is entered. *)
Lemma UnfoldWithErrors_failed (t : ErrorTreatment) (w : bool) (o : RooUnfoldT) :
  _unfolded (_cache o) = false -> _fail (_cache o) = true ->
  UnfoldWithErrors_on vt GetErrMat_below t w o = (Ok false, o).
Proof.
  intros Hu Hf. unfold UnfoldWithErrors_on, ensure_unfolded, bind, cached, ret. cbn.
  rewrite Hu, Hf. reflexivity.
Qed.

(** A failing [Unfold()] sets the fail flag; the call reports [false]. *)
Lemma UnfoldWithErrors_failure (t : ErrorTreatment) (w : bool) (o o1 : RooUnfoldT) :
  _unfolded (_cache o) = false -> _fail (_cache o) = false ->
  call_Unfold vt o = (Ok tt, o1) -> _unfolded (_cache o1) = false ->
  UnfoldWithErrors_on vt GetErrMat_below t w o
  = (Ok false, set_cache (set_fail true (_cache o1)) o1).
Proof.
  intros Hu Hf Hc Hu1.
  unfold call_Unfold, bind, member, modify in Hc. cbn in Hc.
  unfold UnfoldWithErrors_on, ensure_unfolded, call_Unfold, bind, cached, member,
    ret, modify_cache, modify.
  cbn. rewrite Hu, Hf, Hc, Hu1. reflexivity.
Qed.

(** In a failed cache generation [Vunfold] does not enter [Unfold()] either:
    it hands out the cached vector, resized to the truth bins only if that
    vector has no entry at all. *)
Lemma Vunfold_failed (o : RooUnfoldT) :
  _unfolded (_cache o) = false -> _fail (_cache o) = true ->
  let handed :=
    if Nat.ltb 0 (_nt o) && Nat.eqb (length (_rec (_cache o))) 0
    then vResizeTo (_nt o) (_rec (_cache o)) else _rec (_cache o) in
  fst (Vunfold vt o) = Ok handed /\
  Unfold_calls (snd (Vunfold vt o)) = Unfold_calls o /\
  _unfolded (_cache (snd (Vunfold vt o))) = false /\
  _fail (_cache (snd (Vunfold vt o))) = true /\
  _rec (_cache (snd (Vunfold vt o))) = handed.
Proof.
  intros Hu Hf. unfold Vunfold, bind, cached, ret, this, modify_cache, modify. cbn.
  rewrite Hu, Hf. cbn. rewrite Hu.
  match goal with
  | |- context [if ?b then _ else _] => destruct b eqn:E
  end; cbn; rewrite ?Hu, ?Hf; auto.
Qed.

End Sticky.

(** ** Vectors written bin by bin *)

Lemma vset_length (v : TVectorD) (i : nat) (x : Double_t) :
  length (vset v i x) = length v.
Proof.
  revert i; induction v as [|h t IH]; intros [|i]; cbn; auto.
Qed.

Lemma vset_Forall (P : Double_t -> Prop) (v : TVectorD) (i : nat) (x : Double_t) :
  Forall P v -> P x -> Forall P (vset v i x).
Proof.
  intros Hv Hx. revert i. induction Hv as [|h t Hh Ht IH]; intros [|i]; cbn; auto.
Qed.

Lemma fold_vset_Forall (P : Double_t -> Prop) (f : nat -> Double_t) (l : list nat)
      (v : TVectorD) :
  (forall i, P (f i)) -> Forall P v ->
  Forall P (fold_left (fun v i => vset v i (f i)) l v).
Proof.
  intros Hf. revert v. induction l as [|i l IH]; intros v Hv; cbn; auto.
  apply IH, vset_Forall; auto.
Qed.

Lemma TVectorD_n_Forall (P : Double_t -> Prop) (n : nat) :
  P 0 -> Forall P (TVectorD_n n).
Proof.
  intros H0. unfold TVectorD_n. apply Forall_forall. intros x Hx.
  apply repeat_spec in Hx. subst. exact H0.
Qed.

Lemma firstn_vset_snoc (v : TVectorD) (s : nat) (x : Double_t) :
  (s < length v)%nat -> firstn (S s) (vset v s x) = firstn s v ++ [x].
Proof.
  revert s. induction v as [|h t IH]; intros [|s] Hs; cbn in *; try lia; auto.
  f_equal. apply IH. lia.
Qed.

Lemma fold_vset_seq (f : nat -> Double_t) (m s : nat) (v : TVectorD) :
  length v = (s + m)%nat ->
  fold_left (fun v i => vset v i (f i)) (seq s m) v = firstn s v ++ map f (seq s m).
Proof.
  revert s v. induction m as [|m IH]; intros s v Hl; cbn.
  - rewrite app_nil_r, firstn_all2 by lia. reflexivity.
  - rewrite IH by (rewrite vset_length; lia).
    rewrite firstn_vset_snoc by lia. rewrite <- app_assoc. reflexivity.
Qed.

(** Writing [f i] into every bin of a vector of [n] bins leaves [f] tabulated. *)
Lemma fold_vset_map (f : nat -> Double_t) (n : nat) (v : TVectorD) :
  length v = n ->
  fold_left (fun v i => vset v i (f i)) (seq 0 n) v = map f (seq 0 n).
Proof. intros Hl. rewrite fold_vset_seq by lia. reflexivity. Qed.

(** ** [EunfoldV] *)

(** Whatever the treatment, every entry of a vector [EunfoldV] returns is
    the zero left by the constructor or a square root. *)
Lemma EunfoldV_returned_nonneg (vt : Strategy) (stack : nat) (t : ErrorTreatment)
      (o o' : RooUnfoldT) (v : TVectorD) :
  EunfoldV vt stack t o = (Ok v, o') -> Forall (fun x => 0 <= x) v.
Proof.
  unfold EunfoldV, EunfoldV_on. intros H.
  step H. step H. destruct a as [|]; cbn [negb] in H.
  - step H.
    assert (Hz : Forall (fun x => 0 <= x) (TVectorD_n (_nt o)))
      by (apply TVectorD_n_Forall; lra).
    destruct t; try discriminate H; injection H as <- _;
      apply fold_vset_Forall; auto; intros i; apply sqrt_pos.
  - injection H as <- _. apply TVectorD_n_Forall. lra.
Qed.

Lemma EunfoldV_entries (vt : Strategy) (stack : nat) (t : ErrorTreatment)
      (o o1 : RooUnfoldT) :
  UnfoldWithErrors vt stack t false o = (Ok true, o1) ->
  _nt o1 = _nt o -> t <> kDefault ->
  EunfoldV vt stack t o
  = (Ok (map (fun i => sqrt (Rabs (selected t (_cache o1) i))) (seq 0 (_nt o))), o1).
Proof.
  intros H Hnt Ht. unfold EunfoldV, EunfoldV_on. unfold UnfoldWithErrors in H.
  unfold bind at 1. cbn [member]. rewrite (bind_run _ H). cbn [negb].
  unfold bind, this. rewrite Hnt.
  destruct t; try congruence; unfold ret; f_equal; f_equal;
    apply fold_vset_map; unfold TVectorD_n; apply repeat_length.
Qed.

Lemma EunfoldV_failed (vt : Strategy) (stack : nat) (t : ErrorTreatment)
      (o o1 : RooUnfoldT) :
  UnfoldWithErrors vt stack t false o = (Ok false, o1) ->
  EunfoldV vt stack t o = (Ok (TVectorD_n (_nt o)), o1).
Proof.
  intros H. unfold EunfoldV, EunfoldV_on. unfold UnfoldWithErrors in H.
  unfold bind at 1. cbn [member]. rewrite (bind_run _ H). reflexivity.
Qed.

(** After a successful [UnfoldWithErrors(kDefault)] the switch of [EunfoldV]
    reaches its default branch: no vector is returned. *)
Lemma EunfoldV_kDefault_throws (vt : Strategy) (stack : nat) (o o1 : RooUnfoldT) :
  UnfoldWithErrors vt stack kDefault false o = (Ok true, o1) ->
  exists e, EunfoldV vt stack kDefault o = (Raise e, o1).
Proof.
  intros H. unfold EunfoldV, EunfoldV_on. unfold UnfoldWithErrors in H.
  unfold bind at 1. cbn [member]. rewrite (bind_run _ H). cbn [negb].
  eexists. reflexivity.
Qed.

(** C9.  Once the call of [UnfoldWithErrors] inside [EunfoldV] has returned,
    [EunfoldV] returns a vector with one entry per truth bin, and every entry
    is non-negative whatever the signs of the cached values: after a
    successful call the entry of bin [i] is the square root of the absolute
    value of the variance or diagonal matrix entry the treatment selects,
    after a failed one the vector is all zero.  (The treatment [kDefault]
    returns no vector after a successful call.) *)
Theorem EunfoldV_nonneg (vt : Strategy) (stack : nat) (t : ErrorTreatment)
        (o o1 : RooUnfoldT) (ok : bool) :
  UnfoldWithErrors vt stack t false o = (Ok ok, o1) ->
  _nt o1 = _nt o -> (ok = true -> t <> kDefault) ->
  exists v,
    EunfoldV vt stack t o = (Ok v, o1) /\
    length v = _nt o /\
    Forall (fun x => 0 <= x) v /\
    (ok = true ->
     v = map (fun i => sqrt (Rabs (selected t (_cache o1) i))) (seq 0 (_nt o))) /\
    (ok = false -> v = TVectorD_n (_nt o)).
Proof.
  intros H Hnt Ht. destruct ok.
  - pose proof (EunfoldV_entries vt stack t o o1 H Hnt (Ht eq_refl)) as Hrun.
    eexists. split; [exact Hrun|].
    split; [rewrite length_map, length_seq; reflexivity|].
    split; [exact (EunfoldV_returned_nonneg vt stack t o o1 _ Hrun)|].
    split; [reflexivity | discriminate].
  - pose proof (EunfoldV_failed vt stack t o o1 H) as Hrun.
    eexists. split; [exact Hrun|].
    split; [apply repeat_length|].
    split; [exact (EunfoldV_returned_nonneg vt stack t o o1 _ Hrun)|].
    split; [discriminate | reflexivity].
Qed.

(** ** Matrices written entry by entry *)

Lemma rect_TMatrixD_nk (n k : nat) : rect n k (TMatrixD_nk n k).
Proof.
  unfold rect, TMatrixD_nk. split; [apply repeat_length|].
  apply Forall_forall. intros r Hr. apply repeat_spec in Hr. subst.
  apply repeat_length.
Qed.

Lemma in_range_rect (n k : nat) (m : TMatrixD) (i j : nat) :
  rect n k m -> in_range m i j = Nat.ltb i n && Nat.ltb j k.
Proof.
  intros [Hn Hk]. unfold in_range, GetNrows, GetNcols. rewrite Hn.
  destruct m as [|r m]; cbn in *.
  - subst n. destruct i; reflexivity.
  - inversion Hk; subst. reflexivity.
Qed.

Lemma nth_vset (v : TVectorD) (j j' : nat) (x d : Double_t) :
  (j' < length v)%nat ->
  nth j (vset v j' x) d = if Nat.eqb j j' then x else nth j v d.
Proof.
  revert j j'. induction v as [|h t IH]; intros j j' Hl; cbn in Hl; [lia|].
  destruct j' as [|j'], j as [|j]; cbn; auto. apply IH. lia.
Qed.

Lemma row_set_length (m : TMatrixD) (i j : nat) (x : Double_t) :
  length (row_set m i j x) = length m.
Proof. revert i; induction m as [|r m IH]; intros [|i]; cbn; auto. Qed.

Lemma row_set_rows (k : nat) (m : TMatrixD) (i j : nat) (x : Double_t) :
  Forall (fun r => length r = k) m ->
  Forall (fun r => length r = k) (row_set m i j x).
Proof.
  intros H. revert i. induction H as [|r m Hr Hm IH]; intros [|i]; cbn; auto.
  constructor; auto. rewrite vset_length. exact Hr.
Qed.

Lemma nth_row_set (m : TMatrixD) (i i' j' : nat) (x : Double_t) :
  (i' < length m)%nat ->
  nth i (row_set m i' j' x) [] = if Nat.eqb i i' then vset (nth i m []) j' x
                                 else nth i m [].
Proof.
  revert i i'. induction m as [|r m IH]; intros i i' Hl; cbn in Hl; [lia|].
  destruct i' as [|i'], i as [|i]; cbn; auto. apply IH. lia.
Qed.

Lemma rect_mset (n k : nat) (m : TMatrixD) (i j : nat) (x : Double_t) :
  rect n k m -> rect n k (mset m i j x).
Proof.
  intros [Hn Hk]. unfold mset. destruct (in_range m i j); [|split; assumption].
  split; [rewrite row_set_length; exact Hn | apply row_set_rows; exact Hk].
Qed.

Lemma rect_nth (n k : nat) (m : TMatrixD) (i : nat) :
  rect n k m -> (i < n)%nat -> length (nth i m []) = k.
Proof.
  intros [Hn Hk] Hi. rewrite Forall_forall in Hk. apply Hk, nth_In. lia.
Qed.

Lemma mget_mset (nan : Double_t) (n k : nat) (m : TMatrixD) (i j i' j' : nat)
      (x : Double_t) :
  rect n k m -> (i < n)%nat -> (j < k)%nat ->
  mget nan (mset m i' j' x) i j
  = if Nat.eqb i i' && Nat.eqb j j' then x else mget nan m i j.
Proof.
  intros Hr Hi Hj. unfold mget.
  rewrite (in_range_rect n k _ i j (rect_mset n k m i' j' x Hr)),
    (in_range_rect n k m i j Hr).
  apply Nat.ltb_lt in Hi as Hi'. apply Nat.ltb_lt in Hj as Hj'.
  rewrite Hi', Hj'. cbn [andb]. unfold mset.
  rewrite (in_range_rect n k m i' j' Hr).
  destruct (Nat.ltb i' n) eqn:Ei; cbn [andb].
  - destruct (Nat.ltb j' k) eqn:Ej.
    + apply Nat.ltb_lt in Ei, Ej. destruct Hr as [Hn Hk].
      rewrite nth_row_set by lia.
      destruct (Nat.eqb i i') eqn:E; cbn [andb]; [|reflexivity].
      apply Nat.eqb_eq in E. subst i'.
      apply nth_vset. rewrite (rect_nth n k m i (conj Hn Hk)); assumption.
    + apply Nat.ltb_ge in Ej.
      destruct (Nat.eqb j j') eqn:E; [apply Nat.eqb_eq in E; lia|].
      rewrite andb_false_r. reflexivity.
  - apply Nat.ltb_ge in Ei.
    destruct (Nat.eqb i i') eqn:E; [apply Nat.eqb_eq in E; lia|]. reflexivity.
Qed.

Lemma mget_TMatrixD_nk (nan : Double_t) (n k i j : nat) :
  (i < n)%nat -> (j < k)%nat -> mget nan (TMatrixD_nk n k) i j = 0.
Proof.
  intros Hi Hj. unfold mget.
  rewrite (in_range_rect n k _ i j (rect_TMatrixD_nk n k)).
  apply Nat.ltb_lt in Hi as Hi'. apply Nat.ltb_lt in Hj as Hj'.
  rewrite Hi', Hj'. cbn [andb].
  unfold TMatrixD_nk. rewrite nth_repeat_lt by exact Hi.
  apply nth_repeat.
Qed.

Lemma fold_diag (nan : Double_t) (c : nat -> bool) (g : nat -> Double_t) (n : nat)
      (l : list nat) (m : TMatrixD) :
  rect n n m ->
  let W := fold_left (fun m i => if c i then mset m i i (g i) else m) l m in
  rect n n W /\
  forall i j, (i < n)%nat -> (j < n)%nat ->
    mget nan W i j
    = if Nat.eqb i j && existsb (Nat.eqb i) l && c i then g i else mget nan m i j.
Proof.
  revert m. induction l as [|a l IH]; intros m Hr; cbn [fold_left existsb].
  - split; [exact Hr|]. intros i j _ _. rewrite andb_false_r. reflexivity.
  - set (m' := if c a then mset m a a (g a) else m).
    assert (Hr' : rect n n m')
      by (unfold m'; destruct (c a); [apply rect_mset|]; exact Hr).
    destruct (IH m' Hr') as [HW Hget]. split; [exact HW|].
    intros i j Hi Hj. rewrite (Hget i j Hi Hj).
    assert (Hm' : mget nan m' i j
                  = if c a && (Nat.eqb i a && Nat.eqb j a) then g a else mget nan m i j).
    { unfold m'. destruct (c a); cbn [andb]; [|reflexivity].
      apply (mget_mset nan n n m i j a a (g a) Hr Hi Hj). }
    rewrite Hm'.
    destruct (Nat.eqb i j) eqn:Eij; cbn [andb].
    + apply Nat.eqb_eq in Eij. subst j.
      destruct (Nat.eqb i a) eqn:Eia; cbn [andb orb].
      * apply Nat.eqb_eq in Eia. subst a.
        destruct (existsb (Nat.eqb i) l), (c i); reflexivity.
      * rewrite andb_false_r. reflexivity.
    + destruct (Nat.eqb i a) eqn:Eia; cbn [andb].
      * apply Nat.eqb_eq in Eia. subst a.
        rewrite (Nat.eqb_sym j i), Eij, andb_false_r. reflexivity.
      * rewrite andb_false_r. reflexivity.
Qed.

Lemma existsb_seq (i n : nat) : (i < n)%nat -> existsb (Nat.eqb i) (seq 0 n) = true.
Proof.
  intros Hi. apply existsb_exists. exists i. split.
  - apply in_seq. lia.
  - apply Nat.eqb_refl.
Qed.

(** ** [Wunfold] without errors *)


(** ** [Chi2] for the treatments without a matrix *)

Lemma subtract_get (orig : TVectorD) (h : Hist) (overflow : bool) (i : nat) :
  (i < length (h2v2 h overflow))%nat ->
  vget gNanValue (subtract orig h overflow) i
  = vget gNanValue orig i - vget gNanValue (h2v2 h overflow) i.
Proof.
  intros Hi. unfold subtract, vget at 1.
  rewrite (nth_indep _ gNanValue
             (vget gNanValue orig 0 - vget gNanValue (h2v2 h overflow) 0))
    by (rewrite length_map, length_seq; exact Hi).
  rewrite (map_nth (fun i => vget gNanValue orig i
                             - vget gNanValue (h2v2 h overflow) i)).
  rewrite seq_nth by exact Hi. reflexivity.
Qed.

Lemma chi2_loop (e p : nat -> Double_t) (l : list nat) (a : Double_t) :
  fold_left (fun chi2 i => if Rleb (e i) 0 then chi2 else chi2 + p i) l a
  = a + fold_right Rplus 0 (map p (filter (fun i => Rltb 0 (e i)) l)).
Proof.
  revert a. induction l as [|i l IH]; intros a; cbn [fold_left filter].
  - cbn. lra.
  - rewrite IH. unfold Rleb, Rltb.
    destruct (Rle_dec (e i) 0), (Rlt_dec 0 (e i)); cbn [map fold_right]; lra.
Qed.

Lemma chi2_diagonal_sum (nt : nat) (result : TVectorD) (h : Hist) (overflow : bool)
      (sigma : TVectorD) :
  (nt <= length (h2v2 h overflow))%nat ->
  chi2_diagonal nt (subtract result h overflow) sigma
  = chi2_sum nt result (h2v2 h overflow) sigma.
Proof.
  intros Hl. unfold chi2_diagonal, chi2_sum.
  rewrite (chi2_loop (fun i => vget gNanValue sigma i)
             (fun i => vget gNanValue (subtract result h overflow) i
                       / vget gNanValue sigma i
                       * (vget gNanValue (subtract result h overflow) i
                          / vget gNanValue sigma i))).
  rewrite Rplus_0_l. f_equal. apply map_ext_in.
  intros i Hi. apply filter_In in Hi. destruct Hi as [Hi _].
  apply in_seq in Hi. rewrite subtract_get by lia. reflexivity.
Qed.


(** ** The toys and the cache *)

Ltac stepm H :=
  apply bind_Ok_inv in H;
  let a := fresh "a" in
  let o1 := fresh "o" in
  let Hm := fresh "Hm" in
  destruct H as (a & o1 & Hm & H);
  try (unfold modify_cache, modify, member, cached, this in Hm;
       injection Hm as <- <-);
  try match type of a with unit => destruct a end.

Lemma ForceRecalculation_Ok (o o' : RooUnfoldT) :
  ForceRecalculation o = (Ok tt, o') ->
  exists r, _res o = Some r /\
            o' = set_res (Some (Response_ClearCache r)) (set_cache Cache_ctor o).
Proof.
  unfold ForceRecalculation. rewrite (bind_run _ (reset_cache_run o)).
  unfold bind, member, deref, modify, ret, throw. cbn.
  destruct (_res o) as [r|]; intros H; [|discriminate H].
  injection H as <-. exists r. split; reflexivity.
Qed.

Lemma foldM_last {A B} (P : RooUnfoldT -> Prop) (f : A -> B -> M A) (l : list B)
      (a a' : A) (o o' : RooUnfoldT) :
  l <> [] ->
  (forall a b o a' o', f a b o = (Ok a', o') -> P o') ->
  foldM f l a o = (Ok a', o') -> P o'.
Proof.
  intros Hl Hf. revert a o. induction l as [|b l IH]; [congruence|].
  intros a o H. cbn [foldM] in H. stepm H.
  destruct l as [|b' l].
  - cbn [foldM] in H. injection H as <- <-. eapply Hf; eassumption.
  - eapply IH; [discriminate | eassumption].
Qed.

Section Toys.

Variable vt : Strategy.
Variable GetErrMat_below : M unit.

(** However the toys went, [RunToys] hands the object back with a cache
    that has just been reset. *)
Lemma RunToys_on_cache (ntoys : Z) (vx vxe : list TVectorD) (chi2 : list Double_t)
      (o o' : RooUnfoldT) out :
  RunToys_on vt GetErrMat_below ntoys vx vxe chi2 o = (Ok out, o') ->
  _cache o' = Cache_ctor.
Proof.
  unfold RunToys_on. intros H.
  stepm H. stepm H. stepm H. stepm H. stepm H.
  injection H as _ <-.
  apply ForceRecalculation_Ok in Hm0. destruct Hm0 as (r & _ & ->). reflexivity.
Qed.

Lemma RunToy_on_cache (o o' : RooUnfoldT) out :
  RunToy_on vt GetErrMat_below o = (Ok out, o') -> _cache o' = Cache_ctor.
Proof.
  unfold RunToy_on. intros H. stepm H.
  apply RunToys_on_cache in Hm.
  destruct a as [[vx vxe] chi2].
  unfold at_ in H.
  destruct (nth_error vx 0); [|discriminate H].
  destruct (nth_error vxe 0); [|discriminate H].
  destruct (nth_error chi2 0); [|discriminate H].
  injection H as _ <-. exact Hm.
Qed.

Lemma fold_mset_rect (n k : nat) (f : nat -> nat -> Double_t) (l1 l2 : list nat)
      (m : TMatrixD) :
  rect n k m ->
  rect n k (fold_left (fun m i => fold_left (fun m j => mset m i j (f i j)) l2 m) l1 m).
Proof.
  revert m. induction l1 as [|i l1 IH]; intros m Hr; cbn [fold_left]; [exact Hr|].
  apply IH. clear IH. revert m Hr.
  induction l2 as [|j l2 IH2]; intros m Hr; cbn [fold_left]; [exact Hr|].
  apply IH2, rect_mset, Hr.
Qed.

(** With at most one toy configured, [GetErrMat] returns at once. *)
Lemma GetErrMat_body_skipped (o : RooUnfoldT) :
  (_NToys o <= 1)%Z -> GetErrMat_body vt GetErrMat_below o = (Ok tt, o).
Proof.
  intros Hn. unfold GetErrMat_body, bind, member.
  apply Z.leb_le in Hn. rewrite Hn. reflexivity.
Qed.

(** With more than one toy, the toys reset the cache after the resize of
    [_err_mat]: what [GetErrMat] leaves is the one-by-one matrix of the reset
    cache with its validity flag set, no result vector and no unfolded flag. *)
Lemma GetErrMat_body_toys (o o' : RooUnfoldT) :
  (1 < _NToys o)%Z ->
  GetErrMat_body vt GetErrMat_below o = (Ok tt, o') ->
  rect 1 1 (_err_mat (_cache o')) /\
  _have_err_mat (_cache o') = true /\
  _unfolded (_cache o') = false /\
  _rec (_cache o') = [0].
Proof.
  intros Hn H. unfold GetErrMat_body in H. stepm H.
  apply Z.leb_gt in Hn. rewrite Hn in H.
  stepm H. stepm H. stepm H.
  match goal with
  | Hf : foldM _ _ _ _ = (Ok ?sums, ?ox) |- _ =>
      assert (Hc : _cache ox = Cache_ctor);
      [ revert Hf; apply (foldM_last (fun o => _cache o = Cache_ctor));
        [ apply Z.leb_gt in Hn; destruct (Z.to_nat (_NToys o)) eqn:E; [lia|];
          cbn; discriminate
        | intros acc k oa acc' ob Hs; stepm Hs;
          match goal with
          | Ht : RunToy_on _ _ _ = (Ok ?out, _) |- _ =>
              apply RunToy_on_cache in Ht; destruct out as [[x xe] c];
              stepm Hs; injection Hs as _ <-; exact Ht
          end ]
      | destruct sums as [xisum xijsum] ]
  end.
  stepm H. stepm H.
  unfold modify_cache, modify in H. injection H as <-. cbn.
  rewrite Hc. cbn.
  split; [|repeat split].
  apply fold_mset_rect. apply (rect_TMatrixD_nk 1 1).
Qed.

End Toys.

(** ** A new error treatment on an unfolded object *)

Lemma result_kept_refl (o : RooUnfoldT) : result_kept o o.
Proof. repeat split. Qed.

Lemma result_kept_trans (o1 o2 o3 : RooUnfoldT) :
  result_kept o1 o2 -> result_kept o2 o3 -> result_kept o1 o3.
Proof.
  intros (A1 & A2 & A3) (B1 & B2 & B3). repeat split; congruence.
Qed.

Lemma keeps_ret {A} (a : A) : keeps (ret a).
Proof. intros o. apply result_kept_refl. Qed.

Lemma keeps_throw {A} (e : exn) : keeps (@throw _ A e).
Proof. intros o. apply result_kept_refl. Qed.

Lemma keeps_member {A} (f : RooUnfoldT -> A) : keeps (member f).
Proof. intros o. apply result_kept_refl. Qed.

Lemma keeps_cached {A} (f : Cache -> A) : keeps (cached f).
Proof. intros o. apply result_kept_refl. Qed.

Lemma keeps_this : keeps this.
Proof. intros o. apply result_kept_refl. Qed.

Lemma keeps_deref {A} (p : option A) : keeps (deref p).
Proof. destruct p; intros o; apply result_kept_refl. Qed.

Lemma keeps_bind {A B} (m : M A) (k : A -> M B) :
  keeps m -> (forall a, keeps (k a)) -> keeps (bind m k).
Proof.
  intros Hm Hk o. unfold bind. specialize (Hm o).
  destruct (m o) as [[a|e] o1]; cbn [snd] in *; [|exact Hm].
  eapply result_kept_trans; [exact Hm | apply Hk].
Qed.

Lemma keeps_modify_cache (f : Cache -> Cache) :
  (forall k, _rec (f k) = _rec k /\ _unfolded (f k) = _unfolded k) ->
  keeps (modify_cache f).
Proof.
  intros Hf o. unfold modify_cache, modify, result_kept. cbn.
  destruct (Hf (_cache o)) as [-> ->]. repeat split.
Qed.

Lemma keeps_set_withError (t : ErrorTreatment) : keeps (modify (set_withError t)).
Proof. intros o. repeat split. Qed.

Ltac keeps_auto :=
  repeat first
    [ assumption
    | apply keeps_ret | apply keeps_throw | apply keeps_member
    | apply keeps_cached | apply keeps_this | apply keeps_deref
    | apply keeps_set_withError
    | apply keeps_modify_cache; intros; split; reflexivity
    | apply keeps_bind; [|intros ?]
    | match goal with
      | |- keeps (if ?b then _ else _) => destruct b
      | |- keeps (match ?x with Some _ => _ | None => _ end) => destruct x
      | |- keeps (let '(_, _) := ?x in _) => destruct x
      end ].

Lemma keeps_Emeasured : keeps Emeasured.
Proof. unfold Emeasured, response. keeps_auto. Qed.

Lemma keeps_GetMeasuredCov : keeps GetMeasuredCov.
Proof. unfold GetMeasuredCov. pose proof keeps_Emeasured. keeps_auto. Qed.

Lemma keeps_GetCov : keeps GetCov.
Proof. unfold GetCov. pose proof keeps_GetMeasuredCov. keeps_auto. Qed.

Lemma keeps_GetErrors (GetCov_v : M unit) : keeps GetCov_v -> keeps (GetErrors GetCov_v).
Proof. intros H. unfold GetErrors, GetErrorsCovariance. keeps_auto. Qed.

Lemma keeps_GetWgt (GetCov_v : M unit) : keeps GetCov_v -> keeps (GetWgt GetCov_v).
Proof. intros H. unfold GetWgt. keeps_auto. Qed.

Lemma keeps_errors_for (vt : Strategy) (G : M unit) (t : ErrorTreatment) (w : bool) :
  t <> kCovToy ->
  keeps (v_GetErrors vt) -> keeps (v_GetCov vt) -> keeps (v_GetWgt vt) ->
  keeps (errors_for vt G t w).
Proof.
  intros Ht He Hc Hw. unfold errors_for.
  destruct t; try congruence; cbn [ErrorTreatment_eqb orb andb]; keeps_auto.
Qed.

Lemma ensure_unfolded_done (vt : Strategy) (o : RooUnfoldT) :
  _unfolded (_cache o) = true -> ensure_unfolded vt o = (Ok true, o).
Proof. intros H. unfold ensure_unfolded, bind, cached. rewrite H. reflexivity. Qed.

(** C3, as the code has it.  On an unfolded object, a call of
    [UnfoldWithErrors] with a treatment [t] other than the toy covariance
    and other than the treatment of the previous call clears [_haveErrors],
    records [t] and then computes what [t] needs.  The result vector, the
    unfolded flag and the count of [Unfold()] calls stay as they are,
    provided the [GetErrors], [GetCov] and [GetWgt] of the algorithm keep
    them.  For the treatments that need nothing computed the object
    afterwards differs only in [_haveErrors] and [_withError]; for the
    diagonal treatments [GetErrors] is entered again on that object. *)
Theorem UnfoldWithErrors_new_treatment (vt : Strategy) (stack : nat)
        (t : ErrorTreatment) (w : bool) (o : RooUnfoldT) :
  _unfolded (_cache o) = true ->
  t <> _withError o -> t <> kCovToy ->
  keeps (v_GetErrors vt) -> keeps (v_GetCov vt) -> keeps (v_GetWgt vt) ->
  let o0 := set_withError t (set_cache (set_haveErrors false (_cache o)) o) in
  result_kept o (snd (UnfoldWithErrors vt stack t w o)) /\
  (t = kNoError \/ t = kDefault ->
   UnfoldWithErrors vt stack t w o = (Ok true, o0)) /\
  (t = kErrors \/ t = kRooFit -> w = false ->
   forall o1, v_GetErrors vt o0 = (Ok tt, o1) ->
     UnfoldWithErrors vt stack t w o
     = (Ok (_haveErrors (_cache o1)),
        if _haveErrors (_cache o1) then o1
        else set_cache (set_fail true (_cache o1)) o1)).
Proof.
  intros Hu Ht Hn He Hc Hw o0.
  assert (Hrun : UnfoldWithErrors vt stack t w o
                 = errors_for vt (GetErrMat vt stack) t w o).
  { unfold UnfoldWithErrors, UnfoldWithErrors_on.
    rewrite (bind_run _ (ensure_unfolded_done vt o Hu)). reflexivity. }
  assert (Hneq : ErrorTreatment_eqb (_withError o) t = false)
    by (apply ErrorTreatment_eqb_neq; congruence).
  split; [|split].
  - rewrite Hrun. apply keeps_errors_for; assumption.
  - intros Hk. rewrite Hrun. unfold errors_for, bind, member, modify_cache, modify.
    rewrite Hneq. destruct Hk as [-> | ->]; cbn; rewrite andb_false_r; reflexivity.
  - intros Hk -> o1 Hg. rewrite Hrun.
    unfold errors_for, bind, member, cached, modify_cache, modify, ret.
    rewrite Hneq.
    destruct Hk as [-> | ->]; cbn; fold o0; rewrite Hg;
      destruct (_haveErrors (_cache o1)); reflexivity.
Qed.

(** ** The base-class algorithm returns *)

Lemma returns_weaken {A} (P P' Q Q' : RooUnfoldT -> Prop) (m : M A) :
  (forall o, P' o -> P o) -> (forall o, Q o -> Q' o) ->
  returns P m Q -> returns P' m Q'.
Proof.
  intros HP HQ Hm o Ho. destruct (Hm o (HP o Ho)) as (a & o' & E & Hq).
  exists a, o'. split; [exact E | apply HQ, Hq].
Qed.

Lemma returns_vacuous {A} (P Q : RooUnfoldT -> Prop) (m : M A) :
  (forall o, ~ P o) -> returns P m Q.
Proof. intros H o Ho. destruct (H o Ho). Qed.

Lemma returns_ret {A} (P : RooUnfoldT -> Prop) (a : A) : returns P (ret a) P.
Proof. intros o Ho. exists a, o. split; [reflexivity | exact Ho]. Qed.

Lemma returns_member {A} (P : RooUnfoldT -> Prop) (f : RooUnfoldT -> A) :
  returns P (member f) P.
Proof. intros o Ho. exists (f o), o. split; [reflexivity | exact Ho]. Qed.

Lemma returns_cached {A} (P : RooUnfoldT -> Prop) (f : Cache -> A) :
  returns P (cached f) P.
Proof. intros o Ho. exists (f (_cache o)), o. split; [reflexivity | exact Ho]. Qed.

Lemma returns_this (P : RooUnfoldT -> Prop) : returns P this P.
Proof. intros o Ho. exists o, o. split; [reflexivity | exact Ho]. Qed.

Lemma returns_modify (P Q : RooUnfoldT -> Prop) (f : RooUnfoldT -> RooUnfoldT) :
  (forall o, P o -> Q (f o)) -> returns P (modify f) Q.
Proof. intros H o Ho. exists tt, (f o). split; [reflexivity | apply H, Ho]. Qed.

Lemma returns_bind {A B} (P Q R : RooUnfoldT -> Prop) (m : M A) (k : A -> M B) :
  returns P m Q -> (forall a, returns Q (k a) R) -> returns P (bind m k) R.
Proof.
  intros Hm Hk o Ho. destruct (Hm o Ho) as (a & o1 & E & Hq).
  destruct (Hk a o1 Hq) as (b & o2 & E2 & Hr).
  exists b, o2. split; [|exact Hr]. unfold bind. rewrite E. exact E2.
Qed.

(** The value a member has when it is read is known to the continuation. *)
Lemma returns_bind_member {A B} (P R : RooUnfoldT -> Prop) (f : RooUnfoldT -> A)
      (k : A -> M B) :
  (forall a, returns (fun o => P o /\ f o = a) (k a) R) ->
  returns P (bind (member f) k) R.
Proof. intros H o Ho. exact (H (f o) o (conj Ho eq_refl)). Qed.

Section Base_returns.

(** A property of the object that implies the two pointers are set and that
    no write to the cache disturbs. *)
Variable I : RooUnfoldT -> Prop.
Hypothesis I_bound : forall o, I o -> bound o.
Hypothesis I_cache : forall o k, I o -> I (set_cache k o).

Lemma returns_modify_cache (f : Cache -> Cache) : returns I (modify_cache f) I.
Proof. apply returns_modify. intros o Ho. apply I_cache, Ho. Qed.

Lemma returns_response : returns I response I.
Proof.
  intros o Ho. destruct (I_bound o Ho) as [Hr _].
  unfold response, bind, member, deref.
  destruct (_res o) as [r|]; [|contradiction].
  exists r, o. split; [reflexivity | exact Ho].
Qed.

Lemma returns_measured : returns I (p <- member _meas ;; deref p) I.
Proof.
  intros o Ho. destruct (I_bound o Ho) as [_ Hm].
  unfold bind, member, deref.
  destruct (_meas o) as [h|]; [|contradiction].
  exists h, o. split; [reflexivity | exact Ho].
Qed.

Ltac returns_auto :=
  repeat first
    [ eassumption
    | apply returns_ret | apply returns_member | apply returns_cached
    | apply returns_this | apply returns_modify_cache | apply returns_response
    | eapply returns_bind; [|intros ?]
    | match goal with
      | |- returns _ (if ?b then _ else _) _ => destruct b
      | |- returns _ (match ?x with Some _ => _ | None => _ end) _ => destruct x
      | |- returns _ (let '(_, _) := ?x in _) _ => destruct x
      end
    | progress cbv zeta ].

Lemma returns_deref_meas {B} (k : Hist -> M B) (a : RooUnfoldT) :
  (forall h, returns I (k h) I) ->
  returns (fun o => I o /\ o = a) (h <- deref (_meas a) ;; k h) I.
Proof.
  intros Hk o [Ho ->]. destruct (I_bound a Ho) as [_ Hm].
  destruct (_meas a) as [h|]; [|contradiction].
  exact (Hk h a Ho).
Qed.

Lemma returns_bind_this {B} (k : RooUnfoldT -> M B) :
  (forall a, returns (fun o => I o /\ o = a) (k a) I) ->
  returns I (bind this k) I.
Proof. intros H o Ho. exact (H o o (conj Ho eq_refl)). Qed.

Lemma returns_Vmeasured : returns I Vmeasured I.
Proof.
  unfold Vmeasured. eapply returns_bind; [apply returns_cached|].
  intros [v|]; [apply returns_ret|].
  apply returns_bind_this. intros a.
  apply returns_deref_meas. intros h. returns_auto.
Qed.

Lemma returns_Emeasured : returns I Emeasured I.
Proof.
  unfold Emeasured. eapply returns_bind; [apply returns_cached|].
  intros [v|]; [apply returns_ret|].
  apply returns_bind_this. intros a.
  destruct (_covMes a).
  - apply (returns_weaken I _ I I); [intros o [Ho _]; exact Ho | auto |].
    returns_auto.
  - apply returns_deref_meas. intros h. returns_auto.
Qed.

Lemma returns_GetMeasuredCov : returns I GetMeasuredCov I.
Proof. unfold GetMeasuredCov. pose proof returns_Emeasured. returns_auto. Qed.

Lemma returns_Unfold : returns I Unfold I.
Proof. unfold Unfold. pose proof returns_Vmeasured. returns_auto. Qed.

Lemma returns_GetCov : returns I GetCov I.
Proof. unfold GetCov. pose proof returns_GetMeasuredCov. returns_auto. Qed.

Lemma returns_GetWgt : returns I (GetWgt GetCov) I.
Proof. unfold GetWgt. pose proof returns_GetCov. returns_auto. Qed.

(** [GetErrorsCovariance] returns where the treatment recorded is [kErrors],
    and throws otherwise. *)
Lemma returns_GetErrors :
  (forall o, I o -> _withError o = kErrors) -> returns I (GetErrors GetCov) I.
Proof.
  intros Hw. unfold GetErrors, GetErrorsCovariance.
  apply returns_bind_member. intros we.
  destruct (ErrorTreatment_eqb we kErrors) eqn:E; cbn [negb].
  - apply (returns_weaken I _ I I); [intros o [Ho _]; exact Ho | auto |].
    pose proof returns_GetCov. returns_auto.
  - apply returns_vacuous. intros o [Ho <-].
    rewrite (Hw o Ho) in E. discriminate E.
Qed.

Lemma returns_call_Unfold :
  (forall o n, I o -> I (set_Unfold_calls n o)) ->
  returns I (call_Unfold RooUnfoldT_vtable) I.
Proof.
  intros Hc. unfold call_Unfold. cbn [v_Unfold RooUnfoldT_vtable].
  eapply returns_bind; [apply returns_member|]. intros n.
  eapply returns_bind; [apply returns_modify; intros o Ho; apply Hc, Ho|].
  intros _. apply returns_Unfold.
Qed.

Lemma returns_ensure_unfolded :
  (forall o n, I o -> I (set_Unfold_calls n o)) ->
  returns I (ensure_unfolded RooUnfoldT_vtable) I.
Proof.
  intros Hc. unfold ensure_unfolded. pose proof (returns_call_Unfold Hc). returns_auto.
Qed.

End Base_returns.

(** With the base-class algorithm, on an object that points to a response
    and to a measured histogram, [UnfoldWithErrors] returns for every
    treatment that needs no toys, except the fit errors ([kRooFit] reaches the
    [throw] of [GetErrorsCovariance]); it leaves the pointers and the number
    of truth bins as they are. *)
Lemma UnfoldWithErrors_base_returns (stack : nat) (t : ErrorTreatment) (w : bool)
      (o : RooUnfoldT) :
  bound o -> t <> kCovToy -> t <> kRooFit ->
  exists ok o1,
    UnfoldWithErrors RooUnfoldT_vtable stack t w o = (Ok ok, o1) /\
    bound o1 /\ _nt o1 = _nt o.
Proof.
  intros Hb Ht Hf.
  set (I0 := fun o' : RooUnfoldT => bound o' /\ _nt o' = _nt o).
  set (I1 := fun o' : RooUnfoldT => I0 o' /\ _withError o' = t).
  assert (B0 : forall o', I0 o' -> bound o') by (intros o' [H _]; exact H).
  assert (C0 : forall o' k, I0 o' -> I0 (set_cache k o')) by (intros o' k H; exact H).
  assert (B1 : forall o', I1 o' -> bound o') by (intros o' [[H _] _]; exact H).
  assert (C1 : forall o' k, I1 o' -> I1 (set_cache k o')) by (intros o' k H; exact H).
  assert (U0 : forall o' n, I0 o' -> I0 (set_Unfold_calls n o'))
    by (intros o' n H; exact H).
  assert (Herr : returns I0 (errors_for RooUnfoldT_vtable (GetErrMat RooUnfoldT_vtable stack)
                               t w) I0).
  { unfold errors_for.
    eapply returns_bind; [apply returns_member|]. intros we.
    eapply returns_bind;
      [destruct (negb (ErrorTreatment_eqb we t));
       [apply (returns_modify_cache I0 C0) | apply returns_ret]|].
    intros _.
    eapply (returns_bind I0 I1);
      [apply returns_modify; intros o' H; split; [exact H | reflexivity]|].
    intros _.
    apply (returns_weaken I1 I1 I1 I0); [auto | intros o' [H _]; exact H|].
    pose proof (returns_GetCov I1 B1 C1) as HC.
    pose proof (returns_GetWgt I1 B1 C1) as HW.
    cbn [v_GetWgt v_GetErrors v_GetCov RooUnfoldT_vtable].
    eapply (returns_bind I1 I1).
    - destruct t; try congruence; destruct w;
        cbn [ErrorTreatment_eqb orb andb];
        repeat first
          [ eassumption
          | apply returns_ret | apply returns_cached
          | apply (returns_GetErrors I1 B1 C1); intros o' [_ H]; exact H
          | eapply returns_bind; [|intros ?]
          | match goal with
            | |- returns _ (if ?b then _ else _) _ => destruct b
            end ].
    - intros ok.
      eapply returns_bind;
        [destruct ok; [apply returns_ret | apply (returns_modify_cache I1 C1)]|].
      intros _. apply returns_ret. }
  assert (Hall : returns I0 (UnfoldWithErrors RooUnfoldT_vtable stack t w) I0).
  { unfold UnfoldWithErrors, UnfoldWithErrors_on.
    eapply returns_bind; [apply (returns_ensure_unfolded I0 B0 C0 U0)|].
    intros [|]; cbn [negb]; [exact Herr | apply returns_ret]. }
  destruct (Hall o (conj Hb eq_refl)) as (ok & o1 & E & H1 & H2).
  exists ok, o1. split; [exact E|]. split; assumption.
Qed.

(** So [EunfoldV] of the base-class algorithm always hands out a vector of
    non-negative entries, one per truth bin, for these treatments. *)
Lemma EunfoldV_base_returns (stack : nat) (t : ErrorTreatment) (o : RooUnfoldT) :
  bound o -> t = kNoError \/ t = kErrors \/ t = kCovariance ->
  exists v o1,
    EunfoldV RooUnfoldT_vtable stack t o = (Ok v, o1) /\
    length v = _nt o /\ Forall (fun x => 0 <= x) v.
Proof.
  intros Hb Ht.
  assert (H3 : t <> kCovToy /\ t <> kRooFit /\ t <> kDefault)
    by (destruct Ht as [->|[->| ->]]; repeat split; discriminate).
  destruct H3 as (Hn1 & Hn2 & Hn3).
  destruct (UnfoldWithErrors_base_returns stack t false o Hb Hn1 Hn2)
    as (ok & o1 & E & _ & Hnt).
  destruct ok.
  - pose proof (EunfoldV_entries RooUnfoldT_vtable stack t o o1 E Hnt Hn3) as Hrun.
    eexists _, o1. split; [exact Hrun|].
    split; [rewrite length_map, length_seq; reflexivity|].
    exact (EunfoldV_returned_nonneg RooUnfoldT_vtable stack t o o1 _ Hrun).
  - pose proof (EunfoldV_failed RooUnfoldT_vtable stack t o o1 E) as Hrun.
    eexists _, o1. split; [exact Hrun|].
    split; [apply repeat_length|].
    exact (EunfoldV_returned_nonneg RooUnfoldT_vtable stack t o o1 _ Hrun).
Qed.

(** ** The closure protocol *)

Lemma fold_left_sum_upto (f : nat -> Double_t) (n : nat) :
  fold_left (fun s i => s + f i) (seq 0 n) 0 = sum_upto n f.
Proof.
  induction n as [|n IH]; [reflexivity|].
  rewrite seq_S, fold_left_app. cbn. rewrite IH. reflexivity.
Qed.

Lemma sum_upto_ext (f g : nat -> Double_t) (n : nat) :
  (forall i, (i < n)%nat -> f i = g i) -> sum_upto n f = sum_upto n g.
Proof.
  induction n as [|n IH]; intros H; cbn; [reflexivity|].
  rewrite IH by (intros i Hi; apply H; lia). rewrite H by lia. reflexivity.
Qed.

Lemma foldM_pure {A B} (f : A -> B -> M A) (g : A -> B -> A) (l : list B) (a : A)
      (o : RooUnfoldT) :
  (forall a b, In b l -> f a b o = (Ok (g a b), o)) ->
  foldM f l a o = (Ok (fold_left g l a), o).
Proof.
  revert a. induction l as [|b l IH]; intros a H; cbn [foldM fold_left]; [reflexivity|].
  rewrite (bind_run _ (H a b (or_introl eq_refl))).
  apply IH. intros a' b' Hin. apply H. right. exact Hin.
Qed.

Lemma at_run {A} (v : list A) (i : nat) (d : A) (o : RooUnfoldT) :
  (i < length v)%nat -> at_ v i o = (Ok (nth i v d), o).
Proof.
  intros Hi. unfold at_. rewrite (nth_error_nth' v d Hi). reflexivity.
Qed.

Lemma vget_map_seq (nan : Double_t) (f : nat -> Double_t) (n j : nat) :
  (j < n)%nat -> vget nan (map f (seq 0 n)) j = f j.
Proof.
  intros Hj. unfold vget.
  rewrite (nth_indep _ nan (f O)) by (rewrite length_map, length_seq; exact Hj).
  rewrite (map_nth f). rewrite seq_nth by exact Hj. reflexivity.
Qed.

Section Closure.

Variables (truth : TVectorD) (toy_unfold toy_error : list TVectorD).
Variables (N nt : nat).

Local Abbreviation P := (closure_pull truth toy_unfold toy_error).
Local Abbreviation pull_step := (pull_step truth toy_unfold toy_error).
Local Abbreviation pulls_inv := (pulls_inv truth toy_unfold toy_error N nt).

Lemma closure_pulls_pure (ntoys : Z) (o : RooUnfoldT) :
  length toy_unfold = Z.to_nat ntoys -> length toy_error = Z.to_nat ntoys ->
  closure_pulls ntoys nt truth toy_unfold toy_error o
  = (Ok (fold_left (fun acc i =>
                      fold_left (pull_step i) (seq 0 (length (nth i toy_unfold []))) acc)
                   (seq 0 (Z.to_nat ntoys))
                   (TMatrixD_nk (Z.to_nat ntoys) nt, TVectorD_n nt)), o).
Proof.
  intros Hu He. unfold closure_pulls. apply foldM_pure.
  intros acc i Hi. apply in_seq in Hi.
  rewrite (bind_run _ (at_run toy_unfold i [] o ltac:(lia))).
  apply foldM_pure. intros [pull_results bias] j _.
  rewrite (bind_run _ (at_run toy_error i [] o ltac:(lia))).
  unfold pull_step. destruct (negb _); reflexivity.
Qed.

Lemma pulls_inv_init : pulls_inv 0 0 (TMatrixD_nk N nt, TVectorD_n nt).
Proof.
  unfold pulls_inv. cbn [fst snd].
  split; [apply rect_TMatrixD_nk|].
  split; [apply repeat_length|]. split.
  - intros i j Hi Hj. rewrite mget_TMatrixD_nk by assumption.
    destruct i; cbn; reflexivity.
  - intros j Hj. unfold vget, TVectorD_n. rewrite nth_repeat_lt by exact Hj. cbn. lra.
Qed.

Lemma pull_step_inv (a b : nat) (acc : TMatrixD * TVectorD) :
  (a < N)%nat -> (b < nt)%nat ->
  pulls_inv a b acc -> pulls_inv a (S b) (pull_step a acc b).
Proof.
  intros Ha Hb. destruct acc as [pull bias].
  intros (Hr & Hl & Hp & Hs). cbn [fst snd] in *.
  unfold pull_step.
  assert (HP : P a b = if Reqb (vget gNanValue (nth a toy_error []) b) 0 then 0
                       else (vget gNanValue (nth a toy_unfold []) b
                             - vget gNanValue truth b)
                            / vget gNanValue (nth a toy_unfold []) b)
    by reflexivity.
  destruct (Reqb (vget gNanValue (nth a toy_error []) b) 0); cbn [negb].
  - (* nothing recorded *)
    unfold pulls_inv. cbn [fst snd].
    split; [exact Hr|]. split; [exact Hl|]. split.
    + intros i j Hi Hj. rewrite (Hp i j Hi Hj).
      destruct (Nat.ltb_spec i a); cbn [orb]; [reflexivity|].
      destruct (Nat.eqb_spec i a); cbn [andb]; [|reflexivity]. subst i.
      destruct (Nat.ltb_spec j b), (Nat.ltb_spec j (S b)); try lia; try reflexivity.
      assert (j = b) by lia. subst j. rewrite HP. reflexivity.
    + intros j Hj. rewrite (Hs j Hj).
      destruct (Nat.ltb_spec j b), (Nat.ltb_spec j (S b)); try lia; try reflexivity.
      assert (j = b) by lia. subst j. rewrite HP. reflexivity.
  - (* a pull recorded *)
    unfold pulls_inv. cbn [fst snd].
    split; [apply rect_mset; exact Hr|].
    split; [rewrite vset_length; exact Hl|]. split.
    + intros i j Hi Hj. rewrite (mget_mset _ N nt pull i j a b _ Hr Hi Hj).
      rewrite (Hp i j Hi Hj).
      destruct (Nat.eqb_spec i a); cbn [andb orb].
      * subst i. rewrite Nat.ltb_irrefl. cbn [orb].
        destruct (Nat.eqb_spec j b).
        -- subst j. rewrite (proj2 (Nat.ltb_lt b (S b))) by lia. symmetry. exact HP.
        -- destruct (Nat.ltb_spec j b), (Nat.ltb_spec j (S b)); try lia; reflexivity.
      * rewrite !orb_false_r. reflexivity.
    + intros j Hj. unfold vget at 1. rewrite nth_vset by lia.
      rewrite (mget_mset _ N nt pull a b a b _ Hr Ha Hb).
      rewrite !Nat.eqb_refl. cbn [andb].
      destruct (Nat.eqb_spec j b).
      * subst j. rewrite (Hs b Hb). rewrite Nat.ltb_irrefl.
        rewrite (proj2 (Nat.ltb_lt b (S b))) by lia. rewrite HP. lra.
      * change (nth j bias gNanValue) with (vget gNanValue bias j).
        rewrite (Hs j Hj).
        destruct (Nat.ltb_spec j b), (Nat.ltb_spec j (S b)); try lia; reflexivity.
Qed.

Lemma pull_steps_inv (a m b : nat) (acc : TMatrixD * TVectorD) :
  (a < N)%nat -> (b + m <= nt)%nat ->
  pulls_inv a b acc ->
  pulls_inv a (b + m) (fold_left (pull_step a) (seq b m) acc).
Proof.
  intros Ha. revert b acc. induction m as [|m IH]; intros b acc Hb Hinv.
  - rewrite Nat.add_0_r. exact Hinv.
  - cbn [seq fold_left]. replace (b + S m)%nat with (S b + m)%nat by lia.
    apply IH; [lia|]. apply pull_step_inv; [exact Ha | lia | exact Hinv].
Qed.

Lemma pulls_inv_next (a : nat) (acc : TMatrixD * TVectorD) :
  pulls_inv a nt acc -> pulls_inv (S a) 0 acc.
Proof.
  intros (Hr & Hl & Hp & Hs). unfold pulls_inv.
  split; [exact Hr|]. split; [exact Hl|]. split.
  - intros i j Hi Hj. rewrite (Hp i j Hi Hj).
    rewrite (proj2 (Nat.ltb_lt j nt) Hj).
    destruct (Nat.ltb_spec i a), (Nat.eqb_spec i a), (Nat.ltb_spec i (S a)),
      (Nat.eqb_spec i (S a)); cbn; try lia; reflexivity.
  - intros j Hj. rewrite (Hs j Hj). rewrite (proj2 (Nat.ltb_lt j nt) Hj).
    cbn. lra.
Qed.

Lemma toys_inv (m a : nat) (acc : TMatrixD * TVectorD) :
  Forall (fun v => length v = nt) toy_unfold -> length toy_unfold = N ->
  (a + m <= N)%nat ->
  pulls_inv a 0 acc ->
  pulls_inv (a + m) 0
    (fold_left (fun acc i =>
                  fold_left (pull_step i) (seq 0 (length (nth i toy_unfold []))) acc)
               (seq a m) acc).
Proof.
  intros Hrows Hlen. revert a acc. induction m as [|m IH]; intros a acc Ha Hinv.
  - rewrite Nat.add_0_r. exact Hinv.
  - cbn [seq fold_left]. replace (a + S m)%nat with (S a + m)%nat by lia.
    apply IH; [lia|]. apply pulls_inv_next.
    assert (Hrow : length (nth a toy_unfold []) = nt).
    { rewrite Forall_forall in Hrows. apply Hrows, nth_In. lia. }
    rewrite Hrow.
    apply (pull_steps_inv a nt 0 acc); [lia | lia | exact Hinv].
Qed.

End Closure.

Lemma closure_sum2_sum (ntoys : Z) (pull_results : TMatrixD) (mean : Double_t)
      (j : nat) :
  closure_sum2 ntoys pull_results mean j
  = sum_upto (Z.to_nat ntoys)
             (fun i => (mget gNanValue pull_results i j - mean)
                       * (mget gNanValue pull_results i j - mean)).
Proof.
  unfold closure_sum2.
  apply (fold_left_sum_upto
           (fun i => (mget gNanValue pull_results i j - mean)
                     * (mget gNanValue pull_results i j - mean))).
Qed.

(** What [closure_store] leaves in the cache. *)
Lemma closure_store_run (ntoys : Z) (truth : TVectorD)
      (toy_unfold toy_error : list TVectorD) (o : RooUnfoldT) :
  length toy_unfold = Z.to_nat ntoys -> length toy_error = Z.to_nat ntoys ->
  Forall (fun v => length v = _nt o) toy_unfold ->
  let P := closure_pull truth toy_unfold toy_error in
  let mean := fun j => sum_upto (Z.to_nat ntoys) (fun i => P i j) / IZR ntoys in
  exists o',
    closure_store ntoys truth toy_unfold toy_error o = (Ok tt, o') /\
    _bias (_cache o') = map mean (seq 0 (_nt o)) /\
    _sigbias (_cache o')
    = map (fun j =>
             closure_sigbias ntoys
               (sum_upto (Z.to_nat ntoys)
                         (fun i => (P i j - mean j) * (P i j - mean j))))
          (seq 0 (_nt o)).
Proof.
  intros Hu He Hrows P mean.
  pose proof (toys_inv truth toy_unfold toy_error (Z.to_nat ntoys) (_nt o)
                (Z.to_nat ntoys) 0 _ Hrows Hu (le_n _)
                (pulls_inv_init truth toy_unfold toy_error _ _)) as Hinv.
  cbn [Nat.add] in Hinv.
  unfold closure_store.
  unfold bind at 1. cbn [member].
  unfold bind at 1. unfold modify_cache at 1, modify at 1.
  unfold bind at 1. unfold modify_cache at 1, modify at 1.
  match goal with
  | |- context [bind (closure_pulls _ _ _ _ _) _ ?ox] =>
      rewrite (bind_run _ (closure_pulls_pure truth toy_unfold toy_error (_nt o)
                             ntoys ox Hu He))
  end.
  destruct (fold_left _ _ _) as [pull_results bias].
  destruct Hinv as (Hr & Hl & Hp & Hs). cbn [fst snd] in *.
  unfold bind, member, modify_cache, modify. cbn.
  eexists. split; [reflexivity|]. cbn.
  assert (Hbias :
    fold_left (fun b i => vset b i (vget gNanValue bias i / IZR ntoys))
              (seq 0 (_nt o)) (vResizeTo (_nt o) (_bias (_cache o)))
    = map mean (seq 0 (_nt o))).
  { rewrite (fold_vset_map (fun i => vget gNanValue bias i / IZR ntoys))
      by apply vResizeTo_length.
    apply map_ext_in. intros j Hj. apply in_seq in Hj.
    rewrite (Hs j ltac:(lia)). unfold mean, P. cbn. f_equal. lra. }
  rewrite Hbias. split; [reflexivity|].
  rewrite (fold_vset_map
             (fun j => closure_sigbias ntoys
                         (closure_sum2 ntoys pull_results
                            (vget gNanValue (map mean (seq 0 (_nt o))) j) j)))
    by apply vResizeTo_length.
  apply map_ext_in. intros j Hj. apply in_seq in Hj.
  rewrite vget_map_seq by lia. rewrite closure_sum2_sum. f_equal.
  apply sum_upto_ext. intros i Hi.
  rewrite (Hp i j Hi ltac:(lia)). rewrite (proj2 (Nat.ltb_lt _ _) Hi). reflexivity.
Qed.

Lemma closure_sigbias_cases (s : Double_t) :
  (forall ntoys, (1 < ntoys)%Z ->
     closure_sigbias ntoys s = sqrt (s / IZR (ntoys - 1) / IZR ntoys)) /\
  closure_sigbias 1 s = sqrt s.
Proof.
  split.
  - intros ntoys Hn. unfold closure_sigbias.
    rewrite (proj2 (Z.ltb_lt 1 ntoys) Hn). reflexivity.
  - reflexivity.
Qed.


(** ** The Asimov protocol *)

(** The reference histogram handed to [CalculateBias] plays no part in the
    Asimov protocol. *)
Lemma CalculateBias_asimov_ignores_reference (vt : Strategy) (stack : nat) (ntoys : Z)
      (hTrue hTrue' : option Hist) (o : RooUnfoldT) :
  CalculateBias vt stack kBiasAsimov ntoys hTrue o
  = CalculateBias vt stack kBiasAsimov ntoys hTrue' o.
Proof. reflexivity. Qed.

Lemma asimov_sums_sum (bias : list TVectorD) (i : nat) :
  asimov_sums bias i
  = (sum_upto (length bias) (fun j => vget gNanValue (nth j bias []) i),
     sum_upto (length bias)
              (fun j => vget gNanValue (nth j bias []) i
                        * vget gNanValue (nth j bias []) i)).
Proof.
  unfold asimov_sums. induction (length bias) as [|n IH]; [reflexivity|].
  rewrite seq_S, fold_left_app, IH. reflexivity.
Qed.

(** The mean and the uncertainty the Asimov protocol stores for bin [i]. *)
Lemma asimov_store_run (bias : list TVectorD) (o : RooUnfoldT) :
  let n := length bias in
  let sum := fun i => sum_upto n (fun j => vget gNanValue (nth j bias []) i) in
  let sum2 := fun i => sum_upto n (fun j => vget gNanValue (nth j bias []) i
                                            * vget gNanValue (nth j bias []) i) in
  let mean := fun i => sum i / size_t_to_double n in
  exists o',
    asimov_store bias o = (Ok tt, o') /\
    _bias (_cache o') = map mean (seq 0 (_nt o)) /\
    _sigbias (_cache o')
    = map (fun i => sqrt (Rabs (sum2 i - sum i * mean i) / size_t_pred_to_double n
                          / size_t_to_double n))
          (seq 0 (_nt o)).
Proof.
  intros n sum sum2 mean. unfold asimov_store.
  unfold bind at 1. cbn [member].
  unfold bind at 1. unfold modify_cache at 1, modify at 1.
  unfold bind at 1. unfold modify_cache at 1, modify at 1.
  set (step := fun (o : RooUnfoldT) (i : nat) =>
         set_cache
           (set_sigbias
              (vset (_sigbias (_cache o)) i
                    (sqrt (Rabs (sum2 i - sum i * mean i) / size_t_pred_to_double n
                           / size_t_to_double n)))
              (set_bias (vset (_bias (_cache o)) i (mean i)) (_cache o))) o).
  match goal with
  | |- context [foldM ?f ?l tt ?ox] =>
      assert (Hrun : foldM f l tt ox = (Ok tt, fold_left step l ox))
  end.
  { generalize (seq 0 (_nt o)). intros l.
    match goal with |- foldM _ _ _ ?ox = _ => generalize ox end.
    induction l as [|i l IH]; intros ox; cbn [foldM fold_left]; [reflexivity|].
    unfold bind at 1. rewrite asimov_sums_sum.
    unfold bind at 1, modify_cache at 1, modify at 1.
    unfold modify_cache at 1, modify at 1. cbn [set_cache _cache].
    rewrite (IH _). f_equal. }
  rewrite Hrun. eexists. split; [reflexivity|].
  assert (Hfold : forall l ox,
            _bias (_cache (fold_left step l ox))
            = fold_left (fun b i => vset b i (mean i)) l (_bias (_cache ox)) /\
            _sigbias (_cache (fold_left step l ox))
            = fold_left (fun b i =>
                           vset b i (sqrt (Rabs (sum2 i - sum i * mean i)
                                           / size_t_pred_to_double n
                                           / size_t_to_double n)))
                        l (_sigbias (_cache ox))).
  { induction l as [|i l IH]; intros ox; cbn [fold_left]; [split; reflexivity|].
    destruct (IH (step ox i)) as [-> ->]. split; reflexivity. }
  destruct (Hfold (seq 0 (_nt o))
              (set_cache
                 (set_sigbias
                    (vResizeTo (_nt o)
                       (_sigbias (set_bias (vResizeTo (_nt o) (_bias (_cache o)))
                                           (_cache o))))
                    (set_bias (vResizeTo (_nt o) (_bias (_cache o))) (_cache o)))
                 (set_cache (set_bias (vResizeTo (_nt o) (_bias (_cache o))) (_cache o))
                            o))) as [Hb Hs].
  split.
  - etransitivity; [exact Hb|]. cbn [_cache set_cache _bias set_sigbias set_bias].
    apply fold_vset_map, vResizeTo_length.
  - etransitivity; [exact Hs|]. cbn [_cache set_cache _sigbias _bias set_sigbias set_bias].
    apply (fold_vset_map
             (fun i => sqrt (Rabs (sum2 i - sum i * mean i) / size_t_pred_to_double n
                             / size_t_to_double n))).
    apply vResizeTo_length.
Qed.

(** ** [CalculateBias] with the base-class algorithm *)

Lemma New_base (alg : Algorithm) (r : Response) (meas : option Hist) :
  alg <> kDagostini ->
  New RooUnfoldT_vtable alg (Some r) meas regparm_unset
  = Ok (Some (set_alg alg (after_Setup (Some r) meas))).
Proof.
  intros Ha. unfold New, after_Setup.
  rewrite (Reqb_true regparm_unset regparm_unset eq_refl). cbn [negb].
  unfold Setup, Reset, ClearCache, Init, GetSettings, SetResponse, SetMeasured,
    SetAlgorithm, reset_cache, modify_cache, modify, bind, ret.
  cbn. rewrite !Cache_assign_ctor.
  destruct alg; try congruence; reflexivity.
Qed.

Lemma CalculateBias_base (stack : nat) (method : BiasMethod) (ntoys : Z)
      (hTrue : option Hist) (o : RooUnfoldT) (r : Response) (hm : Hist) :
  _res o = Some r -> Hmeasured r = Some hm -> _alg o <> kDagostini ->
  let hTrue' := match hTrue with Some h => Some h | None => Htruth r end in
  let truth := match hTrue' with Some h => h2v2 h false | None => Vtruth r end in
  let truthE := match hTrue' with Some h => h2ve2 h false | None => Etruth r end in
  let toyFactory :=
    set_verbose 0%Z
      (set_alg (_alg o)
         (after_Setup (Some r) (Some (asimovClone hm (UseDensityStatus r))))) in
  CalculateBias RooUnfoldT_vtable stack method ntoys hTrue o
  = (bias_protocol RooUnfoldT_vtable stack method ntoys truth truthE toyFactory ;;
     modify_cache (set_haveBias true)) o.
Proof.
  intros Hr Hm Ha. cbv zeta. unfold CalculateBias, response.
  unfold bind at 1. unfold bind at 1. cbn [member]. rewrite Hr. cbn [deref ret].
  unfold bind at 1. rewrite Hm. cbn [deref ret].
  unfold bind at 1. cbn [GetAlgorithm member].
  unfold bind at 1. cbn [v_GetRegParm RooUnfoldT_vtable GetRegParm ret].
  unfold bind at 1. unfold lift. rewrite (New_base _ r _ Ha).
  unfold bind at 1. cbn [deref ret]. reflexivity.
Qed.

(** ** Construction, [Setup] and assignment *)

Ltac run_lifecycle :=
  unfold Setup, Reset, ClearCache, Init, GetSettings, SetResponse, SetMeasured,
    SetMeasuredCov, SetAlgorithm, SetVerbose, SetNToys, reset_cache, modify_cache,
    modify, bind, ret, throw;
  cbn; rewrite ?Cache_assign_ctor.

(** X1.  [Setup (res, meas)] starts the object afresh.  Whatever it held
    before, it afterwards points to the response and the measured histogram
    given, takes the numbers of bins and the overflow flag from the response,
    and has the verbosity 1, 50 toys, no systematics, no measured covariance
    and the cache of [Cache::Cache()].  The algorithm tag, the error treatment
    last recorded and the random generator are not touched. *)
Theorem Setup_starts_afresh (r : Response) (meas : option Hist) (o : RooUnfoldT) :
  exists o',
    Setup GetSettings (Some r) meas o = (Ok tt, o') /\
    _res o' = Some r /\ _meas o' = meas /\
    _nm o' = GetNbinsMeasured r /\ _nt o' = GetNbinsTruth r /\
    _overflow o' = (if UseOverflowStatus r then 1 else 0)%Z /\
    _verbose o' = 1%Z /\ _NToys o' = 50%Z /\ _dosys o' = kNoSystematics /\
    _covMes o' = None /\ _cache o' = Cache_ctor /\
    _alg o' = _alg o /\ _withError o' = _withError o /\ rnd o' = rnd o.
Proof.
  eexists. split.
  - run_lifecycle. reflexivity.
  - cbn. repeat split; reflexivity.
Qed.

(** X2.  [Setup] with a null response throws the [runtime_error] of
    [SetResponse], and it throws after [Reset] has run: the object is left
    without response and measured histogram, with no bins and a reset cache,
    whatever it held before. *)
Theorem Setup_null_response (meas : option Hist) (o : RooUnfoldT) :
  exists o',
    Setup GetSettings None meas o
    = (Raise (runtime_error "cannot set response to invalid value!"), o') /\
    _res o' = None /\ _meas o' = None /\ _nm o' = O /\ _nt o' = O /\
    _unfolded (_cache o') = false /\ _vMes (_cache o') = None /\
    _rec (_cache o') = [0].
Proof.
  eexists. split.
  - run_lifecycle. reflexivity.
  - cbn. repeat split; reflexivity.
Qed.

Lemma Reqb_refl (x : Double_t) : Reqb x x = true.
Proof. apply Reqb_true. reflexivity. Qed.

(** X3.  [New]: the algorithm that is not available gives a null pointer
    without looking at the response; the dummy algorithm passes a null
    response on to [Setup] and throws; and with a response the object built
    for the dummy algorithm is the one [Setup] leaves, tagged [kNone],
    whatever regularisation parameter is given. *)
Theorem New_outcomes (vt : Strategy) (r : Response)
        (res : option Response) (meas : option Hist) (regparm : Double_t) :
  New vt kDagostini res meas regparm = Ok None /\
  New RooUnfoldT_vtable kNone None meas regparm
  = Raise (runtime_error "cannot set response to invalid value!") /\
  New RooUnfoldT_vtable kNone (Some r) meas regparm
  = Ok (Some (set_alg kNone (after_Setup (Some r) meas))).
Proof.
  split; [reflexivity|]. split.
  - unfold New. run_lifecycle. reflexivity.
  - unfold New, after_Setup. cbn [RooUnfoldT_vtable v_SetRegParm].
    destruct (negb (Reqb regparm regparm_unset)); run_lifecycle; reflexivity.
Qed.

(** X4.  Assignment from another object copies its response, its measured
    histogram, its verbosity and its number of toys, and nothing else: the
    overflow flag is taken from the response again, the systematics policy and
    the measured covariance fall back to their defaults, the cache is reset
    and the algorithm tag of the receiver stays.  Assignment of an object to
    itself changes nothing.  The copy constructor copies the same four
    members, so the copy has neither the measured covariance nor the
    systematics policy nor the results of the original. *)
Theorem Assign_copies_setup (rhs o : RooUnfoldT) (r : Response) :
  _res rhs = Some r ->
  Assign GetSettings itself o = (Ok tt, o) /\
  (exists o',
      Assign GetSettings (another rhs) o = (Ok tt, o') /\
      _res o' = Some r /\ _meas o' = _meas rhs /\
      _verbose o' = _verbose rhs /\ _NToys o' = _NToys rhs /\
      _nm o' = GetNbinsMeasured r /\ _nt o' = GetNbinsTruth r /\
      _overflow o' = (if UseOverflowStatus r then 1 else 0)%Z /\
      _dosys o' = kNoSystematics /\ _covMes o' = None /\
      _cache o' = Cache_ctor /\ _alg o' = _alg o) /\
  (exists c,
      RooUnfoldT_copy rhs = Ok c /\
      _res c = Some r /\ _meas c = _meas rhs /\
      _verbose c = _verbose rhs /\ _NToys c = _NToys rhs /\
      _dosys c = kNoSystematics /\ _covMes c = None /\
      _cache c = Cache_ctor).
Proof.
  intros Hr. split; [reflexivity|]. split.
  - eexists. split.
    + unfold Assign, CopyData. rewrite Hr. cbn [deref]. run_lifecycle. reflexivity.
    + cbn. repeat split; reflexivity.
  - eexists. split.
    + unfold RooUnfoldT_copy, CopyData. rewrite Hr. cbn [deref]. run_lifecycle.
      reflexivity.
    + cbn. repeat split; reflexivity.
Qed.

(** ** The measured covariance and the systematics policy *)

(** X5.  The covariance given to [SetMeasuredCov] is what [GetMeasuredCov]
    returns, without any computation; it survives a reset of the cache, and a
    new [Setup] drops it. *)
Theorem GetMeasuredCov_after_SetMeasuredCov (cov : TMatrixD) (o : RooUnfoldT) :
  let o1 := snd (SetMeasuredCov cov o) in
  GetMeasuredCov o1 = (Ok cov, o1) /\
  GetMeasuredCov (snd (ClearCache o1)) = (Ok cov, snd (ClearCache o1)) /\
  (forall r meas,
      _covMes (snd (Setup GetSettings (Some r) meas o1)) = None).
Proof.
  cbv zeta. split; [|split].
  - unfold GetMeasuredCov, SetMeasuredCov. run_lifecycle. reflexivity.
  - unfold GetMeasuredCov, SetMeasuredCov. run_lifecycle. reflexivity.
  - intros r meas. run_lifecycle. reflexivity.
Qed.

(** X6.  [IncludeSystematics (dosys)] records the policy, which
    [SystematicsIncluded] then returns.  Asking for the policy already in
    force does nothing, so the cache and the results in it are kept; asking
    twice is the same as asking once. *)
Theorem IncludeSystematics_idempotent (dosys : SystematicsTreatment) (o : RooUnfoldT) :
  let o1 := snd (IncludeSystematics dosys o) in
  fst (SystematicsIncluded o1) = Ok dosys /\
  (dosys = _dosys o -> IncludeSystematics dosys o = (Ok tt, o)) /\
  IncludeSystematics dosys o1 = (Ok tt, o1).
Proof.
  cbv zeta.
  assert (Hsame : forall o', _dosys o' = dosys ->
                             IncludeSystematics dosys o' = (Ok tt, o')).
  { intros o' E. unfold IncludeSystematics, bind, member. rewrite E.
    destruct dosys; reflexivity. }
  assert (Hset : _dosys (snd (IncludeSystematics dosys o)) = dosys).
  { destruct (SystematicsTreatment_eqb dosys (_dosys o)) eqn:E.
    - apply SystematicsTreatment_eqb_eq in E.
      rewrite (Hsame o (eq_sym E)). symmetry. exact E.
    - unfold IncludeSystematics, bind, member. rewrite E. run_lifecycle. reflexivity. }
  split; [|split].
  - unfold SystematicsIncluded, member. cbn [fst]. rewrite Hset. reflexivity.
  - intros E. apply Hsame. symmetry. exact E.
  - apply Hsame, Hset.
Qed.

(** ** The measured input and the dummy unfolding of the base class *)

Lemma vset_out (v : TVectorD) (i : nat) (x : Double_t) :
  (length v <= i)%nat -> vset v i x = v.
Proof.
  revert i. induction v as [|h t IH]; intros [|i] H; cbn in *; try lia; auto.
  f_equal. apply IH. lia.
Qed.

Lemma vget_vset (nan : Double_t) (v : TVectorD) (i j : nat) (x : Double_t) :
  (i < length v)%nat ->
  vget nan (vset v j x) i = if Nat.eqb i j then x else vget nan v i.
Proof.
  intros Hi. unfold vget. destruct (Nat.ltb j (length v)) eqn:E.
  - apply Nat.ltb_lt in E. apply nth_vset. exact E.
  - apply Nat.ltb_ge in E. rewrite vset_out by exact E.
    destruct (Nat.eqb i j) eqn:E2; [|reflexivity].
    apply Nat.eqb_eq in E2. lia.
Qed.

Lemma fold_vset_get (nan : Double_t) (f : nat -> Double_t) (l : list nat)
      (v : TVectorD) (i : nat) :
  (i < length v)%nat ->
  vget nan (fold_left (fun v j => vset v j (f j)) l v) i
  = if existsb (Nat.eqb i) l then f i else vget nan v i.
Proof.
  revert v. induction l as [|j l IH]; intros v Hi; cbn [fold_left existsb]; [reflexivity|].
  rewrite IH by (rewrite vset_length; exact Hi).
  rewrite vget_vset by exact Hi.
  destruct (Nat.eqb i j) eqn:E; cbn [orb].
  - apply Nat.eqb_eq in E. subst j. destruct (existsb (Nat.eqb i) l); reflexivity.
  - reflexivity.
Qed.

Lemma fold_vset_length (f : nat -> Double_t) (l : list nat) (v : TVectorD) :
  length (fold_left (fun v j => vset v j (f j)) l v) = length v.
Proof.
  revert v. induction l as [|j l IH]; intros v; cbn [fold_left]; [reflexivity|].
  rewrite IH. apply vset_length.
Qed.

Lemma existsb_seq_ltb (i n : nat) : existsb (Nat.eqb i) (seq 0 n) = Nat.ltb i n.
Proof.
  destruct (Nat.ltb i n) eqn:E.
  - apply Nat.ltb_lt in E. apply existsb_seq. exact E.
  - apply Nat.ltb_ge in E. apply not_true_is_false. intros H.
    apply existsb_exists in H. destruct H as (k & Hin & Hk).
    apply in_seq in Hin. apply Nat.eqb_eq in Hk. lia.
Qed.

Lemma vget_vResizeTo (nan : Double_t) (n : nat) (v : TVectorD) (i : nat) :
  (i < n)%nat ->
  vget nan (vResizeTo n v) i = if Nat.ltb i (length v) then vget nan v i else 0.
Proof.
  intros Hi. unfold vget, vResizeTo.
  destruct (Nat.ltb i (length v)) eqn:E.
  - apply Nat.ltb_lt in E.
    rewrite app_nth1 by (rewrite length_firstn; lia).
    rewrite <- (firstn_skipn n v) at 2.
    rewrite app_nth1 by (rewrite length_firstn; lia). reflexivity.
  - apply Nat.ltb_ge in E.
    rewrite app_nth2 by (rewrite length_firstn; lia).
    rewrite length_firstn. apply nth_repeat_lt. lia.
Qed.

(** X7.  [Vmeasured] reads the measured histogram once.  The first call
    converts the histogram with the overflow and density settings in force
    and stores the vector in the cache; from then on the stored vector is
    returned and the object is left as it is, until the cache is reset. *)
Theorem Vmeasured_reads_once (o : RooUnfoldT) (r : Response) (h : Hist) :
  _res o = Some r -> _meas o = Some h -> _vMes (_cache o) = None ->
  let v := h2v h (overflow_flag o) (UseDensityStatus r) in
  exists o1,
    Vmeasured o = (Ok v, o1) /\
    _vMes (_cache o1) = Some v /\
    Vmeasured o1 = (Ok v, o1) /\
    (forall overflow, fst (Vmeasured (snd (SetOverflow overflow o1))) = Ok v) /\
    _vMes (_cache (snd (ClearCache o1))) = None.
Proof.
  intros Hr Hm Hv v. eexists. split; [|split; [|split; [|split]]].
  - unfold Vmeasured, response, bind, cached, this, member, modify_cache, modify.
    rewrite Hv. cbv beta iota. rewrite Hm. cbn [deref ret]. cbv beta iota.
    rewrite Hr. cbn [deref ret]. cbv beta iota. reflexivity.
  - reflexivity.
  - reflexivity.
  - intros overflow. reflexivity.
  - unfold ClearCache. run_lifecycle. reflexivity.
Qed.

Ltac state_simpl :=
  cbn [_cache _withError _res _meas _nm _nt _verbose _overflow _dosys _covMes _NToys
       _alg rnd Unfold_calls
       set_cache set_withError set_res set_meas set_nm set_nt set_verbose set_overflow
       set_dosys set_covMes set_NToys set_alg set_rnd set_Unfold_calls
       _minparm _maxparm _stepsizeparm _defaultparm _unfolded _fail _haveCov _haveWgt
       _have_err_mat _haveBias _haveErrors _rec _cov _wgt _variances _err_mat _bias
       _sigbias _vMes _eMes _covL _cache_covMes
       set_parms set_unfolded set_fail set_haveCov set_haveWgt set_have_err_mat
       set_haveBias set_haveErrors set_rec set_cov set_wgt set_variances set_err_mat
       set_bias set_sigbias set_vMes set_eMes set_cache_covMes
       fst snd negb andb orb deref ret].

Ltac run_members :=
  unfold bind, cached, this, member, modify_cache, modify, throw; state_simpl.

(** X9.  The dummy [Unfold()] of the base class copies its input: the
    result has one entry per truth bin, the bins that the measured vector
    covers (those below the number of measured bins) hold the measured
    contents, the others hold what the resized result vector held before
    (zero where it had no entry), and the unfolded flag is set. *)
Theorem Unfold_copies_measured (o : RooUnfoldT) (r : Response) (h : Hist) :
  _res o = Some r -> _meas o = Some h ->
  let vmeas := match _vMes (_cache o) with
               | Some v => v
               | None => h2v h (overflow_flag o) (UseDensityStatus r)
               end in
  exists o1,
    Unfold o = (Ok tt, o1) /\
    _unfolded (_cache o1) = true /\
    length (_rec (_cache o1)) = _nt o /\
    _vMes (_cache o1) = Some vmeas /\
    forall i, (i < _nt o)%nat ->
      vget gNanValue (_rec (_cache o1)) i
      = if Nat.ltb i (_nm o) then vget gNanValue vmeas i
        else if Nat.ltb i (length (_rec (_cache o))) then vget gNanValue (_rec (_cache o)) i
             else 0.
Proof.
  intros Hr Hm vmeas.
  assert (Hrun : exists o1,
             Unfold o = (Ok tt, o1) /\
             _unfolded (_cache o1) = true /\
             _vMes (_cache o1) = Some vmeas /\
             _rec (_cache o1)
             = fold_left (fun rec i => vset rec i (vget gNanValue vmeas i))
                         (seq 0 (if Nat.ltb (_nm o) (_nt o) then _nm o else _nt o))
                         (vResizeTo (_nt o) (_rec (_cache o)))).
  { unfold Unfold, Vmeasured, response. subst vmeas.
    destruct (_vMes (_cache o)) as [v|] eqn:Ev.
    - run_members. rewrite Ev. state_simpl.
      eexists. split; [reflexivity|]. state_simpl. rewrite Ev.
      repeat split; reflexivity.
    - run_members. rewrite Ev. state_simpl. rewrite Hm. state_simpl.
      rewrite Hr. state_simpl.
      eexists. split; [reflexivity|]. state_simpl. repeat split; reflexivity. }
  destruct Hrun as (o1 & Hrun & Hu & Hv & Hrec).
  exists o1. split; [exact Hrun|]. split; [exact Hu|].
  split; [rewrite Hrec, fold_vset_length; apply vResizeTo_length|].
  split; [exact Hv|].
  intros i Hi. rewrite Hrec.
  rewrite fold_vset_get by (rewrite vResizeTo_length; exact Hi).
  rewrite existsb_seq_ltb, vget_vResizeTo by exact Hi.
  destruct (Nat.ltb (_nm o) (_nt o)) eqn:E; [reflexivity|].
  apply Nat.ltb_ge in E. apply Nat.ltb_lt in Hi as Hi'. rewrite Hi'.
  assert (Hnm : Nat.ltb i (_nm o) = true) by (apply Nat.ltb_lt; lia).
  rewrite Hnm. reflexivity.
Qed.

Lemma fold_mset_row_get (nan : Double_t) (f : nat -> Double_t) (n k i' : nat)
      (l : list nat) (m : TMatrixD) :
  rect n k m ->
  let W := fold_left (fun m j => mset m i' j (f j)) l m in
  rect n k W /\
  forall i j, (i < n)%nat -> (j < k)%nat ->
    mget nan W i j
    = if Nat.eqb i i' && existsb (Nat.eqb j) l then f j else mget nan m i j.
Proof.
  revert m. induction l as [|j' l IH]; intros m Hr; cbn [fold_left existsb].
  - split; [exact Hr|]. intros i j _ _. rewrite andb_false_r. reflexivity.
  - destruct (IH (mset m i' j' (f j')) (rect_mset n k m i' j' (f j') Hr)) as [HW Hget].
    split; [exact HW|]. intros i j Hi Hj.
    rewrite (Hget i j Hi Hj), (mget_mset nan n k m i j i' j' (f j') Hr Hi Hj).
    destruct (Nat.eqb i i'); cbn [andb]; [|reflexivity].
    destruct (Nat.eqb j j') eqn:E; cbn [orb].
    + apply Nat.eqb_eq in E. subst j'. destruct (existsb (Nat.eqb j) l); reflexivity.
    + reflexivity.
Qed.

Lemma fold_mset_get (nan : Double_t) (f : nat -> nat -> Double_t) (n k : nat)
      (l1 l2 : list nat) (m : TMatrixD) :
  rect n k m ->
  let W := fold_left (fun m i => fold_left (fun m j => mset m i j (f i j)) l2 m) l1 m in
  rect n k W /\
  forall i j, (i < n)%nat -> (j < k)%nat ->
    mget nan W i j
    = if existsb (Nat.eqb i) l1 && existsb (Nat.eqb j) l2 then f i j else mget nan m i j.
Proof.
  revert m. induction l1 as [|i' l1 IH]; intros m Hr; cbn [fold_left existsb].
  - split; [exact Hr|]. intros; reflexivity.
  - destruct (fold_mset_row_get nan (f i') n k i' l2 m Hr) as [Hrow Hrget].
    destruct (IH _ Hrow) as [HW Hget].
    split; [exact HW|]. intros i j Hi Hj.
    rewrite (Hget i j Hi Hj), (Hrget i j Hi Hj).
    destruct (Nat.eqb i i') eqn:E; cbn [orb andb].
    + apply Nat.eqb_eq in E. subst i'.
      destruct (existsb (Nat.eqb i) l1), (existsb (Nat.eqb j) l2); reflexivity.
    + reflexivity.
Qed.

Lemma rect_mResizeTo (n k : nat) (m : TMatrixD) : rect n k (mResizeTo n k m).
Proof.
  unfold rect, mResizeTo. split.
  - rewrite length_map, length_seq. reflexivity.
  - apply Forall_forall. intros row Hin. apply in_map_iff in Hin.
    destruct Hin as (i & <- & _). rewrite length_map, length_seq. reflexivity.
Qed.

Lemma mget_mResizeTo (nan : Double_t) (n k : nat) (m : TMatrixD) (i j : nat) :
  (i < n)%nat -> (j < k)%nat -> mget nan (mResizeTo n k m) i j = mget 0 m i j.
Proof.
  intros Hi Hj. unfold mget at 1.
  rewrite (in_range_rect n k _ i j (rect_mResizeTo n k m)).
  apply Nat.ltb_lt in Hi as Hi'. apply Nat.ltb_lt in Hj as Hj'.
  rewrite Hi', Hj'. cbn [andb]. unfold mResizeTo.
  rewrite (nth_indep _ [] (map (fun j => mget 0 m O j) (seq 0 k)))
    by (rewrite length_map, length_seq; exact Hi).
  rewrite (map_nth (fun i => map (fun j => mget 0 m i j) (seq 0 k))).
  rewrite seq_nth by exact Hi. cbn [Nat.add].
  rewrite (nth_indep _ 0 (mget 0 m i O))
    by (rewrite length_map, length_seq; exact Hj).
  rewrite (map_nth (fun j => mget 0 m i j)).
  rewrite seq_nth by exact Hj. reflexivity.
Qed.

Lemma mget_zero_1_1 (i j : nat) : mget 0 (TMatrixD_nk 1 1) i j = 0.
Proof.
  unfold mget, in_range, GetNrows, GetNcols, TMatrixD_nk. cbn.
  destruct i as [|i]; [destruct j as [|j]|]; reflexivity.
Qed.

Lemma sqrt_Rabs_square (e : Double_t) : sqrt (Rabs (e * e)) = Rabs e.
Proof.
  rewrite (Rabs_right (e * e)) by (apply Rle_ge, Rle_0_sqr).
  apply sqrt_Rsqr_abs.
Qed.

(** *** The loops of the dummy algorithm, entry by entry *)

Lemma copied_measured_length (vmeas : TVectorD) (nm nt : nat) (rec : TVectorD) :
  length (copied_measured vmeas nm nt rec) = nt.
Proof. unfold copied_measured. rewrite fold_vset_length. apply vResizeTo_length. Qed.

Lemma copied_measured_get (vmeas : TVectorD) (nm nt : nat) (rec : TVectorD) (i : nat) :
  (i < nt)%nat ->
  vget gNanValue (copied_measured vmeas nm nt rec) i
  = if Nat.ltb i nm then vget gNanValue vmeas i
    else if Nat.ltb i (length rec) then vget gNanValue rec i else 0.
Proof.
  intros Hi. unfold copied_measured.
  rewrite fold_vset_get by (rewrite vResizeTo_length; exact Hi).
  rewrite existsb_seq_ltb, vget_vResizeTo by exact Hi.
  destruct (Nat.ltb nm nt) eqn:E; [reflexivity|].
  apply Nat.ltb_ge in E. apply Nat.ltb_lt in Hi as Hi'. rewrite Hi'.
  assert (Hnm : Nat.ltb i nm = true) by (apply Nat.ltb_lt; lia).
  rewrite Hnm. reflexivity.
Qed.

Lemma errors_cov_get (err : TVectorD) (nm : nat) :
  rect nm nm (errors_cov err nm) /\
  forall i j, (i < nm)%nat -> (j < nm)%nat ->
    mget gNanValue (errors_cov err nm) i j
    = if Nat.eqb i j then vget gNanValue err i * vget gNanValue err i else 0.
Proof.
  destruct (fold_diag gNanValue (fun _ => true)
              (fun i => vget gNanValue err i * vget gNanValue err i)
              nm (seq 0 nm) (TMatrixD_nk nm nm) (rect_TMatrixD_nk nm nm)) as [Hr Hget].
  split; [exact Hr|]. intros i j Hi Hj.
  unfold errors_cov. cbv zeta.
  rewrite (Hget i j Hi Hj), existsb_seq by exact Hi.
  rewrite mget_TMatrixD_nk by assumption.
  destruct (Nat.eqb i j); reflexivity.
Qed.

Lemma copied_cov_get (covmeas : TMatrixD) (nm nt : nat) (cov : TMatrixD) :
  rect nt nt (copied_cov covmeas nm nt cov) /\
  forall i j, (i < nt)%nat -> (j < nt)%nat ->
    mget gNanValue (copied_cov covmeas nm nt cov) i j
    = if Nat.ltb i nm && Nat.ltb j nm then mget gNanValue covmeas i j
      else mget 0 cov i j.
Proof.
  destruct (fold_mset_get gNanValue (fun i j => mget gNanValue covmeas i j) nt nt
              (seq 0 (Nat.min nm nt)) (seq 0 (Nat.min nm nt))
              (mResizeTo nt nt cov) (rect_mResizeTo nt nt cov)) as [Hr Hget].
  split; [exact Hr|]. intros i j Hi Hj. unfold copied_cov.
  rewrite (Hget i j Hi Hj), !existsb_seq_ltb, mget_mResizeTo by assumption.
  assert (Hm : forall a, (a < nt)%nat -> Nat.ltb a (Nat.min nm nt) = Nat.ltb a nm).
  { intros a Ha. destruct (Nat.ltb a nm) eqn:E.
    - apply Nat.ltb_lt in E. apply Nat.ltb_lt. lia.
    - apply Nat.ltb_ge in E. apply Nat.ltb_ge. lia. }
  rewrite (Hm i Hi), (Hm j Hj). reflexivity.
Qed.

Lemma cov_diagonal_length (cov : TMatrixD) (nt : nat) (variances : TVectorD) :
  length (cov_diagonal cov nt variances) = nt.
Proof. unfold cov_diagonal. rewrite fold_vset_length. apply vResizeTo_length. Qed.

Lemma cov_diagonal_get (cov : TMatrixD) (nt : nat) (variances : TVectorD) (i : nat) :
  (i < nt)%nat ->
  vget gNanValue (cov_diagonal cov nt variances) i = mget gNanValue cov i i.
Proof.
  intros Hi. unfold cov_diagonal.
  rewrite fold_vset_get by (rewrite vResizeTo_length; exact Hi).
  rewrite existsb_seq by exact Hi. reflexivity.
Qed.

(** *** The members of the base class, run on a given object *)

Lemma bind_cached {A B} (f : Cache -> A) (k : A -> M B) (o : RooUnfoldT) :
  bind (cached f) k o = k (f (_cache o)) o.
Proof. reflexivity. Qed.

Lemma bind_member {A B} (f : RooUnfoldT -> A) (k : A -> M B) (o : RooUnfoldT) :
  bind (member f) k o = k (f o) o.
Proof. reflexivity. Qed.

Lemma bind_this {B} (k : RooUnfoldT -> M B) (o : RooUnfoldT) :
  bind this k o = k o o.
Proof. reflexivity. Qed.

Lemma bind_modify {B} (f : RooUnfoldT -> RooUnfoldT) (k : unit -> M B) (o : RooUnfoldT) :
  bind (modify f) k o = k tt (f o).
Proof. reflexivity. Qed.

Lemma bind_modify_cache {B} (f : Cache -> Cache) (k : unit -> M B) (o : RooUnfoldT) :
  bind (modify_cache f) k o = k tt (set_cache (f (_cache o)) o).
Proof. reflexivity. Qed.

Lemma bind_ret {A B} (a : A) (k : A -> M B) (o : RooUnfoldT) :
  bind (ret a) k o = k a o.
Proof. reflexivity. Qed.

Lemma bind_bind {A B C} (m : M A) (k1 : A -> M B) (k2 : B -> M C) (o : RooUnfoldT) :
  bind (bind m k1) k2 o = bind m (fun a => bind (k1 a) k2) o.
Proof. unfold bind. destruct (m o) as [[a|e] o1]; reflexivity. Qed.

Ltac mstep :=
  repeat (progress (rewrite ?bind_bind, ?bind_cached, ?bind_member, ?bind_this,
                     ?bind_modify, ?bind_modify_cache, ?bind_ret; state_simpl)).

Ltac mrun lem :=
  erewrite (bind_run _)
    by (eapply lem; state_simpl; first [eassumption | reflexivity]).

Section Dummy_algorithm.

Variables (r : Response) (h : Hist).

Lemma Vmeasured_run (o : RooUnfoldT) :
  _res o = Some r -> _meas o = Some h -> _vMes (_cache o) = None ->
  let vmeas := h2v h (overflow_flag o) (UseDensityStatus r) in
  Vmeasured o = (Ok vmeas, set_cache (set_vMes (Some vmeas) (_cache o)) o).
Proof.
  intros Hr Hm Hv vmeas. unfold Vmeasured, response. mstep.
  rewrite Hv. mstep. rewrite Hm. mstep. rewrite Hr. mstep. reflexivity.
Qed.

Lemma Unfold_run (o : RooUnfoldT) :
  _res o = Some r -> _meas o = Some h -> _vMes (_cache o) = None ->
  let vmeas := h2v h (overflow_flag o) (UseDensityStatus r) in
  Unfold o
  = (Ok tt,
     set_cache (set_unfolded true
                  (set_rec (copied_measured vmeas (_nm o) (_nt o) (_rec (_cache o)))
                           (set_vMes (Some vmeas) (_cache o)))) o).
Proof.
  intros Hr Hm Hv vmeas. unfold Unfold. mstep.
  mrun Vmeasured_run. mstep. reflexivity.
Qed.

Lemma Emeasured_run (o : RooUnfoldT) :
  _res o = Some r -> _meas o = Some h -> _covMes o = None ->
  _eMes (_cache o) = None ->
  let err := h2ve h (overflow_flag o) (UseDensityStatus r) in
  Emeasured o = (Ok err, set_cache (set_eMes (Some err) (_cache o)) o).
Proof.
  intros Hr Hm Hc He err. unfold Emeasured, response. mstep.
  rewrite He. mstep. rewrite Hc, Hm. mstep. rewrite Hr. mstep. reflexivity.
Qed.

Lemma GetMeasuredCov_run (o : RooUnfoldT) :
  _res o = Some r -> _meas o = Some h -> _covMes o = None ->
  _eMes (_cache o) = None ->
  let err := h2ve h (overflow_flag o) (UseDensityStatus r) in
  let c := errors_cov err (_nm o) in
  GetMeasuredCov o
  = (Ok c, set_cache (set_cache_covMes (Some c) (set_eMes (Some err) (_cache o))) o).
Proof.
  intros Hr Hm Hc He err c. unfold GetMeasuredCov. mstep. rewrite Hc.
  mrun Emeasured_run. mstep. reflexivity.
Qed.

Lemma GetMeasuredCov_given (o : RooUnfoldT) (cov : TMatrixD) :
  _covMes o = Some cov -> GetMeasuredCov o = (Ok cov, o).
Proof. intros Hc. unfold GetMeasuredCov. mstep. rewrite Hc. reflexivity. Qed.

Lemma GetCov_after (o o0 : RooUnfoldT) (c : TMatrixD) :
  GetMeasuredCov o = (Ok c, o0) ->
  GetCov o
  = (Ok tt,
     set_cache (set_haveCov true
                  (set_cov (copied_cov c (_nm o0) (_nt o0) (_cov (_cache o0)))
                           (_cache o0))) o0).
Proof.
  intros H. unfold GetCov. rewrite (bind_run _ H). mstep. reflexivity.
Qed.

Lemma GetErrors_after (o o1 : RooUnfoldT) :
  _withError o = kErrors -> _haveCov (_cache o) = false ->
  GetCov o = (Ok tt, o1) -> _haveCov (_cache o1) = true ->
  GetErrors GetCov o
  = (Ok tt,
     set_cache (set_haveErrors true
                  (set_variances (cov_diagonal (_cov (_cache o1)) (_nt o1)
                                               (_variances (_cache o1)))
                                 (_cache o1))) o1).
Proof.
  intros Hw Hc H H1. unfold GetErrors, GetErrorsCovariance. mstep.
  rewrite Hw. cbn [ErrorTreatment_eqb negb]. mstep. rewrite Hc.
  rewrite (bind_run _ H). mstep. rewrite H1. mstep. reflexivity.
Qed.

End Dummy_algorithm.

Section Dummy_errors.

Variables (r : Response) (h : Hist).

Lemma GetCov_given_run (o : RooUnfoldT) (cov : TMatrixD) :
  _covMes o = Some cov ->
  GetCov o
  = (Ok tt,
     set_cache (set_haveCov true
                  (set_cov (copied_cov cov (_nm o) (_nt o) (_cov (_cache o)))
                           (_cache o))) o).
Proof.
  intros Hc. apply (GetCov_after o o cov). apply GetMeasuredCov_given, Hc.
Qed.

Lemma GetCov_errors_run (o : RooUnfoldT) :
  _res o = Some r -> _meas o = Some h -> _covMes o = None ->
  _eMes (_cache o) = None ->
  let err := h2ve h (overflow_flag o) (UseDensityStatus r) in
  let c := errors_cov err (_nm o) in
  GetCov o
  = (Ok tt,
     set_cache (set_haveCov true
                  (set_cov (copied_cov c (_nm o) (_nt o) (_cov (_cache o)))
                           (set_cache_covMes (Some c)
                              (set_eMes (Some err) (_cache o))))) o).
Proof.
  intros Hr Hm Hc He err c.
  rewrite (GetCov_after o _ _ (GetMeasuredCov_run r h o Hr Hm Hc He)).
  reflexivity.
Qed.

Lemma GetErrors_errors_run (o : RooUnfoldT) :
  _res o = Some r -> _meas o = Some h -> _covMes o = None ->
  _eMes (_cache o) = None -> _withError o = kErrors ->
  _haveCov (_cache o) = false ->
  let err := h2ve h (overflow_flag o) (UseDensityStatus r) in
  let c := errors_cov err (_nm o) in
  let cov := copied_cov c (_nm o) (_nt o) (_cov (_cache o)) in
  GetErrors GetCov o
  = (Ok tt,
     set_cache
       (set_haveErrors true
          (set_variances (cov_diagonal cov (_nt o) (_variances (_cache o)))
             (set_haveCov true
                (set_cov cov
                   (set_cache_covMes (Some c) (set_eMes (Some err) (_cache o)))))))
       o).
Proof.
  intros Hr Hm Hc He Hw Hhc err c cov.
  rewrite (GetErrors_after o _ Hw Hhc (GetCov_errors_run o Hr Hm Hc He) eq_refl).
  reflexivity.
Qed.

Lemma ensure_unfolded_run (o : RooUnfoldT) :
  _res o = Some r -> _meas o = Some h ->
  _unfolded (_cache o) = false -> _fail (_cache o) = false ->
  _vMes (_cache o) = None ->
  let vmeas := h2v h (overflow_flag o) (UseDensityStatus r) in
  ensure_unfolded RooUnfoldT_vtable o
  = (Ok true,
     set_cache (set_unfolded true
                  (set_rec (copied_measured vmeas (_nm o) (_nt o) (_rec (_cache o)))
                           (set_vMes (Some vmeas) (_cache o))))
               (set_Unfold_calls (S (Unfold_calls o)) o)).
Proof.
  intros Hr Hm Hu Hf Hv vmeas. unfold ensure_unfolded, call_Unfold. mstep.
  rewrite Hu. mstep. rewrite Hf. mstep.
  cbn [v_Unfold RooUnfoldT_vtable].
  mrun (Unfold_run r h). mstep. reflexivity.
Qed.

(** [UnfoldWithErrors(kErrors)] of the dummy algorithm on an object whose
    cache has just been reset. *)
Lemma UnfoldWithErrors_kErrors_run (stack : nat) (o : RooUnfoldT) :
  _res o = Some r -> _meas o = Some h -> _covMes o = None ->
  _cache o = Cache_ctor ->
  let vmeas := h2v h (overflow_flag o) (UseDensityStatus r) in
  let err := h2ve h (overflow_flag o) (UseDensityStatus r) in
  let cov := copied_cov (errors_cov err (_nm o)) (_nm o) (_nt o) (TMatrixD_nk 1 1) in
  exists o1,
    UnfoldWithErrors RooUnfoldT_vtable stack kErrors false o = (Ok true, o1) /\
    _nt o1 = _nt o /\
    _rec (_cache o1) = copied_measured vmeas (_nm o) (_nt o) (TVectorD_n 1) /\
    _cov (_cache o1) = cov /\
    _variances (_cache o1) = cov_diagonal cov (_nt o) (TVectorD_n 1) /\
    _fail (_cache o1) = false /\ _unfolded (_cache o1) = true /\
    Unfold_calls o1 = S (Unfold_calls o).
Proof.
  intros Hr Hm Hc Hk vmeas err cov.
  unfold UnfoldWithErrors, UnfoldWithErrors_on.
  assert (Hu : _unfolded (_cache o) = false) by (rewrite Hk; reflexivity).
  assert (Hf : _fail (_cache o) = false) by (rewrite Hk; reflexivity).
  assert (Hv : _vMes (_cache o) = None) by (rewrite Hk; reflexivity).
  rewrite (bind_run _ (ensure_unfolded_run o Hr Hm Hu Hf Hv)).
  cbn [negb]. unfold errors_for. mstep.
  rewrite Hk. cbn [Cache_ctor]. state_simpl.
  cbn [v_GetErrors RooUnfoldT_vtable].
  destruct (negb (ErrorTreatment_eqb (_withError o) kErrors)); mstep;
    (mrun GetErrors_errors_run; mstep;
     eexists; split; [reflexivity|]; state_simpl; repeat split; reflexivity).
Qed.

End Dummy_errors.

(** X11.  The dummy algorithm hands the measured errors through.  On an
    object that has a response and a measured histogram but no measured
    covariance, and whose cache has just been reset, [EunfoldV(kErrors)]
    returns one entry per truth bin: the absolute value of the measured bin
    error for the bins below the number of measured bins, zero for the
    others. *)
Theorem dummy_errors_are_measured_errors (stack : nat) (o : RooUnfoldT)
        (r : Response) (h : Hist) :
  _res o = Some r -> _meas o = Some h -> _covMes o = None ->
  _cache o = Cache_ctor ->
  let err := h2ve h (overflow_flag o) (UseDensityStatus r) in
  exists v o1,
    EunfoldV RooUnfoldT_vtable stack kErrors o = (Ok v, o1) /\
    length v = _nt o /\
    forall i, (i < _nt o)%nat ->
      vget gNanValue v i
      = if Nat.ltb i (_nm o) then Rabs (vget gNanValue err i) else 0.
Proof.
  intros Hr Hm Hc Hk err.
  destruct (UnfoldWithErrors_kErrors_run r h stack o Hr Hm Hc Hk)
    as (o1 & Hrun & Hnt & _ & _ & Hvar & _).
  unfold EunfoldV, EunfoldV_on. unfold UnfoldWithErrors in Hrun.
  rewrite bind_member, (bind_run _ Hrun). cbn [negb]. rewrite bind_this.
  eexists. exists o1. split; [reflexivity|]. rewrite Hnt, Hvar.
  split; [rewrite fold_vset_length; apply repeat_length|].
  intros i Hi.
  rewrite fold_vset_get by (unfold TVectorD_n; rewrite repeat_length; exact Hi).
  rewrite existsb_seq, cov_diagonal_get by exact Hi.
  destruct (copied_cov_get (errors_cov (h2ve h (overflow_flag o) (UseDensityStatus r))
                                       (_nm o))
                           (_nm o) (_nt o) (TMatrixD_nk 1 1)) as [_ Hget].
  rewrite (Hget i i Hi Hi), andb_diag.
  destruct (Nat.ltb i (_nm o)) eqn:E.
  - apply Nat.ltb_lt in E.
    destruct (errors_cov_get (h2ve h (overflow_flag o) (UseDensityStatus r)) (_nm o))
      as [_ Hd].
    rewrite (Hd i i E E), Nat.eqb_refl. apply sqrt_Rabs_square.
  - rewrite mget_zero_1_1, Rabs_R0. apply sqrt_0.
Qed.

Section Dummy_covariance.

Variables (r : Response) (h : Hist).

(** [UnfoldWithErrors(kCovariance)] of the dummy algorithm on an object with
    a measured covariance and a cache that has just been reset. *)
Lemma UnfoldWithErrors_kCovariance_run (stack : nat) (o : RooUnfoldT)
      (covmeas : TMatrixD) :
  _res o = Some r -> _meas o = Some h -> _covMes o = Some covmeas ->
  _cache o = Cache_ctor ->
  exists o1,
    UnfoldWithErrors RooUnfoldT_vtable stack kCovariance false o = (Ok true, o1) /\
    _nt o1 = _nt o /\
    _cov (_cache o1) = copied_cov covmeas (_nm o) (_nt o) (TMatrixD_nk 1 1) /\
    _fail (_cache o1) = false /\ _unfolded (_cache o1) = true.
Proof.
  intros Hr Hm Hc Hk.
  unfold UnfoldWithErrors, UnfoldWithErrors_on.
  assert (Hu : _unfolded (_cache o) = false) by (rewrite Hk; reflexivity).
  assert (Hf : _fail (_cache o) = false) by (rewrite Hk; reflexivity).
  assert (Hv : _vMes (_cache o) = None) by (rewrite Hk; reflexivity).
  rewrite (bind_run _ (ensure_unfolded_run r h o Hr Hm Hu Hf Hv)).
  cbn [negb]. unfold errors_for. mstep.
  rewrite Hk. cbn [Cache_ctor]. state_simpl.
  cbn [v_GetCov RooUnfoldT_vtable].
  destruct (negb (ErrorTreatment_eqb (_withError o) kCovariance)); mstep;
    (mrun GetCov_given_run; mstep;
     eexists; split; [reflexivity|]; state_simpl; repeat split; reflexivity).
Qed.

End Dummy_covariance.

(** X10.  The dummy algorithm hands the measured covariance through.  On an
    object with a response, a measured histogram and a measured covariance
    set by [SetMeasuredCov], and whose cache has just been reset,
    [Eunfold(kCovariance)] returns a square matrix over the truth bins whose
    entry [(i,j)] is the entry of the measured covariance when both bins are
    below the number of measured bins, and zero otherwise. *)
Theorem dummy_covariance_is_measured_covariance (stack : nat) (o : RooUnfoldT)
        (r : Response) (h : Hist) (covmeas : TMatrixD) :
  _res o = Some r -> _meas o = Some h -> _covMes o = Some covmeas ->
  _cache o = Cache_ctor ->
  exists E o1,
    Eunfold RooUnfoldT_vtable stack kCovariance o = (Ok E, o1) /\
    rect (_nt o) (_nt o) E /\
    forall i j, (i < _nt o)%nat -> (j < _nt o)%nat ->
      mget gNanValue E i j
      = if Nat.ltb i (_nm o) && Nat.ltb j (_nm o) then mget gNanValue covmeas i j
        else 0.
Proof.
  intros Hr Hm Hc Hk.
  destruct (UnfoldWithErrors_kCovariance_run r h stack o covmeas Hr Hm Hc Hk)
    as (o1 & Hrun & Hnt & Hcov & _).
  unfold Eunfold, Eunfold_on. unfold UnfoldWithErrors in Hrun.
  rewrite (bind_run _ Hrun), bind_this. cbn [negb].
  eexists. exists o1. split; [reflexivity|]. rewrite Hcov.
  destruct (copied_cov_get covmeas (_nm o) (_nt o) (TMatrixD_nk 1 1)) as [Hrect Hget].
  split; [exact Hrect|]. intros i j Hi Hj.
  rewrite (Hget i j Hi Hj), mget_zero_1_1. reflexivity.
Qed.

(** X8.  Without a measured covariance, [GetMeasuredCov] builds one from
    the errors of the measured histogram: a square matrix over the measured
    bins with the squared bin errors on the diagonal and zeros elsewhere. *)
Theorem GetMeasuredCov_from_errors (o : RooUnfoldT) (r : Response) (h : Hist) :
  _res o = Some r -> _meas o = Some h -> _covMes o = None ->
  _eMes (_cache o) = None ->
  let err := h2ve h (overflow_flag o) (UseDensityStatus r) in
  exists c o1,
    GetMeasuredCov o = (Ok c, o1) /\
    _eMes (_cache o1) = Some err /\
    rect (_nm o) (_nm o) c /\
    forall i j, (i < _nm o)%nat -> (j < _nm o)%nat ->
      mget gNanValue c i j
      = if Nat.eqb i j then vget gNanValue err i * vget gNanValue err i else 0.
Proof.
  intros Hr Hm Hc He err.
  eexists. eexists. split; [apply (GetMeasuredCov_run r h o Hr Hm Hc He)|].
  split; [reflexivity|]. apply errors_cov_get.
Qed.

(** X12.  The dummy algorithm never throws where it has what it needs: on
    an object that points to a response and to a measured histogram,
    [UnfoldWithErrors] returns for the treatments [kNoError], [kErrors],
    [kCovariance] and [kDefault], with or without weights, and [EunfoldV]
    then returns a vector of one non-negative entry per truth bin for the
    first three. *)
Theorem dummy_algorithm_returns (stack : nat) (t : ErrorTreatment) (w : bool)
        (o : RooUnfoldT) :
  bound o -> t <> kCovToy -> t <> kRooFit ->
  (exists ok o1,
      UnfoldWithErrors RooUnfoldT_vtable stack t w o = (Ok ok, o1) /\
      bound o1 /\ _nt o1 = _nt o) /\
  (t <> kDefault ->
   exists v o1,
     EunfoldV RooUnfoldT_vtable stack t o = (Ok v, o1) /\
     length v = _nt o /\ Forall (fun x => 0 <= x) v).
Proof.
  intros Hb Hn1 Hn2. split.
  - apply UnfoldWithErrors_base_returns; assumption.
  - intros Hn3. apply EunfoldV_base_returns; [exact Hb|].
    destruct t; try congruence; auto.
Qed.

(** X13.  The fit errors are beyond the base class: on an unfolded object
    that has no errors for the treatment [kRooFit] yet,
    [UnfoldWithErrors(kRooFit)] reaches [GetErrorsCovariance], which throws
    for every treatment but [kErrors]. *)
Theorem base_class_throws_for_kRooFit (stack : nat) (o : RooUnfoldT) :
  _unfolded (_cache o) = true ->
  _withError o <> kRooFit \/ _haveErrors (_cache o) = false ->
  exists o1,
    UnfoldWithErrors RooUnfoldT_vtable stack kRooFit false o
    = (Raise (runtime_error "unknown error propagation method!"), o1) /\
    _withError o1 = kRooFit.
Proof.
  intros Hu Hw.
  unfold UnfoldWithErrors, UnfoldWithErrors_on.
  rewrite (bind_run _ (ensure_unfolded_done RooUnfoldT_vtable o Hu)).
  cbn [negb]. unfold errors_for. mstep.
  cbn [v_GetErrors RooUnfoldT_vtable].
  destruct (ErrorTreatment_eqb (_withError o) kRooFit) eqn:E; cbn [negb]; mstep.
  - apply ErrorTreatment_eqb_eq in E. destruct Hw as [Hw|Hw]; [congruence|].
    rewrite Hw. unfold GetErrors, GetErrorsCovariance. mstep.
    eexists. split; reflexivity.
  - unfold GetErrors, GetErrorsCovariance. mstep.
    eexists. split; reflexivity.
Qed.

Lemma InvertMatrix_failed_iff (mat inv : TMatrixD) (verbose : Z) :
  Z.eqb (fst (InvertMatrix mat inv verbose)) 0 = negb (snd (svd_Invert mat)).
Proof.
  unfold InvertMatrix. destruct (svd_Invert mat) as [sinv b]. cbn [snd].
  destruct b; cbn [negb fst]; [|reflexivity].
  destruct (Rltb (svd_Condition mat) 0); [reflexivity|].
  destruct (Rltb cond_max (svd_Condition mat)); reflexivity.
Qed.

Lemma GetWgt_run (G : M unit) (o : RooUnfoldT) :
  _haveCov (_cache o) = true ->
  let inv := snd (InvertMatrix (_cov (_cache o)) (_wgt (_cache o)) (_verbose o)) in
  GetWgt G o
  = (Ok tt,
     if snd (svd_Invert (_cov (_cache o)))
     then set_cache (set_haveWgt true (set_wgt inv (_cache o))) o
     else set_cache (set_wgt inv (_cache o)) o).
Proof.
  intros Hc inv. unfold GetWgt. mstep. rewrite Hc. mstep. rewrite Hc. mstep.
  pose proof (InvertMatrix_failed_iff (_cov (_cache o)) (_wgt (_cache o)) (_verbose o))
    as Hz.
  subst inv.
  destruct (InvertMatrix (_cov (_cache o)) (_wgt (_cache o)) (_verbose o))
    as [status inv]. cbn [fst snd] in *. mstep. rewrite Hz.
  destruct (snd (svd_Invert (_cov (_cache o)))); cbn [negb]; mstep; reflexivity.
Qed.

(** X14.  The weights need the inversion to converge and nothing more.  On
    an unfolded object with a covariance and no weights yet,
    [UnfoldWithErrors(kCovariance, true)] inverts the covariance, stores what
    the solver hands back, and succeeds exactly when the solver reports
    convergence, whatever the condition number; when it does not, the call
    returns [false] and sets the fail flag.  The result vector is not
    touched. *)
Theorem weights_need_convergence (stack : nat) (o : RooUnfoldT) :
  _unfolded (_cache o) = true -> _haveCov (_cache o) = true ->
  _haveWgt (_cache o) = false ->
  let okinv := snd (svd_Invert (_cov (_cache o))) in
  exists o1,
    UnfoldWithErrors RooUnfoldT_vtable stack kCovariance true o = (Ok okinv, o1) /\
    _wgt (_cache o1)
    = snd (InvertMatrix (_cov (_cache o)) (_wgt (_cache o)) (_verbose o)) /\
    _haveWgt (_cache o1) = okinv /\
    _fail (_cache o1) = (_fail (_cache o) || negb okinv)%bool /\
    _rec (_cache o1) = _rec (_cache o).
Proof.
  intros Hu Hc Hw okinv.
  unfold UnfoldWithErrors, UnfoldWithErrors_on.
  rewrite (bind_run _ (ensure_unfolded_done RooUnfoldT_vtable o Hu)).
  cbn [negb]. unfold errors_for. mstep.
  cbn [v_GetWgt RooUnfoldT_vtable ErrorTreatment_eqb]. state_simpl.
  assert (Hrun : forall s, _haveCov (_cache s) = true -> _haveWgt (_cache s) = false ->
            _cov (_cache s) = _cov (_cache o) -> _wgt (_cache s) = _wgt (_cache o) ->
            _fail (_cache s) = _fail (_cache o) -> _rec (_cache s) = _rec (_cache o) ->
            _verbose s = _verbose o ->
            exists o1,
              ((if _haveWgt (_cache s) then ret tt else GetWgt GetCov) ;;
               ok <- cached _haveWgt ;;
               (if ok then ret tt else modify_cache (set_fail true)) ;;
               ret ok) s
              = (Ok okinv, o1) /\
              _wgt (_cache o1)
              = snd (InvertMatrix (_cov (_cache o)) (_wgt (_cache o)) (_verbose o)) /\
              _haveWgt (_cache o1) = okinv /\
              _fail (_cache o1) = (_fail (_cache o) || negb okinv)%bool /\
              _rec (_cache o1) = _rec (_cache o)).
  { intros s Hkc Hkw Hkcov Hkwgt Hkf Hkr Hkv. rewrite Hkw.
    rewrite (bind_run _ (GetWgt_run GetCov s Hkc)).
    rewrite Hkcov, Hkwgt, Hkv. fold okinv.
    destruct okinv; mstep.
    - eexists. split; [reflexivity|]. state_simpl.
      rewrite Hkf, Hkr, orb_false_r. repeat split; reflexivity.
    - rewrite Hkw. mstep.
      eexists. split; [reflexivity|]. state_simpl.
      rewrite Hkw, Hkr, orb_true_r. repeat split; reflexivity. }
  destruct (negb (ErrorTreatment_eqb (_withError o) kCovariance)); mstep;
    match goal with
    | |- exists o1, _ ?s = _ /\ _ => apply (Hrun s); state_simpl; auto
    end.
Qed.

(** ** The treatments that need nothing computed *)

(** For [kNoError] and [kDefault] the second block of [UnfoldWithErrors]
    enters no virtual function: it records the treatment, and clears
    [_haveErrors] when the treatment is new. *)
Lemma errors_for_plain_run (vt : Strategy) (G : M unit) (t : ErrorTreatment) (w : bool)
      (s : RooUnfoldT) :
  t = kNoError \/ t = kDefault ->
  errors_for vt G t w s
  = (Ok true,
     set_withError t
       (if negb (ErrorTreatment_eqb (_withError s) t)
        then set_cache (set_haveErrors false (_cache s)) s else s)).
Proof.
  intros Ht. unfold errors_for. mstep.
  destruct Ht as [-> | ->]; cbn [ErrorTreatment_eqb orb]; rewrite andb_false_r;
    destruct (negb (ErrorTreatment_eqb (_withError s) _)); mstep; reflexivity.
Qed.

Lemma UnfoldWithErrors_plain_run (vt : Strategy) (stack : nat) (t : ErrorTreatment)
      (w : bool) (s : RooUnfoldT) :
  t = kNoError \/ t = kDefault -> _unfolded (_cache s) = true ->
  exists s1,
    UnfoldWithErrors vt stack t w s = (Ok true, s1) /\
    _unfolded (_cache s1) = true /\ _fail (_cache s1) = _fail (_cache s) /\
    _rec (_cache s1) = _rec (_cache s) /\ _nt s1 = _nt s /\
    _overflow s1 = _overflow s /\ _withError s1 = t /\
    Unfold_calls s1 = Unfold_calls s.
Proof.
  intros Ht Hu. unfold UnfoldWithErrors, UnfoldWithErrors_on.
  rewrite (bind_run _ (ensure_unfolded_done vt s Hu)). cbn [negb].
  rewrite (errors_for_plain_run vt _ t w s Ht).
  eexists. split; [reflexivity|].
  destruct (negb (ErrorTreatment_eqb (_withError s) t)); state_simpl;
    repeat split; auto.
Qed.

(** ** Cache resets and the change of the error treatment *)

(** C2, as the code has it.  Every operation that assigns a new cache leaves
    it exactly as [Cache::Cache()] builds it, whatever it held before:
    [Setup] (whenever it returns, and it returns for every non-null response
    with the base [GetSettings]), the rebinding of the measured histogram by
    [SetMeasured (hist)] or of its covariance by [SetMeasuredCov], a change of
    the systematics policy, [ClearCache] and [ForceRecalculation].  In that
    cache all validity flags are false and no earlier result, covariance,
    weight, toy error matrix or bias is left.  A change of the error
    treatment is no reset: on an unfolded object [UnfoldWithErrors] with the
    treatment [kNoError] or [kDefault] returns [true], records the treatment,
    clears [_haveErrors] where the treatment is a new one, and leaves the
    rest of the cache as it was. *)
Theorem cache_reset_leaves_fresh_cache (o : RooUnfoldT) :
  (forall settings res meas o',
      Setup settings res meas o = (Ok tt, o') ->
      _cache o' = Cache_ctor /\ fresh (_cache o')) /\
  (forall r meas, exists o',
      Setup GetSettings (Some r) meas o = (Ok tt, o') /\ fresh (_cache o')) /\
  (forall meas, fresh (_cache (snd (SetMeasured meas o)))) /\
  (forall cov, fresh (_cache (snd (SetMeasuredCov cov o)))) /\
  (forall dosys, dosys <> _dosys o ->
                 fresh (_cache (snd (IncludeSystematics dosys o)))) /\
  fresh (_cache (snd (ClearCache o))) /\
  fresh (_cache (snd (ForceRecalculation o))) /\
  (forall vt stack t w,
      t = kNoError \/ t = kDefault -> _unfolded (_cache o) = true ->
      exists o1,
        UnfoldWithErrors vt stack t w o = (Ok true, o1) /\
        _withError o1 = t /\
        _cache o1 = (if ErrorTreatment_eqb (_withError o) t then _cache o
                     else set_haveErrors false (_cache o))).
Proof.
  split; [|split; [|split; [|split; [|split; [|split; [|split]]]]]].
  - intros settings res meas o' H. apply Setup_cache in H.
    split; [exact H | rewrite H; apply Cache_ctor_fresh].
  - intros r meas. destruct (Setup_base_run r meas o) as (o' & H & _).
    exists o'. split; [exact H|].
    apply Setup_cache in H. rewrite H. apply Cache_ctor_fresh.
  - intros meas. unfold SetMeasured. run_reset. apply Cache_ctor_fresh.
  - intros cov. unfold SetMeasuredCov. run_reset. apply Cache_ctor_fresh.
  - intros dosys Hd. unfold IncludeSystematics, ClearCache, member.
    unfold bind at 1.
    destruct (SystematicsTreatment_eqb dosys _) eqn:E.
    + apply SystematicsTreatment_eqb_eq in E. contradiction.
    + run_reset. apply Cache_ctor_fresh.
  - unfold ClearCache. run_reset. apply Cache_ctor_fresh.
  - unfold ForceRecalculation, member, deref. run_reset.
    match goal with
    | |- context [match ?p with Some _ => _ | None => _ end] => destruct p
    end; cbn; apply Cache_ctor_fresh.
  - intros vt stack t w Ht Hu. unfold UnfoldWithErrors, UnfoldWithErrors_on.
    rewrite (bind_run _ (ensure_unfolded_done vt o Hu)). cbn [negb].
    rewrite (errors_for_plain_run vt _ t w o Ht).
    eexists. split; [reflexivity|].
    destruct (ErrorTreatment_eqb (_withError o) t); state_simpl;
      split; reflexivity.
Qed.

(** X15.  [kDefault] is accepted by [UnfoldWithErrors] and by nothing
    else: on an unfolded object [UnfoldWithErrors(kDefault)] succeeds without
    computing anything, while [Eunfold], [EunfoldV] and [Wunfold] reach the
    default branch of their switch and throw a [runtime_error]. *)
Theorem kDefault_is_rejected_by_the_accessors (vt : Strategy) (stack : nat)
        (o : RooUnfoldT) :
  _unfolded (_cache o) = true ->
  exists o1,
    UnfoldWithErrors vt stack kDefault false o = (Ok true, o1) /\
    Eunfold vt stack kDefault o
    = (Raise (runtime_error
                "Error in RooUnfoldT::Wunfold, unrecognised error method '%d'"), o1) /\
    EunfoldV vt stack kDefault o
    = (Raise (runtime_error
                "Error in RooUnfoldT::EunfoldV, unrecognised error method '%d'"), o1) /\
    Wunfold vt stack kDefault o
    = (Raise (runtime_error
                "Error in RooUnfoldT::Wunfold, unrecognised error method '%d'"), o1).
Proof.
  intros Hu.
  assert (Hrun : forall w, UnfoldWithErrors vt stack kDefault w o
                           = (Ok true,
                              set_withError kDefault
                                (if negb (ErrorTreatment_eqb (_withError o) kDefault)
                                 then set_cache (set_haveErrors false (_cache o)) o
                                 else o))).
  { intros w. unfold UnfoldWithErrors, UnfoldWithErrors_on.
    rewrite (bind_run _ (ensure_unfolded_done vt o Hu)). cbn [negb].
    apply errors_for_plain_run. right. reflexivity. }
  eexists. split; [apply (Hrun false)|].
  unfold UnfoldWithErrors in Hrun. split; [|split].
  - unfold Eunfold, Eunfold_on.
    rewrite (bind_run _ (Hrun false)), bind_this. reflexivity.
  - unfold EunfoldV, EunfoldV_on. rewrite bind_member. cbv zeta.
    rewrite (bind_run _ (Hrun false)). cbn [negb]. rewrite bind_this. reflexivity.
  - unfold Wunfold, Wunfold_on. rewrite bind_member. cbv zeta.
    rewrite (bind_run _ (Hrun true)). cbn [negb]. rewrite bind_this. reflexivity.
Qed.

(** X16.  [EunfoldV] is the root of the diagonal of [Eunfold].  For every
    treatment but [kDefault], once [UnfoldWithErrors] has succeeded, the
    entry of bin [i] in the vector [EunfoldV] returns is the square root of
    the absolute value of entry [(i,i)] of the matrix [Eunfold] returns. *)
Theorem EunfoldV_is_root_of_Eunfold_diagonal (vt : Strategy) (stack : nat)
        (t : ErrorTreatment) (o o1 : RooUnfoldT) :
  UnfoldWithErrors vt stack t false o = (Ok true, o1) ->
  _nt o1 = _nt o -> t <> kDefault ->
  exists E v,
    Eunfold vt stack t o = (Ok E, o1) /\
    EunfoldV vt stack t o = (Ok v, o1) /\
    forall i, (i < _nt o)%nat ->
      vget gNanValue v i = sqrt (Rabs (mget gNanValue E i i)).
Proof.
  intros H Hnt Ht.
  pose proof (EunfoldV_entries vt stack t o o1 H Hnt Ht) as HV.
  assert (HE : exists E, Eunfold vt stack t o = (Ok E, o1) /\
                         forall i, (i < _nt o)%nat ->
                                   mget gNanValue E i i = selected t (_cache o1) i).
  { unfold Eunfold, Eunfold_on. unfold UnfoldWithErrors in H.
    rewrite (bind_run _ H), bind_this. cbn [negb]. rewrite Hnt.
    destruct t; try congruence; eexists; (split; [reflexivity|]); intros i Hi;
      cbn [selected]; try reflexivity.
    - destruct (fold_diag gNanValue (fun _ => true)
                  (fun i => vget gNanValue (_rec (_cache o1)) i)
                  (_nt o) (seq 0 (_nt o)) (TMatrixD_nk (_nt o) (_nt o))
                  (rect_TMatrixD_nk _ _)) as [_ Hget].
      rewrite (Hget i i Hi Hi), Nat.eqb_refl, existsb_seq by exact Hi. reflexivity.
    - destruct (fold_diag gNanValue (fun _ => true)
                  (fun i => vget gNanValue (_variances (_cache o1)) i)
                  (_nt o) (seq 0 (_nt o)) (TMatrixD_nk (_nt o) (_nt o))
                  (rect_TMatrixD_nk _ _)) as [_ Hget].
      rewrite (Hget i i Hi Hi), Nat.eqb_refl, existsb_seq by exact Hi. reflexivity.
    - destruct (fold_diag gNanValue (fun _ => true)
                  (fun i => vget gNanValue (_variances (_cache o1)) i)
                  (_nt o) (seq 0 (_nt o)) (TMatrixD_nk (_nt o) (_nt o))
                  (rect_TMatrixD_nk _ _)) as [_ Hget].
      rewrite (Hget i i Hi Hi), Nat.eqb_refl, existsb_seq by exact Hi. reflexivity. }
  destruct HE as (E & HE & Hdiag).
  exists E. eexists. split; [exact HE|]. split; [exact HV|].
  intros i Hi. rewrite vget_map_seq by exact Hi. rewrite (Hdiag i Hi). reflexivity.
Qed.

(** X17.  A failed unfolding is not retried before the cache is reset.  In
    a cache generation in which [Unfold()] has failed, [UnfoldWithErrors]
    returns [false] for every treatment and leaves the object as it is, and
    [Vunfold] does not enter [Unfold()] either.  After [ClearCache] the next
    call enters [Unfold()] again, and where that now succeeds
    [UnfoldWithErrors(kNoError)] returns [true]. *)
Theorem failed_unfolding_waits_for_reset (vt : Strategy) (stack : nat)
        (t : ErrorTreatment) (w : bool) (o : RooUnfoldT) :
  _unfolded (_cache o) = false -> _fail (_cache o) = true ->
  UnfoldWithErrors vt stack t w o = (Ok false, o) /\
  Unfold_calls (snd (Vunfold vt o)) = Unfold_calls o /\
  forall o1,
    call_Unfold vt (snd (ClearCache o)) = (Ok tt, o1) ->
    _unfolded (_cache o1) = true ->
    fst (UnfoldWithErrors vt stack kNoError w (snd (ClearCache o))) = Ok true.
Proof.
  intros Hu Hf. split; [|split].
  - apply UnfoldWithErrors_failed; assumption.
  - apply (Vunfold_failed vt o Hu Hf).
  - intros o1 Hcall Hu1.
    unfold UnfoldWithErrors, UnfoldWithErrors_on, ensure_unfolded.
    rewrite reset_cache_run in *. cbn [snd] in *.
    mstep. change (_unfolded Cache_ctor) with false. mstep.
    change (_fail Cache_ctor) with false. mstep.
    rewrite (bind_run _ Hcall). mstep. rewrite Hu1. mstep.
    rewrite (errors_for_plain_run vt _ kNoError w o1 (or_introl eq_refl)).
    reflexivity.
Qed.

(** X18.  The fail flag outlives the computation that set it.  On an
    unfolded object whose fail flag is set (an error or weight computation
    has failed since the last reset), [UnfoldWithErrors(kNoError)] still
    returns [true], but [Chi2] with that treatment returns [-1.0], whatever
    the reference histogram, and leaves the flag set. *)
Theorem Chi2_after_a_failure (vt : Strategy) (stack : nat) (h : Hist) (o : RooUnfoldT) :
  _unfolded (_cache o) = true -> _fail (_cache o) = true ->
  fst (UnfoldWithErrors vt stack kNoError false o) = Ok true /\
  exists o2,
    Chi2 vt stack (Some h) kNoError o = (Ok (-1.0), o2) /\
    _fail (_cache o2) = true /\ _rec (_cache o2) = _rec (_cache o).
Proof.
  intros Hu Hf.
  destruct (UnfoldWithErrors_plain_run vt stack kNoError false o
              (or_introl eq_refl) Hu)
    as (o1 & H1 & Hu1 & Hf1 & Hr1 & Hnt1 & _).
  destruct (UnfoldWithErrors_plain_run vt stack kNoError false o1
              (or_introl eq_refl) Hu1)
    as (o2 & H2 & Hu2 & Hf2 & Hr2 & Hnt2 & _).
  split; [rewrite H1; reflexivity|].
  exists o2. split; [|split; [congruence | congruence]].
  unfold Chi2, Chi2_on. unfold UnfoldWithErrors in H1, H2.
  rewrite (bind_run _ H1). cbn [negb]. rewrite bind_this. cbn [deref].
  rewrite bind_ret. cbn [ErrorTreatment_eqb orb].
  unfold EunfoldV_on. rewrite bind_bind, bind_member, bind_bind.
  rewrite (bind_run _ H2). cbn [negb]. rewrite bind_bind, bind_this, bind_ret.
  rewrite bind_cached. rewrite Hf2, Hf1, Hf. reflexivity.
Qed.

(** ** The toy engine *)

Lemma foldM_count {A B} (Q : nat -> A -> Prop) (f : A -> B -> M A) (l : list B)
      (a a' : A) (o o' : RooUnfoldT) (n0 : nat) :
  (forall k a b o a' o', Q k a -> f a b o = (Ok a', o') -> Q (S k) a') ->
  Q n0 a -> foldM f l a o = (Ok a', o') -> Q (n0 + length l)%nat a'.
Proof.
  intros Hf. revert a o n0. induction l as [|b l IH]; intros a o n0 Hq H.
  - cbn [foldM] in H. injection H as <- <-. cbn [length].
    rewrite Nat.add_0_r. exact Hq.
  - cbn [foldM] in H. apply bind_Ok_inv in H. destruct H as (a1 & o1 & Hm & H).
    cbn [length]. rewrite <- Nat.add_succ_comm.
    apply (IH a1 o1 (S n0)); [|exact H]. apply (Hf n0 a b o a1 o1 Hq Hm).
Qed.

Section Toy_results.

Variable vt : Strategy.
Variable GetErrMat_below : M unit.

(** What [RunToys] has collected when it returns: one more result per toy,
    after those it was given; one more error vector and chi-squared per toy
    unless the treatment of the object is [kNoError], in which case none is
    added; the treatment of the object is put back. *)
Lemma RunToys_on_collects (ntoys : Z) (vx vxe : list TVectorD) (chi2 : list Double_t)
      (o o' : RooUnfoldT) (vx' vxe' : list TVectorD) (chi2' : list Double_t) :
  RunToys_on vt GetErrMat_below ntoys vx vxe chi2 o = (Ok (vx', vxe', chi2'), o') ->
  length vx' = (length vx + Z.to_nat ntoys)%nat /\
  firstn (length vx) vx' = vx /\
  (_withError o = kNoError -> vxe' = vxe /\ chi2' = chi2) /\
  (_withError o <> kNoError ->
   length vxe' = (length vxe + Z.to_nat ntoys)%nat /\
   length chi2' = (length chi2 + Z.to_nat ntoys)%nat) /\
  _withError o' = _withError o.
Proof.
  unfold RunToys_on. intros H.
  stepm H. stepm H. stepm H. stepm H.
  injection H as -> <-.
  set (Q := fun (k : nat) (acc : list TVectorD * list TVectorD * list Double_t) =>
              let '(ax, axe, ac) := acc in
              length ax = (length vx + k)%nat /\
              firstn (length vx) ax = vx /\
              (_withError o = kNoError -> axe = vxe /\ ac = chi2) /\
              (_withError o <> kNoError ->
               length axe = (length vxe + k)%nat /\
               length ac = (length chi2 + k)%nat)).
  apply (foldM_count Q) with (n0 := O) in Hm.
  - rewrite length_seq in Hm. cbn [Nat.add] in Hm.
    unfold Q in Hm. destruct Hm as (H1 & H2 & H3 & H4).
    repeat split; try tauto.
  - intros k [[ax axe] ac] i s [[bx bxe] bc] s' HQ Hs.
    unfold Q in HQ. destruct HQ as (H1 & H2 & H3 & H4).
    stepm Hs. stepm Hs. stepm Hs. stepm Hs. stepm Hs. stepm Hs.
    destruct (ErrorTreatment_eqb (_withError o) kNoError) eqn:E; cbn [negb] in Hs.
    + apply ErrorTreatment_eqb_eq in E. injection Hs as <- <- <- _.
      unfold Q. rewrite length_app. cbn [length].
      split; [lia|].
      split; [rewrite firstn_app; replace (length vx - length ax)%nat with O by lia;
              cbn [firstn]; rewrite app_nil_r; exact H2|].
      split; [exact H3 | congruence].
    + stepm Hs. stepm Hs. stepm Hs. injection Hs as <- <- <- _.
      assert (Hne : _withError o <> kNoError).
      { intros Heq. rewrite Heq in E. discriminate E. }
      unfold Q. rewrite !length_app. cbn [length].
      destruct (H4 Hne) as [H5 H6].
      split; [lia|].
      split; [rewrite firstn_app; replace (length vx - length ax)%nat with O by lia;
              cbn [firstn]; rewrite app_nil_r; exact H2|].
      split; [congruence | intros _; clear - H5 H6; split; lia].
  - unfold Q. split; [lia|]. split; [apply firstn_all|].
    split; [intros _; split; reflexivity | intros _; split; lia].
Qed.

End Toy_results.

(** X19.  [RunToys] appends.  When it returns, the vector of results holds
    the results it was given followed by one result per toy; the vectors of
    errors and of chi-squared values have grown by one entry per toy, unless
    the treatment of the object is [kNoError], in which case they are
    returned as given.  The treatment of the object is put back, and the
    cache is the one of [Cache::Cache()]: the results of the object itself
    are gone. *)
Theorem RunToys_collects (vt : Strategy) (stack : nat) (ntoys : Z)
        (vx vxe : list TVectorD) (chi2 : list Double_t) (o o' : RooUnfoldT)
        (vx' vxe' : list TVectorD) (chi2' : list Double_t) :
  RunToys vt stack ntoys vx vxe chi2 o = (Ok (vx', vxe', chi2'), o') ->
  length vx' = (length vx + Z.to_nat ntoys)%nat /\
  firstn (length vx) vx' = vx /\
  (_withError o = kNoError -> vxe' = vxe /\ chi2' = chi2) /\
  (_withError o <> kNoError ->
   length vxe' = (length vxe + Z.to_nat ntoys)%nat /\
   length chi2' = (length chi2 + Z.to_nat ntoys)%nat) /\
  _withError o' = _withError o /\
  _cache o' = Cache_ctor.
Proof.
  intros H. unfold RunToys in H.
  pose proof (RunToys_on_cache _ _ _ _ _ _ _ _ _ H) as Hc.
  apply RunToys_on_collects in H.
  destruct H as (H1 & H2 & H3 & H4 & H5).
  repeat split; try assumption; try (apply H3; assumption); apply H4; assumption.
Qed.

(** X20.  [RunToy] needs a treatment with errors.  On an object whose
    treatment is [kNoError] the single toy collects no error vector, and
    [RunToy] then reads the first entry of an empty [std::vector]: it never
    returns normally. *)
Theorem RunToy_needs_an_error_treatment (vt : Strategy) (stack : nat)
        (o : RooUnfoldT) :
  _withError o = kNoError ->
  forall out o', RunToy vt stack o <> (Ok out, o').
Proof.
  intros Hw out o' H. unfold RunToy, RunToy_on in H.
  apply bind_Ok_inv in H. destruct H as ([[vx vxe] chi2] & o1 & Hrun & H).
  apply RunToys_on_collects in Hrun.
  destruct Hrun as (_ & _ & Hnone & _).
  destruct (Hnone Hw) as [-> ->].
  apply bind_Ok_inv in H. destruct H as (x & o2 & _ & H).
  apply bind_Ok_inv in H. destruct H as (xe & o3 & Hxe & _).
  unfold at_ in Hxe. cbn in Hxe. discriminate Hxe.
Qed.

(** X21.  The toy covariance needs two toys.  With at most one toy
    configured, [UnfoldWithErrors(kCovToy)] on an unfolded object without a
    toy covariance runs no toy: [GetErrMat] returns at once, the call reports
    [false] and sets the fail flag, and the result of the object stays. *)
Theorem toy_covariance_needs_two_toys (vt : Strategy) (stack : nat) (w : bool)
        (o : RooUnfoldT) :
  _unfolded (_cache o) = true -> _have_err_mat (_cache o) = false ->
  (_NToys o <= 1)%Z ->
  exists o1,
    UnfoldWithErrors vt (S stack) kCovToy w o = (Ok false, o1) /\
    _fail (_cache o1) = true /\ _have_err_mat (_cache o1) = false /\
    _unfolded (_cache o1) = true /\ _rec (_cache o1) = _rec (_cache o) /\
    Unfold_calls o1 = Unfold_calls o.
Proof.
  intros Hu Hm Hn.
  unfold UnfoldWithErrors, UnfoldWithErrors_on.
  rewrite (bind_run _ (ensure_unfolded_done vt o Hu)). cbn [negb].
  unfold errors_for. mstep. cbn [ErrorTreatment_eqb orb]. rewrite andb_false_r.
  cbn [GetErrMat].
  destruct (negb (ErrorTreatment_eqb (_withError o) kCovToy)); mstep;
    rewrite Hm;
    match goal with
    | |- exists o1, _ ?s = _ /\ _ =>
        rewrite (bind_run _ (GetErrMat_body_skipped vt _ s Hn))
    end; mstep; rewrite Hm; mstep;
    (eexists; split; [reflexivity|]); state_simpl; repeat split; assumption.
Qed.

(** *** The sums of [GetErrMat] *)

Lemma existsb_not_In (i : nat) (l : list nat) :
  ~ In i l -> existsb (Nat.eqb i) l = false.
Proof.
  intros H. apply not_true_is_false. intros E. apply existsb_exists in E.
  destruct E as (k & Hin & Hk). apply Nat.eqb_eq in Hk. subst k. contradiction.
Qed.

Lemma fold_vupdate_get (nan : Double_t) (F : nat -> Double_t -> Double_t)
      (l : list nat) (v : TVectorD) (i : nat) :
  NoDup l -> (i < length v)%nat ->
  vget nan (fold_left (fun v k => vset v k (F k (vget nan v k))) l v) i
  = if existsb (Nat.eqb i) l then F i (vget nan v i) else vget nan v i.
Proof.
  intros Hn. revert v. induction Hn as [|k l Hk Hn IH]; intros v Hi;
    cbn [fold_left existsb]; [reflexivity|].
  rewrite IH by (rewrite vset_length; exact Hi).
  rewrite vget_vset by exact Hi.
  destruct (Nat.eqb i k) eqn:E; cbn [orb].
  - apply Nat.eqb_eq in E. subst k. rewrite (existsb_not_In i l Hk). reflexivity.
  - reflexivity.
Qed.

Lemma fold_vupdate_length (nan : Double_t) (F : nat -> Double_t -> Double_t)
      (l : list nat) (v : TVectorD) :
  length (fold_left (fun v k => vset v k (F k (vget nan v k))) l v) = length v.
Proof.
  revert v. induction l as [|k l IH]; intros v; cbn [fold_left]; [reflexivity|].
  rewrite IH. apply vset_length.
Qed.

Lemma fold_mupdate_row_get (nan : Double_t) (c : nat -> Double_t) (n k i' : nat)
      (l : list nat) (m : TMatrixD) :
  NoDup l -> rect n k m ->
  let W := fold_left (fun m j => mset m i' j (mget nan m i' j + c j)) l m in
  rect n k W /\
  forall i j, (i < n)%nat -> (j < k)%nat ->
    mget nan W i j
    = if Nat.eqb i i' && existsb (Nat.eqb j) l then mget nan m i j + c j
      else mget nan m i j.
Proof.
  intros Hn. revert m. induction Hn as [|j' l Hj' Hn IH]; intros m Hr;
    cbn [fold_left existsb].
  - split; [exact Hr|]. intros i j _ _. rewrite andb_false_r. reflexivity.
  - destruct (IH _ (rect_mset n k m i' j' (mget nan m i' j' + c j') Hr)) as [HW Hget].
    split; [exact HW|]. intros i j Hi Hj.
    rewrite (Hget i j Hi Hj), (mget_mset nan n k m i j i' j' _ Hr Hi Hj).
    destruct (Nat.eqb i i') eqn:Ei; cbn [andb]; [|reflexivity].
    apply Nat.eqb_eq in Ei. subst i'.
    destruct (Nat.eqb j j') eqn:Ej; cbn [orb].
    + apply Nat.eqb_eq in Ej. subst j'. rewrite (existsb_not_In j l Hj'). reflexivity.
    + reflexivity.
Qed.

Lemma fold_mupdate_get (nan : Double_t) (c : nat -> nat -> Double_t) (n k : nat)
      (l1 l2 : list nat) (m : TMatrixD) :
  NoDup l1 -> NoDup l2 -> rect n k m ->
  let W := fold_left (fun m i =>
                        fold_left (fun m j => mset m i j (mget nan m i j + c i j)) l2 m)
                     l1 m in
  rect n k W /\
  forall i j, (i < n)%nat -> (j < k)%nat ->
    mget nan W i j
    = if existsb (Nat.eqb i) l1 && existsb (Nat.eqb j) l2 then mget nan m i j + c i j
      else mget nan m i j.
Proof.
  intros Hn1 Hn2. revert m. induction Hn1 as [|i' l1 Hi' Hn1 IH]; intros m Hr;
    cbn [fold_left existsb].
  - split; [exact Hr|]. intros; reflexivity.
  - destruct (fold_mupdate_row_get nan (c i') n k i' l2 m Hn2 Hr) as [Hrow Hrget].
    destruct (IH _ Hrow) as [HW Hget].
    split; [exact HW|]. intros i j Hi Hj.
    rewrite (Hget i j Hi Hj), (Hrget i j Hi Hj).
    destruct (Nat.eqb i i') eqn:E; cbn [orb andb].
    + apply Nat.eqb_eq in E. subst i'. rewrite (existsb_not_In i l1 Hi'). reflexivity.
    + reflexivity.
Qed.

Lemma toy_sums_split (nt : nat) (x xisum : TVectorD) (xijsum : TMatrixD) :
  toy_sums nt x (xisum, xijsum)
  = (fold_left (fun s i => vset s i (vget gNanValue s i + vget gNanValue x i))
               (seq 0 nt) xisum,
     fold_left (fun m i =>
                  fold_left (fun m j =>
                               mset m i j (mget gNanValue m i j
                                           + vget gNanValue x i * vget gNanValue x j))
                            (seq 0 nt) m)
               (seq 0 nt) xijsum).
Proof.
  unfold toy_sums. generalize (seq 0 nt) at 2 3 5. intros l.
  revert xisum xijsum. induction l as [|i l IH]; intros s m; cbn [fold_left];
    [reflexivity|].
  apply IH.
Qed.

(** One toy adds its entries to the sums, and its products to the sums of
    products. *)
Lemma toy_sums_get (nt : nat) (x xisum : TVectorD) (xijsum : TMatrixD) :
  length xisum = nt -> rect nt nt xijsum ->
  let sums := toy_sums nt x (xisum, xijsum) in
  length (fst sums) = nt /\ rect nt nt (snd sums) /\
  (forall i, (i < nt)%nat ->
     vget gNanValue (fst sums) i = vget gNanValue xisum i + vget gNanValue x i) /\
  (forall i j, (i < nt)%nat -> (j < nt)%nat ->
     mget gNanValue (snd sums) i j
     = mget gNanValue xijsum i j + vget gNanValue x i * vget gNanValue x j).
Proof.
  intros Hl Hr. cbv zeta. rewrite toy_sums_split. cbn [fst snd].
  destruct (fold_mupdate_get gNanValue
              (fun i j => vget gNanValue x i * vget gNanValue x j) nt nt
              (seq 0 nt) (seq 0 nt) xijsum (seq_NoDup nt 0) (seq_NoDup nt 0) Hr)
    as [HW Hget].
  split; [|split; [exact HW|split]].
  - rewrite (fold_vupdate_length gNanValue (fun i old => old + vget gNanValue x i)).
    exact Hl.
  - intros i Hi.
    rewrite (fold_vupdate_get gNanValue (fun i old => old + vget gNanValue x i))
      by (try apply seq_NoDup; rewrite ?Hl; exact Hi).
    rewrite existsb_seq by exact Hi. reflexivity.
  - intros i j Hi Hj. rewrite (Hget i j Hi Hj), !existsb_seq by assumption.
    reflexivity.
Qed.

Lemma toys_sums_from (nt : nat) (toys : list TVectorD) (xisum : TVectorD)
      (xijsum : TMatrixD) :
  length xisum = nt -> rect nt nt xijsum ->
  let sums := fold_left (fun acc x => toy_sums nt x acc) toys (xisum, xijsum) in
  (forall i, (i < nt)%nat ->
     vget gNanValue (fst sums) i
     = vget gNanValue xisum i + sum_over toys (fun x => vget gNanValue x i)) /\
  (forall i j, (i < nt)%nat -> (j < nt)%nat ->
     mget gNanValue (snd sums) i j
     = mget gNanValue xijsum i j
       + sum_over toys (fun x => vget gNanValue x i * vget gNanValue x j)).
Proof.
  revert xisum xijsum. induction toys as [|x toys IH]; intros s m Hl Hr; cbv zeta;
    cbn [fold_left].
  - unfold sum_over. cbn. split; intros; lra.
  - destruct (toy_sums_get nt x s m Hl Hr) as (Hl1 & Hr1 & Hv & Hm).
    destruct (toy_sums nt x (s, m)) as [s1 m1] eqn:E. cbn [fst snd] in *.
    destruct (IH s1 m1 Hl1 Hr1) as [IHv IHm].
    unfold sum_over in *. cbn [map fold_right]. split.
    + intros i Hi. rewrite (IHv i Hi), (Hv i Hi). lra.
    + intros i j Hi Hj. rewrite (IHm i j Hi Hj), (Hm i j Hi Hj). lra.
Qed.

Lemma sum_over_centred (toys : list TVectorD) (a b : TVectorD -> Double_t)
      (ma mb : Double_t) :
  sum_over toys (fun x => (a x - ma) * (b x - mb))
  = sum_over toys (fun x => a x * b x) - mb * sum_over toys a - ma * sum_over toys b
    + INR (length toys) * ma * mb.
Proof.
  unfold sum_over, Double_t in *. induction toys as [|x toys IH].
  - cbn. ring.
  - cbn [map fold_right length]. rewrite IH, S_INR. ring.
Qed.

(** X22.  The entry [GetErrMat] computes is the sample covariance of the
    toys.  After the toys [toys], of which there are at least two, the sums
    accumulated bin by bin give, for every pair of truth bins, the sum over
    the toys of the products of the deviations from the toy means, divided
    by the number of toys less one. *)
Theorem err_mat_entry_is_sample_covariance (nt : nat) (toys : list TVectorD)
        (i j : nat) :
  (i < nt)%nat -> (j < nt)%nat -> (2 <= length toys)%nat ->
  let N := Z.of_nat (length toys) in
  let mean := fun b => sum_over toys (fun x => vget gNanValue x b) / IZR N in
  err_mat_entry N (fst (toys_sums nt toys)) (snd (toys_sums nt toys)) i j
  = sum_over toys (fun x => (vget gNanValue x i - mean i) * (vget gNanValue x j - mean j))
    / IZR (N - 1).
Proof.
  intros Hi Hj HN N mean.
  destruct (toys_sums_from nt toys (TVectorD_n nt) (TMatrixD_nk nt nt)
              (repeat_length _ _) (rect_TMatrixD_nk nt nt)) as [Hv Hm].
  unfold err_mat_entry, toys_sums.
  rewrite (Hm i j Hi Hj), (Hv i Hi), (Hv j Hj).
  rewrite mget_TMatrixD_nk by assumption.
  assert (Hz : forall b, (b < nt)%nat -> vget gNanValue (TVectorD_n nt) b = 0).
  { intros b Hb. unfold vget, TVectorD_n. apply nth_repeat_lt. exact Hb. }
  rewrite (Hz i Hi), (Hz j Hj), !Rplus_0_l.
  rewrite (sum_over_centred toys (fun x => vget gNanValue x i)
             (fun x => vget gNanValue x j) (mean i) (mean j)).
  assert (HNr : IZR N = INR (length toys)) by (unfold N; symmetry; apply INR_IZR_INZ).
  assert (Hpos : 0 < INR (length toys)) by (apply lt_0_INR; lia).
  unfold mean. rewrite HNr. f_equal. field. lra.
Qed.

(** ** The bias protocols *)

Ltac state_simpl_in H :=
  cbn [_cache _withError _res _meas _nm _nt _verbose _overflow _dosys _covMes _NToys
       _alg rnd Unfold_calls
       set_cache set_withError set_res set_meas set_nm set_nt set_verbose set_overflow
       set_dosys set_covMes set_NToys set_alg set_rnd set_Unfold_calls
       _minparm _maxparm _stepsizeparm _defaultparm _unfolded _fail _haveCov _haveWgt
       _have_err_mat _haveBias _haveErrors _rec _cov _wgt _variances _err_mat _bias
       _sigbias _vMes _eMes _covL _cache_covMes
       set_parms set_unfolded set_fail set_haveCov set_haveWgt set_have_err_mat
       set_haveBias set_haveErrors set_rec set_cov set_wgt set_variances set_err_mat
       set_bias set_sigbias set_vMes set_eMes set_cache_covMes
       fst snd negb andb orb deref ret] in H.

(** A loop that writes a value into [_bias] and one into [_sigbias] for
    every bin of [l]. *)
Lemma foldM_store_run (f : unit -> nat -> M unit) (b s : nat -> Double_t)
      (l : list nat) (o : RooUnfoldT) :
  (forall i o,
      f tt i o
      = (Ok tt,
         set_cache (set_sigbias (vset (_sigbias (_cache o)) i (s i))
                      (set_bias (vset (_bias (_cache o)) i (b i)) (_cache o))) o)) ->
  exists o',
    foldM f l tt o = (Ok tt, o') /\
    _bias (_cache o') = fold_left (fun v i => vset v i (b i)) l (_bias (_cache o)) /\
    _sigbias (_cache o')
    = fold_left (fun v i => vset v i (s i)) l (_sigbias (_cache o)) /\
    result_kept o o' /\ _nt o' = _nt o.
Proof.
  intros Hf. revert o. induction l as [|i l IH]; intros o; cbn [foldM fold_left].
  - exists o. repeat split; reflexivity.
  - rewrite (bind_run _ (Hf i o)).
    destruct (IH (set_cache (set_sigbias (vset (_sigbias (_cache o)) i (s i))
                               (set_bias (vset (_bias (_cache o)) i (b i)) (_cache o))) o))
      as (o' & Hrun & Hb & Hs & Hk & Hnt).
    exists o'. split; [exact Hrun|]. split; [exact Hb|]. split; [exact Hs|].
    split; [|exact Hnt].
    destruct Hk as (K1 & K2 & K3). repeat split; assumption.
Qed.

Lemma estimator_store_run (truth truthE unfold unfoldE : TVectorD) (o : RooUnfoldT) :
  let t := fun i => vget gNanValue truth i in
  let sigma := fun i => sqrt (vget gNanValue truthE i * vget gNanValue truthE i
                              + vget gNanValue unfoldE i * vget gNanValue unfoldE i) in
  exists o',
    estimator_store truth truthE unfold unfoldE o = (Ok tt, o') /\
    _bias (_cache o')
    = map (fun i => if Reqb (t i) 0 then vget gNanValue unfold i - t i
                    else (vget gNanValue unfold i - t i) / t i) (seq 0 (_nt o)) /\
    _sigbias (_cache o')
    = map (fun i => if Reqb (t i) 0 then sigma i else sigma i / t i) (seq 0 (_nt o)) /\
    result_kept o o'.
Proof.
  intros t sigma. unfold estimator_store. mstep.
  destruct (foldM_store_run
              (fun (_ : unit) (i : nat) =>
                 let t := vget gNanValue truth i in
                 let te := vget gNanValue truthE i in
                 let u := vget gNanValue unfold i in
                 let ue := vget gNanValue unfoldE i in
                 if negb (Reqb t 0)
                 then
                   modify_cache (fun k => set_bias (vset (_bias k) i ((u - t) / t)) k) ;;
                   modify_cache (fun k =>
                     set_sigbias (vset (_sigbias k) i (sqrt (te * te + ue * ue) / t)) k)
                 else
                   modify_cache (fun k => set_bias (vset (_bias k) i (u - t)) k) ;;
                   modify_cache (fun k =>
                     set_sigbias (vset (_sigbias k) i (sqrt (te * te + ue * ue))) k))
              (fun i => if Reqb (t i) 0 then vget gNanValue unfold i - t i
                        else (vget gNanValue unfold i - t i) / t i)
              (fun i => if Reqb (t i) 0 then sigma i else sigma i / t i)
              (seq 0 (_nt o))
              (set_cache
                 (set_sigbias (vResizeTo (_nt o) (_sigbias (_cache o)))
                    (set_bias (vResizeTo (_nt o) (_bias (_cache o))) (_cache o))) o))
    as (o' & Hrun & Hb & Hs & Hk & _).
  { intros i s. cbv zeta. unfold t, sigma.
    destruct (Reqb (vget gNanValue truth i) 0); cbn [negb]; mstep; reflexivity. }
  exists o'. split; [exact Hrun|]. state_simpl_in Hb. state_simpl_in Hs.
  split; [rewrite Hb; apply fold_vset_map, vResizeTo_length|].
  split; [rewrite Hs; apply fold_vset_map, vResizeTo_length|].
  destruct Hk as (K1 & K2 & K3). repeat split; assumption.
Qed.

(** X23.  The estimator protocol of [CalculateBias].  With the result
    [unfold] and the errors [unfoldE] the factory returns, the bias of a bin
    is the deviation of the result from the truth, divided by the truth
    where the truth of the bin is not zero; the uncertainty is the quadratic
    sum of the truth error and the result error, divided by the truth in the
    same way.  The result of the object itself is not touched. *)
Theorem estimator_bias (vt : Strategy) (stack : nat) (ntoys : Z)
        (truth truthE : TVectorD) (toyFactory tf1 tf2 : RooUnfoldT)
        (unfold unfoldE : TVectorD) (o : RooUnfoldT) :
  Vunfold vt toyFactory = (Ok unfold, tf1) ->
  EunfoldV vt stack EunfoldV_default tf1 = (Ok unfoldE, tf2) ->
  let t := fun i => vget gNanValue truth i in
  let sigma := fun i => sqrt (vget gNanValue truthE i * vget gNanValue truthE i
                              + vget gNanValue unfoldE i * vget gNanValue unfoldE i) in
  exists o',
    bias_protocol vt stack kBiasEstimator ntoys truth truthE toyFactory o = (Ok tt, o') /\
    _bias (_cache o')
    = map (fun i => if Reqb (t i) 0 then vget gNanValue unfold i - t i
                    else (vget gNanValue unfold i - t i) / t i) (seq 0 (_nt o)) /\
    _sigbias (_cache o')
    = map (fun i => if Reqb (t i) 0 then sigma i else sigma i / t i) (seq 0 (_nt o)) /\
    result_kept o o'.
Proof.
  intros Hv He t sigma.
  destruct (estimator_store_run truth truthE unfold unfoldE o)
    as (o' & Hstore & Hb & Hs & Hk).
  exists o'. split.
  - unfold bias_protocol, bind, on. rewrite Hv, He. exact Hstore.
  - split; [exact Hb|]. split; [exact Hs | exact Hk].
Qed.

(** X24.  The aggregation of the Asimov protocol.  With the deviations
    [bias] that [RunBiasAsimovToys] returned on the factory, [n] of them, the
    bias of a bin is the mean of its deviations and the uncertainty is
    [sqrt (|sum2 - sum * mean| / (n - 1) / n)], [sum] and [sum2] being the
    sums of the deviations and of their squares; [n - 1] is computed without
    sign, and is the number of deviations less one as soon as there is
    one.  The truth handed to the protocol plays no part. *)
Theorem asimov_bias (vt : Strategy) (stack : nat) (ntoys : Z)
        (truth truthE : TVectorD) (toyFactory left : RooUnfoldT)
        (bias : list TVectorD) (o : RooUnfoldT) :
  RunBiasAsimovToys vt ntoys [] toyFactory = (Ok bias, left) ->
  let n := length bias in
  let sum := fun i => sum_upto n (fun j => vget gNanValue (nth j bias []) i) in
  let sum2 := fun i => sum_upto n (fun j => vget gNanValue (nth j bias []) i
                                            * vget gNanValue (nth j bias []) i) in
  let mean := fun i => sum i / size_t_to_double n in
  exists o',
    bias_protocol vt stack kBiasAsimov ntoys truth truthE toyFactory o = (Ok tt, o') /\
    _bias (_cache o') = map mean (seq 0 (_nt o)) /\
    _sigbias (_cache o')
    = map (fun i => sqrt (Rabs (sum2 i - sum i * mean i) / size_t_pred_to_double n
                          / size_t_to_double n))
          (seq 0 (_nt o)) /\
    ((1 <= n)%nat -> (Z.of_nat n <= 2 ^ 64)%Z ->
     size_t_pred_to_double n = INR n - 1).
Proof.
  intros Hrun n sum sum2 mean.
  destruct (asimov_store_run bias o) as (o' & Hstore & Hb & Hs).
  exists o'. split.
  - unfold bias_protocol, bind, on. rewrite Hrun. exact Hstore.
  - split; [exact Hb|]. split; [exact Hs|].
    intros Hn Hmax. unfold size_t_pred_to_double.
    rewrite Z.mod_small by lia.
    rewrite minus_IZR, <- INR_IZR_INZ. reflexivity.
Qed.

Lemma keeps_on {A} (obj : RooUnfoldT) (m : M A) : keeps (on obj m).
Proof.
  intros o. unfold on. destruct (m obj) as [[a|e] obj']; apply result_kept_refl.
Qed.

Lemma keeps_lift {A} (r : outcome A) : keeps (lift r).
Proof. intros o. apply result_kept_refl. Qed.

Lemma keeps_at {A} (v : list A) (i : nat) : keeps (at_ v i).
Proof. intros o. unfold at_. destruct (nth_error v i); apply result_kept_refl. Qed.

Lemma keeps_foldM {A B} (f : A -> B -> M A) (l : list B) (a : A) :
  (forall a b, keeps (f a b)) -> keeps (foldM f l a).
Proof.
  intros Hf. revert a. induction l as [|b l IH]; intros a; cbn [foldM].
  - apply keeps_ret.
  - apply keeps_bind; [apply Hf | intros a'; apply IH].
Qed.

Ltac keeps_more :=
  repeat first
    [ assumption
    | apply keeps_ret | apply keeps_throw | apply keeps_member
    | apply keeps_cached | apply keeps_this | apply keeps_deref
    | apply keeps_on | apply keeps_lift | apply keeps_at
    | apply keeps_modify_cache; intros; split; reflexivity
    | apply keeps_bind; [|intros ?]
    | apply keeps_foldM; intros ? ?
    | match goal with
      | |- keeps (if ?b then _ else _) => destruct b
      | |- keeps (match ?x with Some _ => _ | None => _ end) => destruct x
      | |- keeps (let '(_, _) := ?x in _) => destruct x
      | |- keeps (match ?x with (_, _) => _ end) => destruct x
      | |- keeps ((let '(_, _) := ?x in _) _) => destruct x
      end
    | progress cbv zeta ].

(** X26.  [CalculateBias] works on a toy factory of its own.  Whatever the
    protocol and however the call ends, the result vector of the object, its
    unfolded flag and the number of times its [Unfold()] has been entered
    are what they were (the [GetRegParm] of the algorithm being one that
    keeps them, as the one of the base class is). *)
Theorem CalculateBias_keeps_the_result (vt : Strategy) (stack : nat)
        (method : BiasMethod) (ntoys : Z) (hTrue : option Hist) (o : RooUnfoldT) :
  keeps (v_GetRegParm vt) ->
  result_kept o (snd (CalculateBias vt stack method ntoys hTrue o)) /\
  result_kept o (snd (CalculateBias_legacy vt stack ntoys hTrue o)).
Proof.
  intros Hg.
  assert (Hall : forall m n, keeps (CalculateBias vt stack m n hTrue)).
  { intros m n. unfold CalculateBias, response, GetAlgorithm, bias_protocol,
      estimator_store, closure_store, closure_pulls, asimov_store.
    destruct m; keeps_more. }
  split; [apply Hall|].
  unfold CalculateBias_legacy. destruct (Z.eqb ntoys 0); apply Hall.
Qed.

(** X25.  The bias is handed out only once it has been calculated.
    [Vbias] and [Ebias] throw a [runtime_error] as long as the cache holds no
    bias; once [CalculateBias] has returned they hand out the vectors it
    stored and leave the object as it is; after a reset of the cache they
    throw again. *)
Theorem bias_needs_CalculateBias (vt : Strategy) (stack : nat) (method : BiasMethod)
        (ntoys : Z) (hTrue : option Hist) (o o' : RooUnfoldT) :
  CalculateBias vt stack method ntoys hTrue o = (Ok tt, o') ->
  Vbias o' = (Ok (_bias (_cache o')), o') /\
  Ebias o' = (Ok (_sigbias (_cache o')), o') /\
  Vbias (snd (ClearCache o'))
  = (Raise (runtime_error "calculate bias before attempting to retrieve it!"),
     snd (ClearCache o')) /\
  Ebias (snd (ClearCache o'))
  = (Raise (runtime_error "calculate bias before attempting to retrieve it!"),
     snd (ClearCache o')).
Proof.
  intros H.
  assert (Hb : _haveBias (_cache o') = true).
  { unfold CalculateBias in H.
    repeat (apply bind_Ok_inv in H; destruct H as (? & ? & _ & H)).
    unfold modify_cache, modify in H. injection H as <-. reflexivity. }
  unfold Vbias, Ebias, ClearCache. rewrite reset_cache_run. cbn [snd].
  rewrite !bind_cached, Hb. state_simpl.
  change (_haveBias Cache_ctor) with false. repeat split; reflexivity.
Qed.

(** ** [CutZeros] *)

Lemma fold_collect (p : nat -> bool) (l acc : list nat) :
  fold_left (fun diags i => if p i then diags ++ [i] else diags) l acc
  = acc ++ filter p l.
Proof.
  revert acc. induction l as [|i l IH]; intros acc; cbn [fold_left filter].
  - rewrite app_nil_r. reflexivity.
  - rewrite IH. destruct (p i); [rewrite <- app_assoc|]; reflexivity.
Qed.

Lemma zero_rows_filter (ereco : TMatrixD) :
  zero_rows ereco
  = filter (fun d => Reqb (row_total ereco d) 0) (seq 0 (GetNrows ereco)).
Proof.
  unfold zero_rows.
  exact (fold_collect (fun d => Reqb (row_total ereco d) 0) (seq 0 (GetNrows ereco)) []).
Qed.

Lemma zero_rows_above_S (ereco : TMatrixD) (i : nat) :
  zero_rows_above ereco (S i)
  = (zero_rows_above ereco i + if Reqb (row_total ereco i) 0%R then 1 else 0)%nat.
Proof.
  unfold zero_rows_above. rewrite seq_S, filter_app, length_app. cbn [Nat.add filter].
  destruct (Reqb (row_total ereco i) 0); reflexivity.
Qed.

Lemma zero_rows_above_le (ereco : TMatrixD) (i : nat) :
  (zero_rows_above ereco i <= i)%nat.
Proof.
  induction i as [|i IH]; [apply Nat.le_refl|].
  rewrite zero_rows_above_S. destruct (Reqb (row_total ereco i) 0); lia.
Qed.

(** The rows kept above row [i] are fewer than those kept above a later
    row, as soon as row [i] itself is kept. *)
Lemma kept_above_lt (ereco : TMatrixD) (i a : nat) :
  (i < a)%nat -> Reqb (row_total ereco i) 0 = false ->
  (i - zero_rows_above ereco i < a - zero_rows_above ereco a)%nat.
Proof.
  intros Hia Hp. induction a as [|a IH]; [lia|].
  pose proof (zero_rows_above_le ereco a) as Hle.
  pose proof (zero_rows_above_le ereco i) as Hli.
  rewrite (zero_rows_above_S ereco a).
  destruct (Nat.eq_dec i a) as [->|Hne].
  - rewrite Hp. lia.
  - assert (Hlt : (i < a)%nat) by lia. specialize (IH Hlt).
    destruct (Reqb (row_total ereco a) 0); lia.
Qed.

Lemma kept_above_le (ereco : TMatrixD) (a n : nat) :
  (a <= n)%nat ->
  (a - zero_rows_above ereco a <= n - zero_rows_above ereco n)%nat.
Proof.
  intros Han. induction n as [|n IH].
  - replace a with O by lia. apply Nat.le_refl.
  - destruct (Nat.eq_dec a (S n)) as [->|Hne]; [apply Nat.le_refl|].
    assert (H : (a <= n)%nat) by lia. specialize (IH H).
    pose proof (zero_rows_above_le ereco n) as Hle.
    rewrite (zero_rows_above_S ereco n).
    destruct (Reqb (row_total ereco n) 0); lia.
Qed.

(** The test of the second loop: the next row to skip is row [a] exactly
    when the entries of row [a] sum to zero. *)
Lemma next_zero_row (ereco : TMatrixD) (a : nat) :
  (a < GetNrows ereco)%nat ->
  match nth_error (zero_rows ereco) (zero_rows_above ereco a) with
  | Some d => Nat.eqb d a
  | None => false
  end = Reqb (row_total ereco a) 0.
Proof.
  intros Ha. rewrite zero_rows_filter. unfold zero_rows_above.
  set (p := fun d => Reqb (row_total ereco d) 0).
  replace (GetNrows ereco) with (a + S (GetNrows ereco - S a))%nat by lia.
  rewrite seq_app, filter_app. cbn [Nat.add seq filter].
  rewrite nth_error_app2 by apply Nat.le_refl.
  rewrite Nat.sub_diag. fold (p a).
  destruct (p a) eqn:E.
  - cbn [nth_error]. apply Nat.eqb_refl.
  - destruct (filter p (seq (S a) (GetNrows ereco - S a))) as [|d l] eqn:El;
      cbn [nth_error]; [reflexivity|].
    assert (Hin : In d (filter p (seq (S a) (GetNrows ereco - S a))))
      by (rewrite El; left; reflexivity).
    apply filter_In in Hin. destruct Hin as [Hin _]. apply in_seq in Hin.
    apply Nat.eqb_neq. lia.
Qed.

Section Cut.

Variable ereco : TMatrixD.
Variables x y : nat.

(** What the second loop has written when the rows below [a] are done. *)
Lemma cut_rows_inv (a : nat) :
  (a <= GetNrows ereco)%nat ->
  (GetNrows ereco - zero_rows_above ereco (GetNrows ereco) <= x)%nat ->
  let st := fold_left (cut_row ereco (zero_rows ereco) y) (seq 0 a)
                      (O, TMatrixD_nk x y) in
  fst st = zero_rows_above ereco a /\
  rect x y (snd st) /\
  forall i j, (i < a)%nat -> (j < y)%nat ->
    Reqb (row_total ereco i) 0 = false ->
    mget gNanValue (snd st) (i - zero_rows_above ereco i) j
    = mget gNanValue ereco i (j + zero_rows_above ereco i).
Proof.
  intros Ha Hx. induction a as [|a IH]; cbv zeta.
  - cbn [seq fold_left fst snd]. split; [reflexivity|].
    split; [apply rect_TMatrixD_nk|]. intros i j Hi. lia.
  - assert (Ha' : (a <= GetNrows ereco)%nat) by lia.
    specialize (IH Ha'). cbv zeta in IH.
    rewrite seq_S, fold_left_app. cbn [Nat.add fold_left].
    destruct (fold_left (cut_row ereco (zero_rows ereco) y) (seq 0 a)
                        (O, TMatrixD_nk x y)) as [v cut] eqn:E.
    cbn [fst snd] in IH. destruct IH as (Hv & Hr & Hget). subst v.
    unfold cut_row. rewrite (next_zero_row ereco a) by lia.
    rewrite zero_rows_above_S.
    destruct (Reqb (row_total ereco a) 0) eqn:Ep; cbn [fst snd].
    + split; [lia|]. split; [exact Hr|].
      intros i j Hi Hj Hpi.
      destruct (Nat.eq_dec i a) as [->|Hne]; [congruence|].
      apply Hget; [lia | exact Hj | exact Hpi].
    + split; [lia|].
      destruct (fold_mset_row_get gNanValue
                  (fun j => mget gNanValue ereco a (j + zero_rows_above ereco a))
                  x y (a - zero_rows_above ereco a) (seq 0 y) cut Hr) as [Hr' Hrow].
      split; [exact Hr'|].
      intros i j Hi Hj Hpi.
      assert (Hin : (a - zero_rows_above ereco a < x)%nat).
      { pose proof (kept_above_lt ereco a (S a) (Nat.lt_succ_diag_r a) Ep) as H1.
        pose proof (kept_above_le ereco (S a) (GetNrows ereco) Ha) as H2. lia. }
      destruct (Nat.eq_dec i a) as [->|Hne].
      * rewrite (Hrow _ j Hin Hj), Nat.eqb_refl, existsb_seq by exact Hj.
        reflexivity.
      * assert (Hlt : (i < a)%nat) by lia.
        pose proof (kept_above_lt ereco i a Hlt Hpi) as Hk.
        rewrite (Hrow _ j (Nat.lt_trans _ _ _ Hk Hin) Hj).
        assert (Hneq : Nat.eqb (i - zero_rows_above ereco i)
                               (a - zero_rows_above ereco a) = false)
          by (apply Nat.eqb_neq; lia).
        rewrite Hneq. cbn [andb]. apply Hget; assumption.
Qed.

End Cut.

Lemma zero_rows_length (ereco : TMatrixD) :
  length (zero_rows ereco) = zero_rows_above ereco (GetNrows ereco).
Proof. rewrite zero_rows_filter. reflexivity. Qed.

(** [CutZeros] on a matrix of [n] rows and [k] columns that has no more
    zero rows than columns. *)
Lemma CutZeros_run (n k : nat) (ereco : TMatrixD) :
  rect n k ereco ->
  (zero_rows_above ereco n <= k)%nat ->
  let m := zero_rows_above ereco n in
  exists cut,
    CutZeros ereco = Ok cut /\
    rect (n - m) (k - m) cut /\
    forall i j, (i < n)%nat -> (j < k - m)%nat ->
      Reqb (row_total ereco i) 0 = false ->
      mget gNanValue cut (i - zero_rows_above ereco i) j
      = mget gNanValue ereco i (j + zero_rows_above ereco i).
Proof.
  intros Hr Hmk m.
  assert (Hn : GetNrows ereco = n) by (destruct Hr as [Hn _]; exact Hn).
  destruct ereco as [|row rest].
  - cbn in Hn. subst n. exists []. split; [reflexivity|].
    split; [split; [reflexivity | constructor]|]. intros i j Hi. lia.
  - assert (Hk : GetNcols (row :: rest) = k)
      by (destruct Hr as [_ Hrows]; inversion Hrows; assumption).
    assert (Hc : Nat.ltb k m = false) by (apply Nat.ltb_ge; exact Hmk).
    unfold CutZeros. rewrite zero_rows_length, Hn, Hk. fold m. rewrite Hc.
    destruct (cut_rows_inv (row :: rest) (n - m) (k - m) n) as (_ & Hrect & Hget);
      [lia | rewrite Hn; fold m; lia |].
    eexists. split; [reflexivity|]. split; [exact Hrect|]. exact Hget.
Qed.

(** X27.  [CutZeros] on a square matrix.  The rows whose entries sum to
    exactly zero are dropped, and as many columns: the matrix returned is
    square with one row and one column less per row dropped.  A row that is
    kept moves up by the number of rows dropped above it, and its entries
    are taken from the columns shifted to the right by that same number. *)
Theorem CutZeros_drops_zero_rows (n : nat) (ereco : TMatrixD) :
  rect n n ereco ->
  let m := zero_rows_above ereco n in
  exists cut,
    CutZeros ereco = Ok cut /\
    rect (n - m) (n - m) cut /\
    forall i j, (i < n)%nat -> (j < n - m)%nat ->
      row_total ereco i <> 0 ->
      mget gNanValue cut (i - zero_rows_above ereco i) j
      = mget gNanValue ereco i (j + zero_rows_above ereco i).
Proof.
  intros Hr m.
  destruct (CutZeros_run n n ereco Hr (zero_rows_above_le ereco n))
    as (cut & Hrun & Hrect & Hget).
  exists cut. split; [exact Hrun|]. split; [exact Hrect|].
  intros i j Hi Hj Hnz. apply Hget; [exact Hi | exact Hj |].
  apply Reqb_false. exact Hnz.
Qed.

Lemma rect_ext (nan : Double_t) (n k : nat) (a b : TMatrixD) :
  rect n k a -> rect n k b ->
  (forall i j, (i < n)%nat -> (j < k)%nat -> mget nan a i j = mget nan b i j) ->
  a = b.
Proof.
  intros Ha Hb H.
  apply (nth_ext a b [] []);
    [exact (eq_trans (proj1 Ha) (eq_sym (proj1 Hb)))|].
  intros i Hi. destruct Ha as [Hla Hra]. rewrite Hla in Hi.
  assert (Hia : length (nth i a []) = k)
    by (apply (rect_nth n k a i (conj Hla Hra) Hi)).
  assert (Hib : length (nth i b []) = k) by (apply (rect_nth n k b i Hb Hi)).
  apply (nth_ext _ _ 0 0); [exact (eq_trans Hia (eq_sym Hib))|].
  intros j Hj.
  assert (Hj' : (j < k)%nat) by exact (eq_ind _ (fun x => (j < x)%nat) Hj _ Hia).
  clear Hj. rename Hj' into Hj.
  specialize (H i j Hi Hj). unfold mget in H.
  rewrite (in_range_rect n k a i j (conj Hla Hra)), (in_range_rect n k b i j Hb) in H.
  apply Nat.ltb_lt in Hi. apply Nat.ltb_lt in Hj. rewrite Hi, Hj in H. exact H.
Qed.

Lemma zero_rows_above_none (ereco : TMatrixD) (n i : nat) :
  (forall d, (d < n)%nat -> Reqb (row_total ereco d) 0 = false) ->
  (i <= n)%nat -> zero_rows_above ereco i = O.
Proof.
  intros H Hi. induction i as [|i IH]; [reflexivity|].
  rewrite zero_rows_above_S, IH by lia. rewrite (H i) by lia. reflexivity.
Qed.

Lemma zero_rows_above_all (ereco : TMatrixD) (n i : nat) :
  (forall d, (d < n)%nat -> Reqb (row_total ereco d) 0 = true) ->
  (i <= n)%nat -> zero_rows_above ereco i = i.
Proof.
  intros H Hi. induction i as [|i IH]; [reflexivity|].
  rewrite zero_rows_above_S, IH by lia. rewrite (H i) by lia. lia.
Qed.

(** X28.  [CutZeros] at the two ends.  A square matrix none of whose rows
    sums to zero is returned as it is; a square matrix all of whose rows sum
    to zero is cut down to the empty matrix. *)
Theorem CutZeros_nothing_or_all (n : nat) (ereco : TMatrixD) :
  rect n n ereco ->
  ((forall d, (d < n)%nat -> row_total ereco d <> 0) -> CutZeros ereco = Ok ereco) /\
  ((forall d, (d < n)%nat -> row_total ereco d = 0) -> CutZeros ereco = Ok []).
Proof.
  intros Hr.
  destruct (CutZeros_run n n ereco Hr (zero_rows_above_le ereco n))
    as (cut & Hrun & Hrect & Hget). cbv zeta in Hrect, Hget.
  split.
  - intros Hnz.
    assert (Hp : forall d, (d < n)%nat -> Reqb (row_total ereco d) 0 = false)
      by (intros d Hd; apply Reqb_false, Hnz, Hd).
    rewrite Hrun. f_equal.
    rewrite (zero_rows_above_none ereco n n Hp (Nat.le_refl n)), Nat.sub_0_r in *.
    apply (rect_ext gNanValue n n cut ereco Hrect Hr).
    intros i j Hi Hj. specialize (Hget i j Hi Hj (Hp i Hi)).
    rewrite (zero_rows_above_none ereco n i Hp) in Hget by lia.
    rewrite Nat.sub_0_r, Nat.add_0_r in Hget. exact Hget.
  - intros Hz.
    assert (Hp : forall d, (d < n)%nat -> Reqb (row_total ereco d) 0 = true)
      by (intros d Hd; apply Reqb_true, Hz, Hd).
    rewrite Hrun. f_equal.
    rewrite (zero_rows_above_all ereco n n Hp (Nat.le_refl n)), Nat.sub_diag in Hrect.
    destruct Hrect as [Hl _]. destruct cut; [reflexivity | discriminate Hl].
Qed.

(** ** The overloads of [SetMeasured] *)

Lemma Rltb_irrefl (x : Double_t) : Rltb x x = false.
Proof. unfold Rltb. destruct (Rlt_dec x x) as [H|H]; [|reflexivity]. lra. Qed.

(** The errors [Emeasured] derives from the covariance of a cache that was
    just constructed. *)
Lemma fresh_cov_errors (l : list nat) (eMes : TVectorD) :
  Rltb 0 gNanValue = false ->
  fold_left (fun eMes i =>
               let e := mget gNanValue (_cov Cache_ctor) i i in
               if Rltb 0 e then vset eMes i (sqrt e) else eMes) l eMes
  = eMes.
Proof.
  intros Hnan. revert eMes. induction l as [|i l IH]; intros eMes; [reflexivity|].
  cbn [fold_left]. cbv zeta in *.
  assert (Hstep : Rltb 0 (mget gNanValue (_cov Cache_ctor) i i) = false).
  { destruct i as [|i].
    - change (mget gNanValue (_cov Cache_ctor) 0 0) with (0 : Double_t).
      apply Rltb_irrefl.
    - change (mget gNanValue (_cov Cache_ctor) (S i) (S i)) with gNanValue.
      exact Hnan. }
  rewrite Hstep. apply IH.
Qed.

Section Measured_overloads.

Context {H : Histograms}.

(** X29.  [SetMeasured (meas, cov)] stores the covariance matrix and a new
    measured histogram made from [meas], and [GetMeasuredCov] then returns
    [cov].  The errors it hands on are computed right after the cache was
    reset, from the covariance of the new cache and not from [cov]: where
    the library's out-of-range value does not compare greater than zero (as
    a NaN does not), the measured errors the object keeps are all zero,
    whatever [cov] holds. *)
Theorem SetMeasured_cov_keeps_zero_errors (meas : TVectorD) (cov : TMatrixD)
        (o : RooUnfoldT) (r : Response) :
  _res o = Some r ->
  Rltb 0 gNanValue = false ->
  exists o1,
    SetMeasured_cov meas cov o = (Ok tt, o1) /\
    _meas o1 = Some (createHist meas (Hmeasured r)) /\
    _covMes o1 = Some cov /\
    GetMeasuredCov o1 = (Ok cov, o1) /\
    Emeasured o1 = (Ok (TVectorD_n (_nm o)), o1).
Proof.
  intros Hr Hnan.
  unfold SetMeasured_cov, SetMeasuredCov, reset_cache, Emeasured,
    SetMeasured_errors, response.
  mstep. rewrite Cache_assign_ctor.
  change (_eMes Cache_ctor) with (@None TVectorD). cbv beta iota. mstep.
  rewrite (fresh_cov_errors _ _ Hnan). rewrite Hr. cbn [deref]. mstep.
  eexists. split; [reflexivity|]. state_simpl.
  split; [reflexivity|]. split; [reflexivity|]. split; reflexivity.
Qed.

(** X30.  [SetMeasured (meas, err)] replaces the measured histogram by one
    made from [meas] on the variable of the response's measured histogram.
    The errors given are not used, and the cache is left as it is: a
    measured vector that was read before is still the one [Vmeasured]
    returns. *)
Theorem SetMeasured_errors_keeps_the_cache (meas err : TVectorD)
        (o : RooUnfoldT) (r : Response) :
  _res o = Some r ->
  exists o1,
    SetMeasured_errors meas err o = (Ok tt, o1) /\
    _meas o1 = Some (createHist meas (Hmeasured r)) /\
    _cache o1 = _cache o /\
    (forall err', SetMeasured_errors meas err' o = (Ok tt, o1)) /\
    (forall v, _vMes (_cache o) = Some v -> Vmeasured o1 = (Ok v, o1)).
Proof.
  intros Hr.
  assert (Hrun : forall e, SetMeasured_errors meas e o
                           = (Ok tt, set_meas (Some (createHist meas (Hmeasured r))) o)).
  { intros e. unfold SetMeasured_errors, response. mstep. rewrite Hr.
    cbn [deref]. mstep. reflexivity. }
  eexists. split; [apply Hrun|]. split; [reflexivity|]. split; [reflexivity|].
  split; [exact Hrun|].
  intros v Hv. unfold Vmeasured. rewrite bind_cached. state_simpl.
  rewrite Hv. reflexivity.
Qed.

End Measured_overloads.

End Properties.

(** [cache_reset_leaves_fresh_cache] on an object that has unfolded and
    computed errors: a second [Setup], a change of the systematics policy,
    and the change of the error treatment to [kNoError]. *)
Lemma cache_reset_leaves_fresh_cache_witness :
  let o := snd (UnfoldWithErrors (X:=X0) RooUnfoldT_vtable 1 kErrors false
                                 (after_Setup (X:=X0) (Some response3) (Some hist3))) in
  (_unfolded (_cache o) = true /\ _haveCov (_cache o) = true) /\
  fresh (_cache (snd (Setup (X:=X0) GetSettings (Some response2) (Some hist2) o))) /\
  fresh (_cache (snd (IncludeSystematics (X:=X0) kAll o))) /\
  exists o1,
    UnfoldWithErrors (X:=X0) RooUnfoldT_vtable 1 kNoError false o = (Ok true, o1) /\
    _haveErrors (_cache o1) = false /\ _haveCov (_cache o1) = true /\
    _rec (_cache o1) = [10; 20; 30].
Proof.
  intros o.
  destruct (cache_reset_leaves_fresh_cache (X:=X0) o)
    as (HSetup & _ & _ & _ & HSys & _ & _ & Htreat).
  split; [split; reflexivity|]. split; [|split].
  - apply (HSetup GetSettings (Some response2) (Some hist2)). reflexivity.
  - apply HSys. discriminate.
  - destruct (Htreat RooUnfoldT_vtable 1%nat kNoError false (or_introl eq_refl) eq_refl)
      as (o1 & Hrun & _ & Hc).
    exists o1. split; [exact Hrun|].
    rewrite Hc. split; [|split]; vm_compute; reflexivity.
Defined.

(** C2 as stated fails for a change of the error treatment and for the
    rebinding of the measured input by vectors.  The two-bin object has
    unfolded with the covariance.  Asking then for the treatment [kNoError]
    changes the treatment and leaves the unfolded flag, the covariance flag
    and the result [10; 20] in the cache.  Rebinding the measured input with
    [SetMeasured (meas, err)] replaces the measured histogram and leaves the
    cache as it was, the result of the old input included. *)
Lemma cache_survives_treatment_change_and_vector_rebinding :
  let o := snd (UnfoldWithErrors (X:=X0) RooUnfoldT_vtable 1 kCovariance false
                  (after_Setup (X:=X0) (Some response2) (Some hist2))) in
  let o1 := snd (UnfoldWithErrors (X:=X0) RooUnfoldT_vtable 1 kNoError false o) in
  let o2 := snd (SetMeasured_errors (X:=X0) [1; 2] [0; 0] o) in
  (_withError o = kCovariance /\ _withError o1 = kNoError /\
   ~ fresh (_cache o1) /\
   _unfolded (_cache o1) = true /\ _haveCov (_cache o1) = true /\
   _rec (_cache o1) = [10; 20]) /\
  (_meas o = Some hist2 /\ _meas o2 = Some ([1; 2], [0; 0]) /\
   ~ fresh (_cache o2) /\
   _unfolded (_cache o2) = true /\ _haveCov (_cache o2) = true /\
   _rec (_cache o2) = [10; 20]).
Proof.
  intros o o1 o2.
  assert (H1 : _unfolded (_cache o1) = true) by (vm_compute; reflexivity).
  assert (H2 : _unfolded (_cache o2) = true) by (vm_compute; reflexivity).
  split.
  - split; [vm_compute; reflexivity|]. split; [vm_compute; reflexivity|].
    split; [intros (Hu & _); rewrite H1 in Hu; discriminate Hu|].
    split; [exact H1|]. split; vm_compute; reflexivity.
  - split; [vm_compute; reflexivity|]. split; [vm_compute; reflexivity|].
    split; [intros (Hu & _); rewrite H2 in Hu; discriminate Hu|].
    split; [exact H2|]. split; vm_compute; reflexivity.
Qed.

(** [EunfoldV_nonneg] on the three-bin object with bin errors 1, 2 and 3. *)
Lemma EunfoldV_nonneg_witness :
  let o := after_Setup (X:=X0) (Some response3) (Some hist3) in
  exists v,
    fst (EunfoldV (X:=X0) RooUnfoldT_vtable 1 kErrors o) = Ok v /\
    v = [sqrt (Rabs (1 * 1)); sqrt (Rabs (2 * 2)); sqrt (Rabs (3 * 3))] /\
    Forall (fun x => 0 <= x) v.
Proof.
  intros o.
  set (o1 := snd (UnfoldWithErrors (X:=X0) RooUnfoldT_vtable 1 kErrors false o)).
  assert (H1 : UnfoldWithErrors (X:=X0) RooUnfoldT_vtable 1 kErrors false o
               = (Ok true, o1)) by (vm_compute; reflexivity).
  assert (H2 : _nt o1 = _nt o) by (vm_compute; reflexivity).
  assert (H3 : true = true -> kErrors <> kDefault) by discriminate.
  destruct (EunfoldV_nonneg (X:=X0) RooUnfoldT_vtable 1 kErrors o o1 true H1 H2 H3)
    as (v & Hrun & _ & Hnn & Hv & _).
  exists v. split; [rewrite Hrun; reflexivity|].
  split; [|exact Hnn].
  rewrite (Hv eq_refl). vm_compute. reflexivity.
Defined.


(** C1, evaluated.  A three-bin object whose [Unfold()] fails: the first
    [UnfoldWithErrors] enters [Unfold()] once, sets the fail flag and returns
    [false]; a second [UnfoldWithErrors] and a [Vunfold] in the same cache
    generation do not enter [Unfold()] again and the former returns [false].
    The vector [Vunfold] hands out is the one-entry vector of the reset
    cache, not a vector of the three truth bins: the resize in [Vunfold] is
    guarded by [GetNrows() == 0], and [Cache::Cache()] builds [_rec(1)]. *)
Theorem Vunfold_after_failure_is_not_truth_length :
  let o0 := after_Setup (X:=X0) (Some response3) (Some hist3) in
  let r1 := UnfoldWithErrors (X:=X0) failing_vtable 1 kErrors false o0 in
  let r2 := UnfoldWithErrors (X:=X0) failing_vtable 1 kErrors false (snd r1) in
  let r3 := Vunfold (X:=X0) failing_vtable (snd r2) in
  _nt o0 = 3%nat /\
  fst r1 = Ok false /\ _fail (_cache (snd r1)) = true /\
  Unfold_calls (snd r1) = 1%nat /\
  fst r2 = Ok false /\ Unfold_calls (snd r2) = 1%nat /\
  fst r3 = Ok [0] /\ Unfold_calls (snd r3) = 1%nat /\
  _nt (snd r3) = 3%nat.
Proof. vm_compute. repeat split; reflexivity. Qed.

(** The four branches of [InvertMatrix_status] on SVD doubles. *)
Lemma InvertMatrix_status_witness :
  fst (InvertMatrix (X:=X_svd 1 false) [[2]] [[0]] 0) = 0%Z /\
  fst (InvertMatrix (X:=X_svd (-1) true) [[2]] [[0]] 0) = 2%Z /\
  fst (InvertMatrix (X:=X_svd 1e18 true) [[2]] [[0]] 0) = 3%Z /\
  fst (InvertMatrix (X:=X_svd 5 true) [[2]] [[0]] 0) = 1%Z.
Proof.
  split; [|split; [|split]].
  - apply (InvertMatrix_status (X:=X_svd 1 false) [[2]] [[0]] 0). reflexivity.
  - apply (InvertMatrix_status (X:=X_svd (-1) true) [[2]] [[0]] 0).
    + reflexivity.
    + simpl. lra.
  - apply (InvertMatrix_status (X:=X_svd 1e18 true) [[2]] [[0]] 0).
    + reflexivity.
    + simpl. lra.
  - apply (InvertMatrix_status (X:=X_svd 5 true) [[2]] [[0]] 0).
    + reflexivity.
    + simpl. lra.
Defined.


(** A failure that is thrown is not a failure that is reported: with the
    base-class algorithm the fit-error treatment reaches the [throw] of
    [GetErrorsCovariance], and the exception passes through [Chi2]. *)
Lemma Chi2_base_kRooFit_throws :
  fst (Chi2 (X:=X0) RooUnfoldT_vtable 1 (Some hist3) kRooFit
            (after_Setup (X:=X0) (Some response3) (Some hist3)))
  = Raise (runtime_error "unknown error propagation method!").
Proof. vm_compute. reflexivity. Qed.

(** C5, evaluated.  A two-bin object with two toys configured asks for the
    toy covariance.  [GetErrMat] resizes [_err_mat] to two by two, but every
    [RunToy] resets the cache, so the entries are written into the
    one-by-one matrix of the reset cache: the call succeeds and sets the
    validity flag, yet only entry (0,0) exists. *)
Theorem GetErrMat_leaves_one_by_one :
  let o := snd (SetNToys 2 (after_Setup (X:=X0) (Some response2) (Some hist2))) in
  let r := UnfoldWithErrors (X:=X0) RooUnfoldT_vtable 1 kCovToy false o in
  _nt o = 2%nat /\ _NToys o = 2%Z /\
  fst r = Ok true /\
  _have_err_mat (_cache (snd r)) = true /\
  GetNrows (_err_mat (_cache (snd r))) = 1%nat /\
  GetNcols (_err_mat (_cache (snd r))) = 1%nat.
Proof. vm_compute. repeat split; reflexivity. Qed.

(** C3 as stated fails for the toy covariance.  A two-bin object with two
    toys configured has unfolded under the diagonal treatment; asking for the
    toy covariance then runs [Unfold()] on the toys and leaves the cache
    reset: the result vector is gone and the unfolded flag is false. *)
Lemma UnfoldWithErrors_kCovToy_discards_result :
  let o := snd (UnfoldWithErrors (X:=X0) RooUnfoldT_vtable 1 kErrors false
                  (snd (SetNToys 2 (after_Setup (X:=X0) (Some response2) (Some hist2))))) in
  _unfolded (_cache o) = true /\
  ~ (forall t, t <> _withError o ->
               result_kept o (snd (UnfoldWithErrors (X:=X0) RooUnfoldT_vtable 1 t false o))).
Proof.
  intros o. split; [vm_compute; reflexivity|].
  intros H. specialize (H kCovToy).
  assert (Hne : kCovToy <> _withError o) by (vm_compute; discriminate).
  destruct (H Hne) as (_ & Hu & _).
  vm_compute in Hu. discriminate Hu.
Qed.

(** [UnfoldWithErrors_new_treatment] on the two-bin object: after the
    diagonal treatment, the full covariance is asked for. *)
Lemma UnfoldWithErrors_new_treatment_witness :
  let o := snd (UnfoldWithErrors (X:=X0) RooUnfoldT_vtable 1 kErrors false
                  (after_Setup (X:=X0) (Some response2) (Some hist2))) in
  result_kept o (snd (UnfoldWithErrors (X:=X0) RooUnfoldT_vtable 1 kCovariance false o)).
Proof.
  intros o.
  assert (Hu : _unfolded (_cache o) = true) by (vm_compute; reflexivity).
  assert (Ht : kCovariance <> _withError o) by (vm_compute; discriminate).
  assert (Hn : kCovariance <> kCovToy) by discriminate.
  apply (UnfoldWithErrors_new_treatment (X:=X0) RooUnfoldT_vtable 1 kCovariance false o
           Hu Ht Hn
           (keeps_GetErrors (X:=X0) GetCov (keeps_GetCov (X:=X0)))
           (keeps_GetCov (X:=X0))
           (keeps_GetWgt (X:=X0) GetCov (keeps_GetCov (X:=X0)))).
Defined.



(** C6, evaluated.  The one-bin object has truth 4; two outer and two inner
    Asimov toys are asked for.  The inner toys are 4+2 and 4+3 for the first
    outer toy, 4+5 and 4+6 for the second.  The code enters [Unfold()] only
    twice: [Vunfold] is lazy and the inner loop does not invalidate the
    cache, so the second inner toy of each outer toy hands out the result of
    the first.  What is recorded is the difference [truth - unfolded], not a
    relative deviation.  The bias stored is (-2 -2 -5 -5)/4 = -7/2; the mean
    of the four relative deviations of the toys from the truth 4 is -1. *)
Theorem asimov_bias_is_absolute_and_reuses_unfold :
  let o := after_Setup (X:=X0) (Some response1) (Some hist1) in
  let toyFactory := set_verbose 0%Z (set_alg kNone o) in
  let toys := RunBiasAsimovToys (X:=X0) RooUnfoldT_vtable 2 [] toyFactory in
  fst toys = Ok [[4 - (4 + INR 2)]; [4 - (4 + INR 2)];
                 [4 - (4 + INR 5)]; [4 - (4 + INR 5)]] /\
  Unfold_calls (snd toys) = 2%nat /\
  _bias (_cache (snd (CalculateBias (X:=X0) RooUnfoldT_vtable 1 kBiasAsimov 2 None o)))
  = [- 7 / 2] /\
  ((4 - (4 + 2)) / 4 + (4 - (4 + 3)) / 4 + (4 - (4 + 5)) / 4 + (4 - (4 + 6)) / 4) / 4
  = - 1.
Proof.
  intros o toyFactory toys.
  split; [vm_compute; reflexivity|].
  split; [vm_compute; reflexivity|].
  split; [|lra].
  assert (Hcb : CalculateBias (X:=X0) RooUnfoldT_vtable 1 kBiasAsimov 2 None o
                = (bias_protocol (X:=X0) RooUnfoldT_vtable 1 kBiasAsimov 2 [4] [0]
                     toyFactory ;;
                   modify_cache (set_haveBias true)) o)
    by (apply (CalculateBias_base (X:=X0) 1 kBiasAsimov 2 None o response1 hist1);
        [reflexivity | reflexivity | vm_compute; discriminate]).
  rewrite Hcb.
  assert (E : _bias (_cache (snd ((bias_protocol (X:=X0) RooUnfoldT_vtable 1 kBiasAsimov
                                     2 [4] [0] toyFactory ;;
                                   modify_cache (set_haveBias true)) o)))
              = [(0 + (4 - (4 + INR 2)) + (4 - (4 + INR 2))
                  + (4 - (4 + INR 5)) + (4 - (4 + INR 5))) / INR 4])
    by (vm_compute; reflexivity).
  rewrite E. f_equal.
  replace (INR 2) with 2 by (cbn; lra).
  replace (INR 5) with 5 by (cbn; lra).
  replace (INR 4) with 4 by (cbn; lra).
  lra.
Qed.

(** [Assign_copies_setup]: the two-bin object is assigned the three-bin
    object. *)
Lemma Assign_copies_setup_witness :
  let rhs := snd (SetNToys 7 (after_Setup (X:=X0) (Some response3) (Some hist3))) in
  let o := after_Setup (X:=X0) (Some response2) (Some hist2) in
  exists o',
    Assign (X:=X0) GetSettings (another rhs) o = (Ok tt, o') /\
    _meas o' = Some hist3 /\ _NToys o' = 7%Z /\ _nm o' = 3%nat.
Proof.
  intros rhs o.
  destruct (Assign_copies_setup (X:=X0) rhs o response3 eq_refl)
    as (_ & (o' & Hrun & _ & Hm & _ & Ht & Hnm & _) & _).
  exists o'. split; [exact Hrun|]. split; [rewrite Hm; reflexivity|].
  split; [rewrite Ht; reflexivity|]. rewrite Hnm. reflexivity.
Defined.

(** [Vmeasured_reads_once] on the three-bin object. *)
Lemma Vmeasured_reads_once_witness :
  let o := after_Setup (X:=X0) (Some response3) (Some hist3) in
  exists o1,
    Vmeasured (X:=X0) o = (Ok [10; 20; 30], o1) /\
    Vmeasured (X:=X0) o1 = (Ok [10; 20; 30], o1).
Proof.
  intros o.
  destruct (Vmeasured_reads_once (X:=X0) o response3 hist3 eq_refl eq_refl eq_refl)
    as (o1 & H1 & _ & H2 & _).
  exists o1. split; [exact H1 | exact H2].
Defined.

(** [GetMeasuredCov_from_errors] on the three-bin object with bin errors 1,
    2 and 3. *)
Lemma GetMeasuredCov_from_errors_witness :
  let o := after_Setup (X:=X0) (Some response3) (Some hist3) in
  exists c,
    fst (GetMeasuredCov (X:=X0) o) = Ok c /\
    mget 0 c 1 1 = 2 * 2 /\ mget 0 c 2 2 = 3 * 3 /\ mget 0 c 1 2 = 0.
Proof.
  intros o.
  destruct (GetMeasuredCov_from_errors (X:=X0) o response3 hist3
              eq_refl eq_refl eq_refl eq_refl)
    as (c & o1 & Hrun & _ & _ & Hget).
  assert (H3 : forall i, (i < 3)%nat -> (i < _nm o)%nat) by (intros i Hi; exact Hi).
  exists c. split; [rewrite Hrun; reflexivity|].
  split; [exact (Hget 1%nat 1%nat (H3 1%nat ltac:(lia)) (H3 1%nat ltac:(lia)))|].
  split; [exact (Hget 2%nat 2%nat (H3 2%nat ltac:(lia)) (H3 2%nat ltac:(lia)))|].
  exact (Hget 1%nat 2%nat (H3 1%nat ltac:(lia)) (H3 2%nat ltac:(lia))).
Defined.

(** [Unfold_copies_measured] on the three-bin object. *)
Lemma Unfold_copies_measured_witness :
  let o := after_Setup (X:=X0) (Some response3) (Some hist3) in
  exists o1,
    Unfold (X:=X0) o = (Ok tt, o1) /\
    length (_rec (_cache o1)) = 3%nat /\
    vget 0 (_rec (_cache o1)) 0 = 10 /\ vget 0 (_rec (_cache o1)) 2 = 30.
Proof.
  intros o.
  destruct (Unfold_copies_measured (X:=X0) o response3 hist3 eq_refl eq_refl)
    as (o1 & Hrun & _ & Hlen & _ & Hget).
  assert (H3 : forall i, (i < 3)%nat -> (i < _nt o)%nat) by (intros i Hi; exact Hi).
  exists o1. split; [exact Hrun|]. split; [exact Hlen|].
  split; [exact (Hget 0%nat (H3 0%nat ltac:(lia)))
         | exact (Hget 2%nat (H3 2%nat ltac:(lia)))].
Defined.

(** [dummy_covariance_is_measured_covariance] on the two-bin object with
    the measured covariance [[4; 1]; [1; 9]]. *)
Lemma dummy_covariance_is_measured_covariance_witness :
  let o := snd (SetMeasuredCov (X:=X0) cov2
                  (after_Setup (X:=X0) (Some response2) (Some hist2))) in
  exists E,
    fst (Eunfold (X:=X0) RooUnfoldT_vtable 1 kCovariance o) = Ok E /\
    mget 0 E 0 0 = 4 /\ mget 0 E 0 1 = 1 /\ mget 0 E 1 1 = 9.
Proof.
  intros o.
  destruct (dummy_covariance_is_measured_covariance (X:=X0) 1 o response2 hist2 cov2
              eq_refl eq_refl eq_refl eq_refl)
    as (E & o1 & Hrun & _ & Hget).
  assert (H2 : forall i, (i < 2)%nat -> (i < _nt o)%nat) by (intros i Hi; exact Hi).
  exists E. split; [rewrite Hrun; reflexivity|].
  split; [exact (Hget 0%nat 0%nat (H2 0%nat ltac:(lia)) (H2 0%nat ltac:(lia)))|].
  split; [exact (Hget 0%nat 1%nat (H2 0%nat ltac:(lia)) (H2 1%nat ltac:(lia)))|].
  exact (Hget 1%nat 1%nat (H2 1%nat ltac:(lia)) (H2 1%nat ltac:(lia))).
Defined.

(** [dummy_errors_are_measured_errors] on the three-bin object with bin
    errors 1, 2 and 3. *)
Lemma dummy_errors_are_measured_errors_witness :
  let o := after_Setup (X:=X0) (Some response3) (Some hist3) in
  exists v,
    fst (EunfoldV (X:=X0) RooUnfoldT_vtable 1 kErrors o) = Ok v /\
    length v = 3%nat /\ vget 0 v 0 = Rabs 1 /\ vget 0 v 2 = Rabs 3.
Proof.
  intros o.
  destruct (dummy_errors_are_measured_errors (X:=X0) 1 o response3 hist3
              eq_refl eq_refl eq_refl eq_refl)
    as (v & o1 & Hrun & Hlen & Hget).
  assert (H3 : forall i, (i < 3)%nat -> (i < _nt o)%nat) by (intros i Hi; exact Hi).
  exists v. split; [rewrite Hrun; reflexivity|]. split; [exact Hlen|].
  split; [exact (Hget 0%nat (H3 0%nat ltac:(lia)))
         | exact (Hget 2%nat (H3 2%nat ltac:(lia)))].
Defined.


(** [dummy_algorithm_returns] on the three-bin object, for the full
    covariance with weights. *)
Lemma dummy_algorithm_returns_witness :
  let o := after_Setup (X:=X0) (Some response3) (Some hist3) in
  (exists ok o1,
      UnfoldWithErrors (X:=X0) RooUnfoldT_vtable 1 kCovariance true o = (Ok ok, o1)) /\
  (exists v o1,
      EunfoldV (X:=X0) RooUnfoldT_vtable 1 kCovariance o = (Ok v, o1) /\
      length v = 3%nat /\ Forall (fun x => 0 <= x) v).
Proof.
  intros o.
  assert (Hb : bound o) by (split; discriminate).
  assert (H1 : kCovariance <> kCovToy) by discriminate.
  assert (H2 : kCovariance <> kRooFit) by discriminate.
  assert (H3 : kCovariance <> kDefault) by discriminate.
  destruct (dummy_algorithm_returns (X:=X0) 1 kCovariance true o Hb H1 H2)
    as ((ok & o1 & Hrun & _) & HE).
  split; [exists ok, o1; exact Hrun|]. exact (HE H3).
Defined.

(** [base_class_throws_for_kRooFit] on the three-bin object after a plain
    unfolding. *)
Lemma base_class_throws_for_kRooFit_witness :
  let o := snd (UnfoldWithErrors (X:=X0) RooUnfoldT_vtable 1 kNoError false
                  (after_Setup (X:=X0) (Some response3) (Some hist3))) in
  fst (UnfoldWithErrors (X:=X0) RooUnfoldT_vtable 1 kRooFit false o)
  = Raise (runtime_error "unknown error propagation method!").
Proof.
  intros o.
  assert (Hu : _unfolded (_cache o) = true) by (vm_compute; reflexivity).
  assert (He : _withError o <> kRooFit \/ _haveErrors (_cache o) = false)
    by (right; vm_compute; reflexivity).
  destruct (base_class_throws_for_kRooFit (X:=X0) 1 o Hu He) as (o1 & Hrun & _).
  rewrite Hrun. reflexivity.
Defined.

(** [weights_need_convergence] on the three-bin object, with the solver
    that never converges. *)
Lemma weights_need_convergence_witness :
  let o := snd (UnfoldWithErrors (X:=X0) RooUnfoldT_vtable 1 kCovariance false
                  (after_Setup (X:=X0) (Some response3) (Some hist3))) in
  exists o1,
    UnfoldWithErrors (X:=X0) RooUnfoldT_vtable 1 kCovariance true o = (Ok false, o1) /\
    _haveWgt (_cache o1) = false /\ _fail (_cache o1) = true.
Proof.
  intros o.
  assert (Hu : _unfolded (_cache o) = true) by (vm_compute; reflexivity).
  assert (Hc : _haveCov (_cache o) = true) by (vm_compute; reflexivity).
  assert (Hw : _haveWgt (_cache o) = false) by (vm_compute; reflexivity).
  destruct (weights_need_convergence (X:=X0) 1 o Hu Hc Hw)
    as (o1 & Hrun & _ & Hhave & Hfail & _).
  exists o1. split; [exact Hrun|]. split; [exact Hhave|].
  rewrite Hfail. vm_compute. reflexivity.
Defined.

(** [kDefault_is_rejected_by_the_accessors] on the three-bin object after a
    plain unfolding. *)
Lemma kDefault_is_rejected_by_the_accessors_witness :
  let o := snd (UnfoldWithErrors (X:=X0) RooUnfoldT_vtable 1 kNoError false
                  (after_Setup (X:=X0) (Some response3) (Some hist3))) in
  fst (UnfoldWithErrors (X:=X0) RooUnfoldT_vtable 1 kDefault false o) = Ok true /\
  fst (EunfoldV (X:=X0) RooUnfoldT_vtable 1 kDefault o)
  = Raise (runtime_error
             "Error in RooUnfoldT::EunfoldV, unrecognised error method '%d'").
Proof.
  intros o.
  assert (Hu : _unfolded (_cache o) = true) by (vm_compute; reflexivity).
  destruct (kDefault_is_rejected_by_the_accessors (X:=X0) RooUnfoldT_vtable 1 o Hu)
    as (o1 & Hrun & _ & HE & _).
  rewrite Hrun, HE. split; reflexivity.
Defined.

(** [EunfoldV_is_root_of_Eunfold_diagonal] on the two-bin object with the
    measured covariance [[4; 1]; [1; 9]]. *)
Lemma EunfoldV_is_root_of_Eunfold_diagonal_witness :
  let o := snd (SetMeasuredCov (X:=X0) cov2
                  (after_Setup (X:=X0) (Some response2) (Some hist2))) in
  exists E v,
    fst (Eunfold (X:=X0) RooUnfoldT_vtable 1 kCovariance o) = Ok E /\
    fst (EunfoldV (X:=X0) RooUnfoldT_vtable 1 kCovariance o) = Ok v /\
    vget 0 v 1 = sqrt (Rabs (mget 0 E 1 1)).
Proof.
  intros o.
  set (o1 := snd (UnfoldWithErrors (X:=X0) RooUnfoldT_vtable 1 kCovariance false o)).
  assert (H1 : UnfoldWithErrors (X:=X0) RooUnfoldT_vtable 1 kCovariance false o
               = (Ok true, o1)) by (vm_compute; reflexivity).
  assert (H2 : _nt o1 = _nt o) by (vm_compute; reflexivity).
  assert (H3 : kCovariance <> kDefault) by discriminate.
  destruct (EunfoldV_is_root_of_Eunfold_diagonal (X:=X0) RooUnfoldT_vtable 1
              kCovariance o o1 H1 H2 H3)
    as (E & v & HE & Hv & Hget).
  assert (Hi : (1 < _nt o)%nat) by (vm_compute; lia).
  exists E, v. split; [rewrite HE; reflexivity|].
  split; [rewrite Hv; reflexivity|]. exact (Hget 1%nat Hi).
Defined.

(** [failed_unfolding_waits_for_reset]: the three-bin object has been
    through an [Unfold()] that gave up; the base class takes over. *)
Lemma failed_unfolding_waits_for_reset_witness :
  let o := snd (UnfoldWithErrors (X:=X0) failing_vtable 1 kNoError false
                  (after_Setup (X:=X0) (Some response3) (Some hist3))) in
  UnfoldWithErrors (X:=X0) RooUnfoldT_vtable 1 kErrors false o = (Ok false, o) /\
  fst (UnfoldWithErrors (X:=X0) RooUnfoldT_vtable 1 kNoError false
         (snd (ClearCache (X:=X0) o))) = Ok true.
Proof.
  intros o.
  assert (Hu : _unfolded (_cache o) = false) by (vm_compute; reflexivity).
  assert (Hf : _fail (_cache o) = true) by (vm_compute; reflexivity).
  destruct (failed_unfolding_waits_for_reset (X:=X0) RooUnfoldT_vtable 1 kErrors
              false o Hu Hf) as (Hrun & _ & Hagain).
  split; [exact Hrun|].
  set (o1 := snd (call_Unfold (X:=X0) RooUnfoldT_vtable (snd (ClearCache (X:=X0) o)))).
  assert (Hcall : call_Unfold (X:=X0) RooUnfoldT_vtable (snd (ClearCache (X:=X0) o))
                  = (Ok tt, o1)) by (vm_compute; reflexivity).
  assert (Hu1 : _unfolded (_cache o1) = true) by (vm_compute; reflexivity).
  exact (Hagain o1 Hcall Hu1).
Defined.

(** [Chi2_after_a_failure] on the three-bin object after the inversion of
    the covariance has failed. *)
Lemma Chi2_after_a_failure_witness :
  let o := snd (UnfoldWithErrors (X:=X0) RooUnfoldT_vtable 1 kCovariance true
                  (after_Setup (X:=X0) (Some response3) (Some hist3))) in
  fst (UnfoldWithErrors (X:=X0) RooUnfoldT_vtable 1 kNoError false o) = Ok true /\
  fst (Chi2 (X:=X0) RooUnfoldT_vtable 1 (Some hist3) kNoError o) = Ok (-1.0).
Proof.
  intros o.
  assert (Hu : _unfolded (_cache o) = true) by (vm_compute; reflexivity).
  assert (Hf : _fail (_cache o) = true) by (vm_compute; reflexivity).
  destruct (Chi2_after_a_failure (X:=X0) RooUnfoldT_vtable 1 hist3 o Hu Hf)
    as (Hrun & o2 & Hchi & _).
  split; [exact Hrun|]. exact (f_equal fst Hchi).
Defined.


(** [RunToys_collects]: two toys of the three-bin object under the
    treatment [kNoError]. *)
Lemma RunToys_collects_witness :
  let o := snd (UnfoldWithErrors (X:=X0) RooUnfoldT_vtable 1 kNoError false
                  (after_Setup (X:=X0) (Some response3) (Some hist3))) in
  exists vx' o',
    RunToys (X:=X0) RooUnfoldT_vtable 1 2 [] [] [] o = (Ok (vx', [], []), o') /\
    length vx' = 2%nat /\ _withError o' = kNoError /\ _cache o' = Cache_ctor.
Proof.
  intros o.
  set (vx' := [[10 + INR 1; 20 + INR 1; 30 + INR 1];
               [10 + INR 2; 20 + INR 2; 30 + INR 2]]).
  set (o' := snd (RunToys (X:=X0) RooUnfoldT_vtable 1 2 [] [] [] o)).
  assert (Hrun : RunToys (X:=X0) RooUnfoldT_vtable 1 2 [] [] [] o
                 = (Ok (vx', [], []), o')) by (vm_compute; reflexivity).
  destruct (RunToys_collects (X:=X0) RooUnfoldT_vtable 1 2 [] [] [] o o' vx' [] [] Hrun)
    as (Hlen & _ & _ & _ & Hw & Hc).
  exists vx', o'. split; [exact Hrun|]. split; [exact Hlen|].
  split; [rewrite Hw; vm_compute; reflexivity | exact Hc].
Defined.

(** [RunToy_needs_an_error_treatment] on the three-bin object after a plain
    unfolding. *)
Lemma RunToy_needs_an_error_treatment_witness :
  let o := snd (UnfoldWithErrors (X:=X0) RooUnfoldT_vtable 1 kNoError false
                  (after_Setup (X:=X0) (Some response3) (Some hist3))) in
  _withError o = kNoError /\
  forall out o', RunToy (X:=X0) RooUnfoldT_vtable 1 o <> (Ok out, o').
Proof.
  intros o.
  assert (Hw : _withError o = kNoError) by (vm_compute; reflexivity).
  split; [exact Hw|].
  exact (RunToy_needs_an_error_treatment (X:=X0) RooUnfoldT_vtable 1 o Hw).
Defined.

(** [toy_covariance_needs_two_toys] on the three-bin object with one toy
    configured. *)
Lemma toy_covariance_needs_two_toys_witness :
  let o := snd (UnfoldWithErrors (X:=X0) RooUnfoldT_vtable 1 kNoError false
                  (snd (SetNToys 1 (after_Setup (X:=X0) (Some response3) (Some hist3))))) in
  exists o1,
    UnfoldWithErrors (X:=X0) RooUnfoldT_vtable 2 kCovToy false o = (Ok false, o1) /\
    _fail (_cache o1) = true /\ _rec (_cache o1) = [10; 20; 30].
Proof.
  intros o.
  assert (Hu : _unfolded (_cache o) = true) by (vm_compute; reflexivity).
  assert (He : _have_err_mat (_cache o) = false) by (vm_compute; reflexivity).
  assert (Hn : (_NToys o <= 1)%Z) by (vm_compute; discriminate).
  destruct (toy_covariance_needs_two_toys (X:=X0) RooUnfoldT_vtable 1 false o Hu He Hn)
    as (o1 & Hrun & Hf & _ & _ & Hrec & _).
  exists o1. split; [exact Hrun|]. split; [exact Hf|].
  rewrite Hrec. vm_compute. reflexivity.
Defined.

(** [err_mat_entry_is_sample_covariance] for the two toys [1; 2] and
    [3; 4]: the means are 2 and 3. *)
Lemma err_mat_entry_is_sample_covariance_witness :
  let toys := [[1; 2]; [3; 4]] in
  err_mat_entry (X:=X0) 2 (fst (toys_sums (X:=X0) 2 toys))
                (snd (toys_sums (X:=X0) 2 toys)) 0 1
  = sum_over toys
      (fun x => (vget 0 x 0 - sum_over toys (fun x => vget 0 x 0) / 2)
                * (vget 0 x 1 - sum_over toys (fun x => vget 0 x 1) / 2))
    / IZR (2 - 1).
Proof.
  intros toys.
  assert (Hi : (0 < 2)%nat) by lia.
  assert (Hj : (1 < 2)%nat) by lia.
  assert (Hn : (2 <= length toys)%nat) by (simpl; lia).
  exact (err_mat_entry_is_sample_covariance (X:=X0) 2 toys 0 1 Hi Hj Hn).
Defined.


(** [estimator_bias] on the three-bin object: the dummy algorithm returns
    the measured contents, which are the truth, so the bias is zero. *)
Lemma estimator_bias_witness :
  let o := after_Setup (X:=X0) (Some response3) (Some hist3) in
  exists o',
    bias_protocol (X:=X0) RooUnfoldT_vtable 1 kBiasEstimator 0 [10; 20; 30] [1; 2; 3]
                  o o = (Ok tt, o') /\
    _bias (_cache o') = [(10 - 10) / 10; (20 - 20) / 20; (30 - 30) / 30].
Proof.
  intros o.
  set (sigma := [sqrt (Rabs (1 * 1)); sqrt (Rabs (2 * 2)); sqrt (Rabs (3 * 3))]).
  set (tf1 := snd (Vunfold (X:=X0) RooUnfoldT_vtable o)).
  set (tf2 := snd (EunfoldV (X:=X0) RooUnfoldT_vtable 1 kErrors tf1)).
  assert (H1 : Vunfold (X:=X0) RooUnfoldT_vtable o = (Ok [10; 20; 30], tf1))
    by (vm_compute; reflexivity).
  assert (H2 : EunfoldV (X:=X0) RooUnfoldT_vtable 1 (EunfoldV_default (Externals:=X0)) tf1
               = (Ok sigma, tf2)) by (vm_compute; reflexivity).
  destruct (estimator_bias (X:=X0) RooUnfoldT_vtable 1 0 [10; 20; 30] [1; 2; 3]
              o tf1 tf2 [10; 20; 30] sigma o H1 H2)
    as (o' & Hp & Hb & _).
  exists o'. split; [exact Hp|].
  rewrite Hb. change (_nt o) with 3%nat. cbn [seq map].
  change (vget (gNanValue (Externals:=X0)) [10; 20; 30] 0) with 10.
  change (vget (gNanValue (Externals:=X0)) [10; 20; 30] 1) with 20.
  change (vget (gNanValue (Externals:=X0)) [10; 20; 30] 2) with 30.
  rewrite !Reqb_false by lra. reflexivity.
Defined.

(** [asimov_bias] on the one-bin object with two outer and two inner
    toys: four deviations come back. *)
Lemma asimov_bias_witness :
  let o := after_Setup (X:=X0) (Some response1) (Some hist1) in
  let toyFactory := set_verbose 0%Z (set_alg kNone o) in
  exists o',
    bias_protocol (X:=X0) RooUnfoldT_vtable 1 kBiasAsimov 2 [4] [0] toyFactory o
    = (Ok tt, o') /\
    length (_bias (_cache o')) = 1%nat /\
    size_t_pred_to_double 4 = INR 4 - 1.
Proof.
  intros o toyFactory.
  set (bias := [[4 - (4 + INR 2)]; [4 - (4 + INR 2)];
                [4 - (4 + INR 5)]; [4 - (4 + INR 5)]]).
  set (left := snd (RunBiasAsimovToys (X:=X0) RooUnfoldT_vtable 2 [] toyFactory)).
  assert (Hrun : RunBiasAsimovToys (X:=X0) RooUnfoldT_vtable 2 [] toyFactory
                 = (Ok bias, left)) by (vm_compute; reflexivity).
  destruct (asimov_bias (X:=X0) RooUnfoldT_vtable 1 2 [4] [0] toyFactory left bias o Hrun)
    as (o' & Hp & Hb & _ & Hpred).
  assert (H1 : (1 <= length bias)%nat) by (simpl; lia).
  assert (H2 : (Z.of_nat (length bias) <= 2 ^ 64)%Z) by (vm_compute; discriminate).
  exists o'. split; [exact Hp|].
  split; [rewrite Hb, length_map, length_seq; reflexivity|].
  exact (Hpred H1 H2).
Defined.

(** [bias_needs_CalculateBias] on the one-bin object, for the Asimov
    protocol with two toys. *)
Lemma bias_needs_CalculateBias_witness :
  let o := after_Setup (X:=X0) (Some response1) (Some hist1) in
  exists o',
    CalculateBias (X:=X0) RooUnfoldT_vtable 1 kBiasAsimov 2 None o = (Ok tt, o') /\
    Vbias (X:=X0) o' = (Ok (_bias (_cache o')), o') /\
    fst (Vbias (X:=X0) (snd (ClearCache (X:=X0) o')))
    = Raise (runtime_error "calculate bias before attempting to retrieve it!").
Proof.
  intros o.
  assert (Ha : _alg o <> kDagostini) by (vm_compute; discriminate).
  pose proof (CalculateBias_base (X:=X0) 1 kBiasAsimov 2 None o response1 hist1
                eq_refl eq_refl Ha) as Hcb.
  cbv zeta in Hcb.
  match type of Hcb with _ = ?run => set (o' := snd run) end.
  assert (Hrun : CalculateBias (X:=X0) RooUnfoldT_vtable 1 kBiasAsimov 2 None o
                 = (Ok tt, o')) by (rewrite Hcb; vm_compute; reflexivity).
  clearbody o'.
  destruct (bias_needs_CalculateBias (X:=X0) RooUnfoldT_vtable 1 kBiasAsimov 2 None
              o o' Hrun) as (Hv & _ & Hc & _).
  exists o'. split; [exact Hrun|]. split; [exact Hv|].
  exact (f_equal fst Hc).
Defined.

(** [CalculateBias_keeps_the_result] on the one-bin object after a plain
    unfolding, for the Asimov protocol with two toys. *)
Lemma CalculateBias_keeps_the_result_witness :
  let o := snd (UnfoldWithErrors (X:=X0) RooUnfoldT_vtable 1 kNoError false
                  (after_Setup (X:=X0) (Some response1) (Some hist1))) in
  _rec (_cache o) = [4] /\
  result_kept o (snd (CalculateBias (X:=X0) RooUnfoldT_vtable 1 kBiasAsimov 2 None o)).
Proof.
  intros o. split; [vm_compute; reflexivity|].
  destruct (CalculateBias_keeps_the_result (X:=X0) RooUnfoldT_vtable 1 kBiasAsimov 2
              None o (keeps_ret (X:=X0) regparm_unset)) as (H & _).
  exact H.
Defined.


(** [CutZeros_drops_zero_rows] on a covariance whose first bin is empty:
    the first row and the first column go. *)
Lemma CutZeros_drops_zero_rows_witness :
  CutZeros (X:=X0) cov3 = Ok cov2.
Proof.
  assert (Hr : rect 3 3 cov3) by (split; [reflexivity | repeat constructor]).
  destruct (CutZeros_drops_zero_rows (X:=X0) 3 cov3 Hr) as (cut & Hrun & Hrect & Hget).
  assert (T0 : row_total (X:=X0) cov3 0 = 0) by (vm_compute; lra).
  assert (T1 : row_total (X:=X0) cov3 1 <> 0) by (vm_compute; lra).
  assert (T2 : row_total (X:=X0) cov3 2 <> 0) by (vm_compute; lra).
  assert (Z1 : zero_rows_above (X:=X0) cov3 1 = 1%nat).
  { rewrite zero_rows_above_S, (Reqb_true _ _ T0). reflexivity. }
  assert (Z2 : zero_rows_above (X:=X0) cov3 2 = 1%nat).
  { rewrite zero_rows_above_S, Z1, (Reqb_false _ _ T1). reflexivity. }
  assert (Z3 : zero_rows_above (X:=X0) cov3 3 = 1%nat).
  { rewrite zero_rows_above_S, Z2, (Reqb_false _ _ T2). reflexivity. }
  rewrite Z3 in Hrect, Hget. cbn [Nat.sub] in Hrect, Hget.
  rewrite Hrun. f_equal.
  apply (rect_ext (gNanValue (Externals:=X0)) 2 2 cut cov2 Hrect);
    [split; [reflexivity | repeat constructor]|].
  intros i j Hi Hj.
  destruct i as [|[|i]]; [| |lia].
  - assert (H1 : (1 < 3)%nat) by lia.
    generalize (Hget 1%nat j H1 Hj T1). rewrite Z1. cbn [Nat.sub]. intros ->.
    destruct j as [|[|j]]; [reflexivity | reflexivity | lia].
  - assert (H2 : (2 < 3)%nat) by lia.
    generalize (Hget 2%nat j H2 Hj T2). rewrite Z2. cbn [Nat.sub]. intros ->.
    destruct j as [|[|j]]; [reflexivity | reflexivity | lia].
Defined.

(** [CutZeros_nothing_or_all] on a covariance without an empty bin. *)
Lemma CutZeros_nothing_or_all_witness :
  CutZeros (X:=X0) cov2 = Ok cov2.
Proof.
  assert (Hr : rect 2 2 cov2) by (split; [reflexivity | repeat constructor]).
  destruct (CutZeros_nothing_or_all (X:=X0) 2 cov2 Hr) as (Hnone & _).
  apply Hnone. intros d Hd.
  destruct d as [|[|d]]; [vm_compute; lra | vm_compute; lra | lia].
Defined.

(** [SetMeasured_cov_keeps_zero_errors] on the three-bin object: the
    variances 4 and 9 of the covariance given do not reach the measured
    errors. *)
Lemma SetMeasured_cov_keeps_zero_errors_witness :
  let o := after_Setup (X:=X0) (Some response3) (Some hist3) in
  exists o1,
    SetMeasured_cov (X:=X0) [1; 2; 3] cov3 o = (Ok tt, o1) /\
    _meas o1 = Some ([1; 2; 3], [0; 0; 0]) /\
    fst (GetMeasuredCov (X:=X0) o1) = Ok cov3 /\
    fst (Emeasured (X:=X0) o1) = Ok [0; 0; 0].
Proof.
  intros o.
  assert (Hnan : Rltb 0 (gNanValue (Externals:=X0)) = false) by apply Rltb_irrefl.
  destruct (SetMeasured_cov_keeps_zero_errors (X:=X0) [1; 2; 3] cov3 o response3
              eq_refl Hnan) as (o1 & Hrun & Hm & _ & Hc & He).
  exists o1. split; [exact Hrun|]. split; [exact Hm|].
  split; [exact (f_equal fst Hc) | exact (f_equal fst He)].
Defined.

(** [SetMeasured_errors_keeps_the_cache] on the three-bin object after its
    measured vector has been read. *)
Lemma SetMeasured_errors_keeps_the_cache_witness :
  let o := snd (Vmeasured (X:=X0) (after_Setup (X:=X0) (Some response3) (Some hist3))) in
  exists o1,
    SetMeasured_errors (X:=X0) [1; 2; 3] [9; 9; 9] o = (Ok tt, o1) /\
    _meas o1 = Some ([1; 2; 3], [0; 0; 0]) /\
    Vmeasured (X:=X0) o1 = (Ok [10; 20; 30], o1).
Proof.
  intros o.
  destruct (SetMeasured_errors_keeps_the_cache (X:=X0) [1; 2; 3] [9; 9; 9] o response3
              eq_refl) as (o1 & Hrun & Hm & _ & _ & Hv).
  exists o1. split; [exact Hrun|]. split; [exact Hm|].
  apply Hv. reflexivity.
Defined.
